(** * Report-to-chart pipeline: a shallow embedding of
      [smart_chart_generator.py] and of the chart functions of
      [api_service.py], with the properties of the specification.

    Python values are embedded as follows.
    - [str] is a sequence of Unicode code points: [pystr := list N].
    - JSON-shaped objects (dict / list / str / int / float / bool / None)
      are the inductive type [pyval]; a dict is an association list in
      insertion order with unique keys.
    - A call either returns or raises: [Outcome].  Calls that touch the
      outside world (the language-model service, the matplotlib backend)
      thread a [World] that records every exchange.
    - Library functions whose code is not part of the repository
      ([json.loads], [str.lower], [str(e)], ...) are fields of the class
      [PyLib]; the external services are fields of the class [Env]. *)

From Stdlib Require Import List ZArith NArith String Ascii Floats Lia Bool.
From Stdlib Require DecimalString.
Import ListNotations.

Set Warnings "-inexact-float,-register-all".

(* ================================================================== *)
(** * Python strings *)

Module Str.

Local Open Scope N_scope.

(** A Python [str]: the sequence of its code points. *)
Definition pystr := list N.

(** UTF-8 decoding of a well-formed byte sequence; used only to write the
    string constants of the source in readable form. *)
Fixpoint utf8_go (bs : list N) (acc : N) (k : nat) : pystr :=
  match bs with
  | [] => []
  | b :: r =>
      match k with
      | O =>
          if b <? 128 then b :: utf8_go r 0 0
          else if b <? 224 then utf8_go r (b - 192) 1
          else if b <? 240 then utf8_go r (b - 224) 2
          else utf8_go r (b - 240) 3
      | S O => (acc * 64 + (b - 128)) :: utf8_go r 0 0
      | S k' => utf8_go r (acc * 64 + (b - 128)) k'
      end
  end.

Definition u (s : string) : pystr :=
  utf8_go (map N_of_ascii (list_ascii_of_string s)) 0 0.

(** The double-quote and newline characters. *)
Definition dq : pystr := [34].
Definition nl : pystr := [10].

Definition eqb (a b : pystr) : bool :=
  if list_eq_dec N.eq_dec a b then true else false.

(** [str.isspace] on one code point: the characters CPython's
    [_PyUnicode_IsWhitespace] accepts. *)
Definition is_space (c : N) : bool :=
  ((9 <=? c) && (c <=? 13)) || ((28 <=? c) && (c <=? 32))
  || (c =? 133) || (c =? 160) || (c =? 5760)
  || ((8192 <=? c) && (c <=? 8202))
  || (c =? 8232) || (c =? 8233) || (c =? 8239) || (c =? 8287)
  || (c =? 12288).

Fixpoint lstrip (s : pystr) : pystr :=
  match s with
  | [] => []
  | c :: r => if is_space c then lstrip r else s
  end.

Definition rstrip (s : pystr) : pystr := rev (lstrip (rev s)).

(** [s.strip()] *)
Definition strip (s : pystr) : pystr := rstrip (lstrip s).

(** [s.startswith(p)] *)
Fixpoint startswith (s p : pystr) {struct p} : bool :=
  match p with
  | [] => true
  | a :: p' =>
      match s with
      | [] => false
      | c :: s' => (c =? a) && startswith s' p'
      end
  end.

(** [p in s] for strings: [p] occurs in [s] as a contiguous run. *)
Fixpoint contains (s p : pystr) : bool :=
  startswith s p ||
  match s with
  | [] => false
  | _ :: r => contains r p
  end.

(** [s.find(p)]: the index of the first occurrence, [None] for -1. *)
Fixpoint find (s p : pystr) : option nat :=
  if startswith s p then Some 0%nat
  else
    match s with
    | [] => None
    | _ :: r => option_map S (find r p)
    end.

(** [s.split(sep)] for a non-empty separator: occurrences are found left
    to right and do not overlap.  [cur] holds the current piece reversed,
    [skip] the characters of a matched separator still to be passed. *)
Fixpoint split_go (sep s cur : pystr) (skip : nat) : list pystr :=
  match s with
  | [] => [rev cur]
  | c :: r =>
      match skip with
      | S k => split_go sep r cur k
      | O =>
          if startswith s sep
          then rev cur :: split_go sep r [] (List.length sep - 1)
          else split_go sep r (c :: cur) 0
      end
  end.

Definition split (s sep : pystr) : list pystr := split_go sep s [] 0.

(** [s[:n]] and [s[n:]] for a non-negative literal [n]. *)
Definition prefix (n : nat) (s : pystr) : pystr := firstn n s.
Definition suffix_from (n : nat) (s : pystr) : pystr := skipn n s.

End Str.

Import Str.

(* ================================================================== *)
(** * Python values, exceptions and outcomes *)

(** Objects of the shapes [json.loads] produces, which are also the
    shapes the programs build themselves. *)
Inductive pyval : Type :=
| VNone
| VBool (b : bool)
| VInt (z : Z)
| VFloat (f : float)
| VStr (s : pystr)
| VList (l : list pyval)
| VDict (d : list (pystr * pyval)).

(** The exceptions that occur.  All of them derive from [Exception].
    The message of an exception raised by a builtin is not modelled;
    [str(e)] is the library function [str_exn] below. *)
Inductive exn : Type :=
| KeyError (key : pyval)
| IndexError
| TypeError
| AttributeError
| ValueError (msg : pystr)
| OverflowError
| JSONDecodeError
| HTTPException (status_code : Z) (detail : pystr)
| LibraryError (code : N).

Inductive Outcome (A : Type) : Type :=
| Ret (a : A)
| Raise (e : exn).
Arguments Ret {A} a.
Arguments Raise {A} e.

Definition is_Ret {A} (o : Outcome A) : bool :=
  match o with Ret _ => true | Raise _ => false end.

Module Py.

Fixpoint lookup (d : list (pystr * pyval)) (k : pystr) : option pyval :=
  match d with
  | [] => None
  | (k', v) :: r => if Str.eqb k' k then Some v else lookup r k
  end.

(** [d[k] = v] on a dict: the value of an existing key is replaced in
    place, a new key is added at the end. *)
Fixpoint store (d : list (pystr * pyval)) (k : pystr) (v : pyval)
  : list (pystr * pyval) :=
  match d with
  | [] => [(k, v)]
  | (k', v') :: r =>
      if Str.eqb k' k then (k', v) :: r else (k', v') :: store r k v
  end.

(** The attribute lookup [o.get]: only dicts have it. *)
Definition get_attr (o : pyval) : Outcome (list (pystr * pyval)) :=
  match o with
  | VDict d => Ret d
  | _ => Raise AttributeError
  end.

(** [o.get(k, default)] once [default] has been evaluated. *)
Definition get (o : pyval) (k : pystr) (default : pyval) : Outcome pyval :=
  match o with
  | VDict d =>
      Ret (match lookup d k with Some v => v | None => default end)
  | _ => Raise AttributeError
  end.

(** [o[k]] with a string key. *)
Definition getitem (o : pyval) (k : pystr) : Outcome pyval :=
  match o with
  | VDict d =>
      match lookup d k with
      | Some v => Ret v
      | None => Raise (KeyError (VStr k))
      end
  | _ => Raise TypeError
  end.

(** [o[k] = v] with a string key. *)
Definition setitem (o : pyval) (k : pystr) (v : pyval) : Outcome pyval :=
  match o with
  | VDict d => Ret (VDict (store d k v))
  | _ => Raise TypeError
  end.

(** [o[i]] with a non-negative integer index. *)
Definition index (o : pyval) (i : nat) : Outcome pyval :=
  match o with
  | VList l =>
      match nth_error l i with
      | Some v => Ret v
      | None => Raise IndexError
      end
  | VStr s =>
      match nth_error s i with
      | Some c => Ret (VStr [c])
      | None => Raise IndexError
      end
  | VDict _ => Raise (KeyError (VInt (Z.of_nat i)))
  | _ => Raise TypeError
  end.

(** [len(o)] *)
Definition len (o : pyval) : Outcome nat :=
  match o with
  | VList l => Ret (List.length l)
  | VStr s => Ret (List.length s)
  | VDict d => Ret (List.length d)
  | _ => Raise TypeError
  end.

(** Truth value of an object, as [if o:] and [not o] take it. *)
Definition truthy (o : pyval) : bool :=
  match o with
  | VNone => false
  | VBool b => b
  | VInt z => negb (z =? 0)%Z
  | VFloat f => negb (f =? 0)%float
  | VStr s => match s with [] => false | _ => true end
  | VList l => match l with [] => false | _ => true end
  | VDict d => match d with [] => false | _ => true end
  end.

(** [o == "literal"] *)
Definition eq_str (o : pyval) (s : pystr) : bool :=
  match o with
  | VStr t => Str.eqb t s
  | _ => false
  end.

(** [l[:n]] on a list, for any integer [n]: a negative bound counts
    from the end.  *)
Definition slice_to {A} (l : list A) (n : Z) : list A :=
  if (n <? 0)%Z
  then firstn (Z.to_nat (Z.of_nat (List.length l) + n)) l
  else firstn (Z.to_nat n) l.

(** The items a [for] loop draws from [o[:n]]: the elements of a list,
    the characters of a string; other objects cannot be sliced. *)
Definition iter_slice_to (o : pyval) (n : Z) : Outcome (list pyval) :=
  match o with
  | VList l => Ret (slice_to l n)
  | VStr s => Ret (map (fun c => VStr [c]) (slice_to s n))
  | _ => Raise TypeError
  end.

(** [range(n)] as the list of its values. *)
Definition range (n : nat) : pyval := VList (map (fun i => VInt (Z.of_nat i)) (seq 0 n)).

End Py.

(** Library functions used by the source whose code is not part of the
    repository. *)
Class PyLib : Type := {
  (** [json.loads(s)]: the parsed object, or [JSONDecodeError]. *)
  json_loads : pystr -> Outcome pyval;
  (** [json.dumps(o, ensure_ascii=False, indent=2)] *)
  json_dumps_indent2 : pyval -> pystr;
  (** [json.dumps(o, ensure_ascii=False)] *)
  json_dumps : pyval -> pystr;
  (** [s.lower()] *)
  str_lower : pystr -> pystr;
  (** [str(o)] for an object that is not a [str] *)
  str_value : pyval -> pystr;
  (** [str(n)] for an integer *)
  str_int : Z -> pystr;
  (** [str(e)] for an exception *)
  str_exn : exn -> pystr;
  (** [format(x, ".1f")] for a number *)
  format_1f : pyval -> pystr;
  (** [base64.b64encode(b).decode("utf-8")] *)
  b64encode : list N -> pystr;
  (** the texts of the pages of a PDF, as PyPDF2 extracts them *)
  pdf_page_texts : list N -> Outcome (list pystr);
  (** [zip_file.writestr(name, data)] on an archive open for writing: it
      raises for a name that it cannot encode or that is too long *)
  zip_writestr : pystr -> list N -> Outcome unit;
  (** rendering of a replacement field of [str.format] that has an
      accessor, a conversion or a format specification *)
  format_spec_field : pystr -> pystr -> option N -> pystr -> Outcome pystr
}.

(** [str(o)] / [format(o)] as an f-string applies it. *)
Definition to_str `{PyLib} (o : pyval) : pystr :=
  match o with
  | VStr s => s
  | _ => str_value o
  end.

(* ================================================================== *)
(** * [str.format] with keyword arguments

    The scanner of CPython's format strings ([MarkupIterator_next] and
    [parse_field]): literal text runs up to a brace; a doubled brace is
    an escaped brace; a single [{] opens a replacement field whose name
    runs up to [:], [!] or [}], and whose format specification runs up to
    the matching [}].  Every field is looked up (and rendered) as soon as
    it is closed, so the first error from the left is the one raised.
    The calls of the source pass keyword arguments only. *)

Module Format.

Local Open Scope N_scope.

Inductive state : Type :=
| Lit
| Name (name : pystr)
| Bracket (name : pystr)
| Bang (name : pystr)
| Conv (name : pystr) (conv : N)
| Spec (name : pystr) (conv : option N) (spec : pystr) (depth : nat).

Definition lbrace : N := 123.
Definition rbrace : N := 125.

Fixpoint first_part (name : pystr) : pystr * pystr :=
  match name with
  | [] => ([], [])
  | c :: r =>
      if (c =? 46) || (c =? 91) then ([], name)
      else let (a, b) := first_part r in (c :: a, b)
  end.

(** [Py_UNICODE_TODECIMAL]: the decimal digits of Unicode 14.0 (that of
    CPython 3.11) come in runs of ten, from zero to nine, which start at
    these code points. *)
Definition decimal_zeros : list N :=
  [48; 1632; 1776; 1984; 2406; 2534; 2662; 2790; 2918; 3046; 3174; 3302;
   3430; 3558; 3664; 3792; 3872; 4160; 4240; 6112; 6160; 6470; 6608; 6784;
   6800; 6992; 7088; 7232; 7248; 42528; 43216; 43264; 43472; 43504; 43600;
   44016; 65296; 66720; 68912; 69734; 69872; 69942; 70096; 70384; 70736;
   70864; 71248; 71360; 71472; 71904; 72016; 72784; 73040; 73120; 92768;
   92864; 93008; 120782; 120792; 120802; 120812; 120822; 123200; 123632;
   125264; 130032].

Definition decimal_value (c : N) : option N :=
  match List.find (fun zero => (zero <=? c) && (c <? zero + 10)) decimal_zeros with
  | Some zero => Some (c - zero)
  | None => None
  end.

Definition is_digit (c : N) : bool :=
  match decimal_value c with
  | Some _ => true
  | None => false
  end.

(** An empty first part is an automatically numbered positional field,
    a decimal number an explicitly numbered one. *)
Definition is_positional (first : pystr) : bool := forallb is_digit first.

(** [get_integer]: the number a decimal first part stands for, which
    has to fit [Py_ssize_t]. *)
Definition ssize_t_max : N := 2 ^ 63 - 1.

Fixpoint get_integer (first : pystr) (accumulator : N) : option N :=
  match first with
  | [] => Some accumulator
  | c :: r =>
      match decimal_value c with
      | None => None
      | Some digitval =>
          if (ssize_t_max - digitval) / 10 <? accumulator then None
          else get_integer r (accumulator * 10 + digitval)
      end
  end.

Fixpoint kw_lookup (kw : list (pystr * pystr)) (k : pystr) : option pystr :=
  match kw with
  | [] => None
  | (k', v) :: r => if Str.eqb k' k then Some v else kw_lookup r k
  end.

(** [get_field_object] then [render_field]. *)
Definition render `{PyLib} (kw : list (pystr * pystr))
    (name : pystr) (conv : option N) (spec : pystr) : Outcome pystr :=
  let (first, rest) := first_part name in
  if is_positional first then
    match get_integer first 0 with
    | Some _ => Raise IndexError
    | None =>
        Raise (ValueError (u "Too many decimal digits in format string"))
    end
  else
    match kw_lookup kw first with
    | None => Raise (KeyError (VStr first))
    | Some v =>
        match rest, conv, spec with
        | [], None, [] => Ret v
        | _, _, _ => format_spec_field v rest conv spec
        end
    end.

Definition emit (c : N) (o : Outcome pystr) : Outcome pystr :=
  match o with
  | Ret s => Ret (c :: s)
  | Raise e => Raise e
  end.

Definition emit_field (f rest : Outcome pystr) : Outcome pystr :=
  match f with
  | Raise e => Raise e
  | Ret v =>
      match rest with
      | Ret s => Ret (v ++ s)
      | Raise e => Raise e
      end
  end.

Fixpoint go `{PyLib} (kw : list (pystr * pystr)) (s : pystr) (st : state)
  : Outcome pystr :=
  match s with
  | [] =>
      match st with
      | Lit => Ret []
      | Name _ | Bracket _ =>
          Raise (ValueError (u "expected '}' before end of string"))
      | Bang _ =>
          Raise (ValueError
                   (u "end of string while looking for conversion specifier"))
      | Conv _ _ | Spec _ _ _ _ =>
          Raise (ValueError (u "unmatched '{' in format spec"))
      end
  | c :: r =>
      match st with
      | Lit =>
          if c =? lbrace then
            match r with
            | [] =>
                Raise (ValueError (u "Single '{' encountered in format string"))
            | c2 :: r2 =>
                if c2 =? lbrace then emit lbrace (go kw r2 Lit)
                else go kw r (Name [])
            end
          else if c =? rbrace then
            match r with
            | [] =>
                Raise (ValueError (u "Single '}' encountered in format string"))
            | c2 :: r2 =>
                if c2 =? rbrace then emit rbrace (go kw r2 Lit)
                else
                  Raise (ValueError
                           (u "Single '}' encountered in format string"))
            end
          else emit c (go kw r Lit)
      | Name n =>
          if c =? lbrace then
            Raise (ValueError (u "unexpected '{' in field name"))
          else if c =? 91 then go kw r (Bracket (c :: n))
          else if c =? rbrace then
            emit_field (render kw (rev n) None []) (go kw r Lit)
          else if c =? 58 then go kw r (Spec n None [] 1)
          else if c =? 33 then go kw r (Bang n)
          else go kw r (Name (c :: n))
      | Bracket n =>
          if c =? 93 then go kw r (Name (c :: n))
          else go kw r (Bracket (c :: n))
      | Bang n => go kw r (Conv n c)
      | Conv n cv =>
          if c =? rbrace then
            emit_field (render kw (rev n) (Some cv) []) (go kw r Lit)
          else if c =? 58 then go kw r (Spec n (Some cv) [] 1)
          else
            Raise (ValueError (u "expected ':' after conversion specifier"))
      | Spec n cv sp d =>
          if c =? lbrace then go kw r (Spec n cv (c :: sp) (S d))
          else if c =? rbrace then
            match d with
            | S (S d') => go kw r (Spec n cv (c :: sp) (S d'))
            | _ => emit_field (render kw (rev n) cv (rev sp)) (go kw r Lit)
            end
          else go kw r (Spec n cv (c :: sp) d)
      end
  end.

(** [template.format(k1=v1, ..., kn=vn)] *)
Definition format `{PyLib} (template : pystr) (kw : list (pystr * pystr))
  : Outcome pystr :=
  go kw template Lit.

End Format.

(* ================================================================== *)
(** * The outside world: language-model service and plotting backend *)

(** The two module-level [OpenAI()] objects, and a client built from an
    explicit key. *)
Inductive client_id : Type :=
| api_service_client
| smart_chart_generator_client
| keyed_client (api_key : pystr).

(** The arguments of one [client.chat.completions.create] call. *)
Record ChatRequest : Type := {
  rq_client : client_id;
  rq_model : pystr;
  rq_messages : pyval;
  rq_temperature : option float;
  rq_max_tokens : Z
}.

(** What the source reads of a completion:
    [response.choices[0].message.content] (which the API may leave
    [None]) and [response.usage.total_tokens]. *)
Record ChatCompletion : Type := {
  content : option pystr;
  usage_total_tokens : Z
}.

Definition Exchange : Type := (ChatRequest * Outcome ChatCompletion)%type.

(** The matplotlib calls of [create_chart]. *)
Inductive PlotCall : Type :=
| style_use (style : pystr)
| subplots
| ax_plot (x y : pyval) (marker : bool) (label : option pyval)
| ax_grid (axis_y_only : bool)
| ax_legend
| cm_Set3 (n : nat)
| ax_bar (x y colors : pyval)
| ax_pie (values labels colors explode : pyval)
| ax_axis_equal
| ax_scatter (x y sizes colors : pyval)
| colorbar
| ax_imshow (matrix : pyval)
| ax_set_xticks (n : nat)
| ax_set_xticklabels (labels : pyval)
| ax_set_yticks (n : nat)
| ax_set_yticklabels (labels : pyval)
| ax_text (j i : nat) (text : pystr)
| ax_fill_between (x y : pyval)
| ax_set_title (title : pyval)
| ax_set_xlabel (label : pyval)
| ax_set_ylabel (label : pyval)
| tight_layout
| savefig
| close (fig : nat).

(** The state the programs act on: every exchange with the language
    model, every plotting call, and the figures that are open. *)
Record World : Type := {
  chat_log : list Exchange;
  plot_log : list PlotCall;
  open_figures : list nat;
  next_figure : nat
}.

Definition empty_world : World :=
  {| chat_log := []; plot_log := []; open_figures := []; next_figure := 0 |}.

(** The behaviour of the external services.  An answer may depend on
    everything that was exchanged before. *)
Class Env : Type := {
  (** the language-model service *)
  chat_service : list Exchange -> ChatRequest -> Outcome ChatCompletion;
  (** whether a plotting call raises *)
  plt_raises : list PlotCall -> PlotCall -> option exn;
  (** the colours [plt.cm.Set3(range(n))] returns *)
  Set3_colors : nat -> pyval;
  (** the PNG bytes [plt.savefig] writes *)
  png_bytes : list PlotCall -> list N;
  (** [datetime.now().isoformat()] *)
  now_isoformat : pystr
}.

(** ** Computations: state passing with exceptions *)

Definition M (A : Type) : Type := World -> Outcome A * World.

Definition ret {A} (a : A) : M A := fun w => (Ret a, w).
Definition raise {A} (e : exn) : M A := fun w => (Raise e, w).
Definition lift {A} (o : Outcome A) : M A := fun w => (o, w).

Definition bind {A B} (m : M A) (k : A -> M B) : M B :=
  fun w =>
    match m w with
    | (Ret a, w') => k a w'
    | (Raise e, w') => (Raise e, w')
    end.

(** [try: m  except Exception as e: h e] *)
Definition try_except {A} (m : M A) (h : exn -> M A) : M A :=
  fun w =>
    match m w with
    | (Ret a, w') => (Ret a, w')
    | (Raise e, w') => h e w'
    end.

Declare Scope py_scope.
Delimit Scope py_scope with py.
Notation "x <- m ;; k" := (bind m (fun x => k))
  (at level 61, m at next level, right associativity) : py_scope.
Notation "m ;;; k" := (bind m (fun _ => k))
  (at level 61, right associativity) : py_scope.
Open Scope py_scope.

(** [client.chat.completions.create(...)] *)
Definition chat_completions_create `{Env} (rq : ChatRequest)
  : M ChatCompletion :=
  fun w =>
    let o := chat_service (chat_log w) rq in
    (o, {| chat_log := chat_log w ++ [(rq, o)];
           plot_log := plot_log w;
           open_figures := open_figures w;
           next_figure := next_figure w |}).

(** [response.choices[0].message.content.strip()]: [None] has no
    [strip]. *)
Definition content_strip (c : option pystr) : Outcome pystr :=
  match c with
  | Some s => Ret (strip s)
  | None => Raise AttributeError
  end.

(* ================================================================== *)
(** * Removal of the markdown code fence

    The same five lines occur in [extract_financial_data] (lines
    110-115), in [generate_chart_config] (155-159) and in
    [create_smart_chart] (721-726); the specification calls them
    [normalize].  [normalize_stripped] is the part after the first
    [strip()]. *)

Definition fence : pystr := u "```".
Definition json_tag : pystr := u "json".

(** [parts[1]] *)
Definition second (parts : list pystr) : Outcome pystr :=
  match nth_error parts 1 with
  | Some p => Ret p
  | None => Raise IndexError
  end.

Definition normalize_stripped (result : pystr) : Outcome pystr :=
  match
    (if startswith result fence then
       match second (split result fence) with
       | Ret seg =>
           Ret (if startswith seg json_tag then suffix_from 4 seg else seg)
       | Raise e => Raise e
       end
     else Ret result)
  with
  | Ret r => Ret (strip r)
  | Raise e => Raise e
  end.

Definition normalize (raw : pystr) : Outcome pystr :=
  normalize_stripped (strip raw).

(* ================================================================== *)
(** * smart_chart_generator.py *)

(** An object with the two stage methods that [generate_multiple_charts]
    and [integrate_smart_chart_to_api] call through [self] and through
    [generator]; Python binds them when the call is made. *)
Record Generator : Type := {
  extract_financial_data : pystr -> M pyval;
  generate_chart_config : pyval -> pystr -> M pyval
}.

Module SmartChartGenerator.

Definition EXTRACTION_PROMPT : pystr :=
  u "Bạn là chuyên gia phân tích báo cáo tài chính và data visualization.

NHIỆM VỤ: Trích xuất TẤT CẢ dữ liệu số từ báo cáo tài chính và đề xuất các biểu đồ phù hợp.

QUY TẮC QUAN TRỌNG:
1. Tìm tất cả các bảng số liệu, chỉ số tài chính
2. Trích xuất số liệu CHÍNH XÁC (giữ nguyên đơn vị: triệu, tỷ, %, v.v.)
3. Nhóm dữ liệu theo loại: doanh thu, lợi nhuận, tài sản, nợ, tỷ lệ...
4. Đề xuất 3-5 biểu đồ quan trọng nhất

ĐỊNH DẠNG OUTPUT (JSON):
{
    " ++ dq ++ u "extracted_data" ++ dq
  ++ u ": {
        " ++ dq ++ u "revenue" ++ dq
  ++ u ": {
            " ++ dq ++ u "periods" ++ dq ++ u ": [" ++ dq ++ u "Q1 2024"
  ++ dq ++ u ", " ++ dq ++ u "Q2 2024" ++ dq
  ++ u ", ...],
            " ++ dq ++ u "values" ++ dq
  ++ u ": [100, 120, ...],
            " ++ dq ++ u "unit" ++ dq ++ u ": " ++ dq ++ u "tỷ VNĐ" ++ dq
  ++ u "
        },
        " ++ dq ++ u "profit" ++ dq
  ++ u ": {...},
        " ++ dq ++ u "assets" ++ dq
  ++ u ": {...},
        " ++ dq ++ u "liabilities" ++ dq
  ++ u ": {...}
    },
    " ++ dq ++ u "recommended_charts" ++ dq
  ++ u ": [
        {
            " ++ dq ++ u "title" ++ dq ++ u ": " ++ dq ++ u "Tên biểu đồ"
  ++ dq
  ++ u ",
            " ++ dq ++ u "type" ++ dq ++ u ": " ++ dq
  ++ u "line|bar|pie|area|scatter" ++ dq
  ++ u ",
            " ++ dq ++ u "data_source" ++ dq ++ u ": " ++ dq
  ++ u "revenue|profit|assets|..." ++ dq
  ++ u ",
            " ++ dq ++ u "priority" ++ dq
  ++ u ": 1,
            " ++ dq ++ u "description" ++ dq ++ u ": " ++ dq
  ++ u "Giải thích tại sao cần biểu đồ này" ++ dq
  ++ u "
        }
    ]
}

BÁO CÁO TÀI CHÍNH:
{report_content}
".

Definition CHART_GENERATION_PROMPT : pystr :=
  u "Bạn là chuyên gia tạo biểu đồ từ dữ liệu tài chính.

NHIỆM VỤ: Tạo cấu hình biểu đồ CHÍNH XÁC để vẽ ngay lập tức.

DỮ LIỆU ĐÃ TRÍCH XUẤT:
{extracted_data}

YÊU CẦU BIỂU ĐỒ: {chart_request}

ĐỊNH DẠNG OUTPUT (JSON - KHÔNG THÊM TEXT):
{
    " ++ dq ++ u "chart_type" ++ dq ++ u ": " ++ dq
  ++ u "line|bar|pie|area|scatter|heatmap" ++ dq
  ++ u ",
    " ++ dq ++ u "title" ++ dq ++ u ": " ++ dq ++ u "Tiêu đề biểu đồ cụ thể"
  ++ dq
  ++ u ",
    " ++ dq ++ u "xlabel" ++ dq ++ u ": " ++ dq ++ u "Nhãn trục X (nếu có)"
  ++ dq
  ++ u ",
    " ++ dq ++ u "ylabel" ++ dq ++ u ": " ++ dq ++ u "Nhãn trục Y (nếu có)"
  ++ dq
  ++ u ", 
    " ++ dq ++ u "data" ++ dq
  ++ u ": {
        // Dữ liệu chính xác theo format của chart_type:
        // line/bar/area: {" ++ dq ++ u "x" ++ dq ++ u ": [...], " ++ dq
  ++ u "y" ++ dq ++ u ": [...], " ++ dq ++ u "label" ++ dq ++ u ": " ++ dq
  ++ u "..." ++ dq
  ++ u "}
        // pie: {" ++ dq ++ u "labels" ++ dq ++ u ": [...], " ++ dq
  ++ u "values" ++ dq
  ++ u ": [...]}
        // scatter: {" ++ dq ++ u "x" ++ dq ++ u ": [...], " ++ dq ++ u "y"
  ++ dq ++ u ": [...], " ++ dq ++ u "sizes" ++ dq
  ++ u ": [...]}
    }
}

LƯU Ý: Số liệu phải CHÍNH XÁC từ dữ liệu đã trích xuất!
".

Definition message (role content : pystr) : pyval :=
  VDict [(u "role", VStr role); (u "content", VStr content)].

Section Methods.
Context `{PyLib} `{Env}.

(** The request of line 203:
    [f"Tạo {chart_rec['type']} chart: {chart_rec['title']}"] *)
Definition chart_request_of (type title : pyval) : pystr :=
  u "Tạo " ++ to_str type ++ u " chart: " ++ to_str title.

(** One iteration of the loop of [generate_multiple_charts] (lines
    197-215), for the recommendation [chart_rec] at index [i].  The
    [print] of line 198 evaluates [chart_rec['title']] outside the [try];
    the [print] of line 211 evaluates [chart_config['title']] after the
    [append], inside the [try] whose handler only continues. *)
Definition chart_step (self : Generator) (extracted_data : pyval)
    (i : nat) (chart_rec : pyval) (chart_configs : list pyval)
  : M (list pyval) :=
  _ <- lift (Py.getitem chart_rec (u "title")) ;;
  try_except
    (type <- lift (Py.getitem chart_rec (u "type")) ;;
     title <- lift (Py.getitem chart_rec (u "title")) ;;
     chart_config <-
       generate_chart_config self extracted_data (chart_request_of type title) ;;
     priority <-
       lift (Py.get chart_rec (u "priority") (VInt (Z.of_nat i + 1))) ;;
     chart_config <- lift (Py.setitem chart_config (u "priority") priority) ;;
     description <- lift (Py.get chart_rec (u "description") (VStr [])) ;;
     chart_config <-
       lift (Py.setitem chart_config (u "description") description) ;;
     let appended := chart_configs ++ [chart_config] in
     try_except
       (_ <- lift (Py.getitem chart_config (u "title")) ;; ret appended)
       (fun _ => ret appended))
    (fun _ => ret chart_configs).

Fixpoint chart_loop (self : Generator) (extracted_data : pyval)
    (i : nat) (items : list pyval) (chart_configs : list pyval)
  : M (list pyval) :=
  match items with
  | [] => ret chart_configs
  | chart_rec :: rest =>
      chart_configs <- chart_step self extracted_data i chart_rec chart_configs ;;
      chart_loop self extracted_data (S i) rest chart_configs
  end.

(** [generate_multiple_charts(self, report_content, num_charts)] *)
Definition generate_multiple_charts (self : Generator)
    (report_content : pystr) (num_charts : Z) : M pyval :=
  extraction_result <- extract_financial_data self report_content ;;
  extracted_data <-
    lift (Py.get extraction_result (u "extracted_data") (VDict [])) ;;
  recommended_charts <-
    lift (Py.get extraction_result (u "recommended_charts") (VList [])) ;;
  if negb (Py.truthy extracted_data) then
    raise (ValueError (u "Không thể trích xuất dữ liệu từ báo cáo"))
  else
    _ <- lift (Py.len extracted_data) ;;
    _ <- lift (Py.len recommended_charts) ;;
    items <- lift (Py.iter_slice_to recommended_charts num_charts) ;;
    chart_configs <- chart_loop self extracted_data 0 items [] ;;
    ret (VList chart_configs).

(** [json.loads(result)] under [except json.JSONDecodeError], which
    raises [ValueError(f"{text}{result[:200]}")]. *)
Definition loads_or_ValueError (text result : pystr) : M pyval :=
  match json_loads result with
  | Ret v => ret v
  | Raise JSONDecodeError => raise (ValueError (text ++ prefix 200 result))
  | Raise e => raise e
  end.

(** What both methods do with the completion (lines 108-120 and
    152-164): its content is stripped, the fence is removed, and the text
    is parsed; [text] is the opening of the message of the [ValueError]. *)
Definition parse_completion (text : pystr) (response : ChatCompletion)
  : M pyval :=
  result <- lift (content_strip (content response)) ;;
  result <- lift (normalize_stripped result) ;;
  loads_or_ValueError text result.

(** [extract_financial_data(self, report_content)], for [self.client] *)
Definition extract_financial_data (client : client_id)
    (report_content : pystr) : M pyval :=
  prompt <-
    lift (Format.format EXTRACTION_PROMPT
            [(u "report_content", report_content)]) ;;
  response <-
    chat_completions_create
      {| rq_client := client;
         rq_model := u "gpt-4o";
         rq_messages :=
           VList
             [message (u "system")
                (u "Bạn là chuyên gia phân tích tài chính. Trả về ĐÚNG format JSON.");
              message (u "user") prompt];
         rq_temperature := Some 0.3%float;
         rq_max_tokens := 3000 |} ;;
  parse_completion (u "AI không trả về JSON hợp lệ: ") response.

(** [generate_chart_config(self, extracted_data, chart_request)] *)
Definition generate_chart_config (client : client_id)
    (extracted_data : pyval) (chart_request : pystr) : M pyval :=
  prompt <-
    lift (Format.format CHART_GENERATION_PROMPT
            [(u "extracted_data", json_dumps_indent2 extracted_data);
             (u "chart_request", chart_request)]) ;;
  response <-
    chat_completions_create
      {| rq_client := client;
         rq_model := u "gpt-4o";
         rq_messages :=
           VList
             [message (u "system")
                (u "Bạn là chuyên gia data visualization. Trả về ĐÚNG format JSON.");
              message (u "user") prompt];
         rq_temperature := Some 0.2%float;
         rq_max_tokens := 2000 |} ;;
  parse_completion (u "Không thể parse cấu hình biểu đồ: ") response.

(** [SmartChartGenerator(api_key)]: the object and its client. *)
Definition new (api_key : option pystr) : Generator :=
  let client :=
    match api_key with
    | Some (c :: k) => keyed_client (c :: k)
    | _ => smart_chart_generator_client
    end in
  Build_Generator (extract_financial_data client)
                  (generate_chart_config client).

End Methods.

End SmartChartGenerator.

Section Integration.
Context `{PyLib} `{Env}.

Definition chart_keywords : list pystr :=
  [u "biểu đồ"; u "chart"; u "vẽ"; u "graph"].

(** [user_request and any(keyword in user_request.lower() for keyword in
    [...])] *)
Definition wants_chart (user_request : option pystr) : bool :=
  match user_request with
  | None => false
  | Some [] => false
  | Some r => existsb (fun keyword => contains (str_lower r) keyword)
                      chart_keywords
  end.

Definition error_result (e : exn) : pyval :=
  VDict [(u "error", VStr (str_exn e));
         (u "extracted_data", VNone);
         (u "chart_configs", VList [])].

(** The body of the [try] of [integrate_smart_chart_to_api]. *)
Definition integrate_try (generator : Generator)
    (pdf_text : pystr) (user_request : option pystr) : M pyval :=
  if wants_chart user_request then
    extraction_result <- extract_financial_data generator pdf_text ;;
    extracted_data <-
      lift (Py.get extraction_result (u "extracted_data") (VDict [])) ;;
    chart_config <-
      generate_chart_config generator extracted_data
        (match user_request with Some r => r | None => [] end) ;;
    recommended_charts <-
      lift (Py.get extraction_result (u "recommended_charts") (VList [])) ;;
    ret (VDict [(u "extracted_data", extracted_data);
                (u "chart_configs", VList [chart_config]);
                (u "recommended_charts", recommended_charts)])
  else
    chart_configs <-
      SmartChartGenerator.generate_multiple_charts generator pdf_text 3 ;;
    ret (VDict [(u "chart_configs", chart_configs)]).

(** [integrate_smart_chart_to_api(pdf_text, user_request)]; [generator]
    is the object [SmartChartGenerator()] builds. *)
Definition integrate_smart_chart_to_api (generator : Generator)
    (pdf_text : pystr) (user_request : option pystr) : M pyval :=
  try_except (integrate_try generator pdf_text user_request)
             (fun e => ret (error_result e)).

End Integration.

(* ================================================================== *)
(** * api_service.py: the renderer *)

Section Renderer.
Context `{PyLib} `{Env}.

Definition log_plot (c : PlotCall) (w : World) : World :=
  {| chat_log := chat_log w;
     plot_log := plot_log w ++ [c];
     open_figures := open_figures w;
     next_figure := next_figure w |}.

(** A plotting call that returns nothing the source uses. *)
Definition plt_call (c : PlotCall) : M unit :=
  fun w =>
    match plt_raises (plot_log w) c with
    | Some e => (Raise e, log_plot c w)
    | None => (Ret tt, log_plot c w)
    end.

(** [fig, ax = plt.subplots(figsize=(10, 6))]: a new figure is opened. *)
Definition plt_subplots : M nat :=
  fun w =>
    match plt_raises (plot_log w) subplots with
    | Some e => (Raise e, log_plot subplots w)
    | None =>
        (Ret (next_figure w),
         {| chat_log := chat_log w;
            plot_log := plot_log w ++ [subplots];
            open_figures := next_figure w :: open_figures w;
            next_figure := S (next_figure w) |})
    end.

Fixpoint remove_figure (fig : nat) (figs : list nat) : list nat :=
  match figs with
  | [] => []
  | f :: r => if Nat.eqb f fig then r else f :: remove_figure fig r
  end.

(** [plt.close(fig)] *)
Definition plt_close (fig : nat) : M unit :=
  fun w =>
    (Ret tt,
     {| chat_log := chat_log w;
        plot_log := plot_log w ++ [close fig];
        open_figures := remove_figure fig (open_figures w);
        next_figure := next_figure w |}).

(** [plt.savefig(buffer, format='png', dpi=300, bbox_inches='tight')] *)
Definition plt_savefig : M (list N) :=
  fun w =>
    match plt_raises (plot_log w) savefig with
    | Some e => (Raise e, log_plot savefig w)
    | None => (Ret (png_bytes (plot_log w)), log_plot savefig w)
    end.

Definition when_ (b : bool) (m : M unit) : M unit :=
  if b then m else ret tt.

(** [for x in l: body x] *)
Fixpoint for_each {A} (l : list A) (body : A -> M unit) : M unit :=
  match l with
  | [] => ret tt
  | x :: r => body x ;;; for_each r body
  end.

(** An [int] is formatted with [.1f] through its conversion to
    [float], which rounds to the nearest double and raises
    [OverflowError] when that is beyond the largest one: from
    [2**1024 - 2**970] on. *)
Definition float_limit : Z := 2 ^ 1024 - 2 ^ 970.

Definition fits_float (z : Z) : bool := (Z.abs z <? float_limit)%Z.

(** [f'{v:.1f}'] *)
Definition format_cell (v : pyval) : Outcome pystr :=
  match v with
  | VInt z => if fits_float z then Ret (format_1f v) else Raise OverflowError
  | VFloat _ | VBool _ => Ret (format_1f v)
  | VStr _ =>
      Raise (ValueError (u "Unknown format code 'f' for object of type 'str'"))
  | _ => Raise TypeError
  end.

(** The branches of [create_chart], one per chart type. *)
Definition draw_line (data : pyval) : M unit :=
  x <- lift (Py.get data (u "x") (VList [])) ;;
  y <- lift (Py.get data (u "y") (VList [])) ;;
  label <- lift (Py.get data (u "label") (VStr [])) ;;
  plt_call (ax_plot x y true (Some label)) ;;;
  plt_call (ax_grid false) ;;;
  when_ (Py.truthy label) (plt_call ax_legend).

Definition draw_bar (data : pyval) : M unit :=
  x <- lift (Py.get data (u "x") (VList [])) ;;
  y <- lift (Py.get data (u "y") (VList [])) ;;
  n <- lift (Py.len x) ;;
  plt_call (cm_Set3 n) ;;;
  colors <- lift (Py.get data (u "colors") (Set3_colors n)) ;;
  plt_call (ax_bar x y colors) ;;;
  plt_call (ax_grid true).

Definition draw_pie (data : pyval) : M unit :=
  labels <- lift (Py.get data (u "labels") (VList [])) ;;
  values <- lift (Py.get data (u "values") (VList [])) ;;
  n <- lift (Py.len labels) ;;
  plt_call (cm_Set3 n) ;;;
  colors <- lift (Py.get data (u "colors") (Set3_colors n)) ;;
  n <- lift (Py.len labels) ;;
  explode <-
    lift (Py.get data (u "explode") (VList (repeat (VFloat 0.05) n))) ;;
  plt_call (ax_pie values labels colors explode) ;;;
  plt_call ax_axis_equal.

Definition draw_scatter (data : pyval) : M unit :=
  x <- lift (Py.get data (u "x") (VList [])) ;;
  y <- lift (Py.get data (u "y") (VList [])) ;;
  n <- lift (Py.len x) ;;
  sizes <- lift (Py.get data (u "sizes") (VList (repeat (VInt 100) n))) ;;
  n <- lift (Py.len x) ;;
  colors <- lift (Py.get data (u "colors") (Py.range n)) ;;
  plt_call (ax_scatter x y sizes colors) ;;;
  plt_call colorbar ;;;
  plt_call (ax_grid false).

(** The annotation of the cells (lines 187-190): the inner bound is
    [len(matrix[0])] for every row. *)
Definition annotate_cell (matrix : pyval) (i j : nat) : M unit :=
  row <- lift (Py.index matrix i) ;;
  cell <- lift (Py.index row j) ;;
  text <- lift (format_cell cell) ;;
  plt_call (ax_text j i text).

Definition annotate_row (matrix : pyval) (i : nat) : M unit :=
  first_row <- lift (Py.index matrix 0) ;;
  columns <- lift (Py.len first_row) ;;
  for_each (seq 0 columns) (annotate_cell matrix i).

Definition draw_heatmap (data : pyval) : M unit :=
  matrix <- lift (Py.get data (u "matrix") (VList [VList []])) ;;
  xlabels <- lift (Py.get data (u "xlabels") (VList [])) ;;
  ylabels <- lift (Py.get data (u "ylabels") (VList [])) ;;
  plt_call (ax_imshow matrix) ;;;
  when_ (Py.truthy xlabels)
    (n <- lift (Py.len xlabels) ;;
     plt_call (ax_set_xticks n) ;;;
     plt_call (ax_set_xticklabels xlabels)) ;;;
  when_ (Py.truthy ylabels)
    (n <- lift (Py.len ylabels) ;;
     plt_call (ax_set_yticks n) ;;;
     plt_call (ax_set_yticklabels ylabels)) ;;;
  plt_call colorbar ;;;
  rows <- lift (Py.len matrix) ;;
  for_each (seq 0 rows) (annotate_row matrix).

Definition draw_area (data : pyval) : M unit :=
  x <- lift (Py.get data (u "x") (VList [])) ;;
  y <- lift (Py.get data (u "y") (VList [])) ;;
  plt_call (ax_fill_between x y) ;;;
  plt_call (ax_plot x y false None) ;;;
  plt_call (ax_grid false).

Definition draw (data chart_type : pyval) : M unit :=
  if Py.eq_str chart_type (u "line") then draw_line data
  else if Py.eq_str chart_type (u "bar") then draw_bar data
  else if Py.eq_str chart_type (u "pie") then draw_pie data
  else if Py.eq_str chart_type (u "scatter") then draw_scatter data
  else if Py.eq_str chart_type (u "heatmap") then draw_heatmap data
  else if Py.eq_str chart_type (u "area") then draw_area data
  else raise (ValueError (u "Loại biểu đồ không hỗ trợ: " ++ to_str chart_type)).

(** The body of the [try] of [create_chart] (lines 136-217). *)
Definition create_chart_try (fig : nat)
    (data chart_type title xlabel ylabel : pyval) : M (list N) :=
  draw data chart_type ;;;
  plt_call (ax_set_title title) ;;;
  when_ (Py.truthy xlabel) (plt_call (ax_set_xlabel xlabel)) ;;;
  when_ (Py.truthy ylabel) (plt_call (ax_set_ylabel ylabel)) ;;;
  plt_call tight_layout ;;;
  buffer <- plt_savefig ;;
  plt_close fig ;;;
  ret buffer.

(** [create_chart(data, chart_type, title, xlabel, ylabel, style)]: the
    PNG bytes of the buffer it returns.  The assignment to
    [plt.rcParams['font.family']] of line 133 sets a valid key to a valid
    constant and is not a call that can fail. *)
Definition create_chart (data chart_type title xlabel ylabel : pyval)
    (style : pystr) : M (list N) :=
  plt_call (style_use style) ;;;
  fig <- plt_subplots ;;
  try_except
    (create_chart_try fig data chart_type title xlabel ylabel)
    (fun e =>
       plt_close fig ;;;
       raise (HTTPException 400 (u "Lỗi tạo biểu đồ: " ++ str_exn e))).

End Renderer.

(* ================================================================== *)
(** * api_service.py: batch rendering and the full pipeline *)

(** What an endpoint answers with: an archive (its members in order), a
    JSON body. *)
Inductive Response : Type :=
| ZipResponse (members : list (pystr * list N))
| JsonResponse (body : pyval).

(** An uploaded file: its name and its bytes. *)
Record UploadFile : Type := {
  filename : pystr;
  file_bytes : list N
}.

Section Endpoints.
Context `{PyLib} `{Env}.

(** Lines 721-728 of [create_smart_chart]: the completion is stripped,
    unfenced and parsed. *)
Definition smart_chart_config (ai_response : option pystr) : Outcome pyval :=
  match content_strip ai_response with
  | Raise e => Raise e
  | Ret json_text =>
      match normalize_stripped json_text with
      | Raise e => Raise e
      | Ret json_text => json_loads json_text
      end
  end.

(** The call [create_chart(data=config["data"], chart_type=
    config["chart_type"], title=config["title"], xlabel=
    config.get("xlabel"), ylabel=config.get("ylabel"), style=...)] that
    every rendering endpoint makes. *)
Definition create_chart_of (config : pyval) (style : pystr) : M (list N) :=
  data <- lift (Py.getitem config (u "data")) ;;
  chart_type <- lift (Py.getitem config (u "chart_type")) ;;
  title <- lift (Py.getitem config (u "title")) ;;
  xlabel <- lift (Py.get config (u "xlabel") VNone) ;;
  ylabel <- lift (Py.get config (u "ylabel") VNone) ;;
  create_chart data chart_type title xlabel ylabel style.

(** [title.replace(' ', '_')]: only a [str] has [replace]. *)
Definition replace_spaces (title : pyval) : Outcome pystr :=
  match title with
  | VStr s => Ret (map (fun c => if (c =? 32)%N then 95%N else c) s)
  | _ => Raise AttributeError
  end.

(** The loop of the [zip] branch (lines 999-1012); [i] starts at 1. *)
Fixpoint zip_loop (i : nat) (chart_configs : list pyval)
    (members : list (pystr * list N)) : M (list (pystr * list N)) :=
  match chart_configs with
  | [] => ret members
  | config :: rest =>
      chart_buffer <- create_chart_of config (u "seaborn") ;;
      title <- lift (Py.getitem config (u "title")) ;;
      name <- lift (replace_spaces title) ;;
      let filename :=
        str_int (Z.of_nat i) ++ u "_" ++ name ++ u ".png" in
      _ <- lift (zip_writestr filename chart_buffer) ;;
      zip_loop (S i) rest (members ++ [(filename, chart_buffer)])
  end.

(** The loop of the [individual] branch (lines 1027-1044). *)
Fixpoint individual_loop (chart_configs : list pyval) (results : list pyval)
  : M (list pyval) :=
  match chart_configs with
  | [] => ret results
  | config :: rest =>
      chart_buffer <- create_chart_of config (u "seaborn") ;;
      let base64_image := b64encode chart_buffer in
      title <- lift (Py.getitem config (u "title")) ;;
      chart_type <- lift (Py.getitem config (u "chart_type")) ;;
      individual_loop rest
        (results ++ [VDict [(u "title", title);
                            (u "chart_type", chart_type);
                            (u "image_base64", VStr base64_image)]])
  end.

(** [render_all_charts(chart_configs, output_format)] *)
Definition render_all_charts (chart_configs : list pyval)
    (output_format : pystr) : M Response :=
  try_except
    (if Str.eqb output_format (u "zip") then
       members <- zip_loop 1 chart_configs [] ;;
       ret (ZipResponse members)
     else
       results <- individual_loop chart_configs [] ;;
       ret (JsonResponse
              (VDict [(u "success", VBool true);
                      (u "count", VInt (Z.of_nat (List.length results)));
                      (u "charts", VList results)])))
    (fun e => raise (HTTPException 500 (str_exn e))).

(** [extract_text_from_pdf(pdf_file)] *)
Definition extract_text_from_pdf (pdf_content : list N) : Outcome pystr :=
  match pdf_page_texts pdf_content with
  | Ret pages => Ret (List.concat (map (fun page => page ++ nl ++ nl) pages))
  | Raise e => Raise e
  end.

Definition opt_val (c : option pystr) : pyval :=
  match c with
  | Some s => VStr s
  | None => VNone
  end.

(** The request of lines 847-857 for one image. *)
Definition image_request (base64_image : pystr) : ChatRequest :=
  {| rq_client := api_service_client;
     rq_model := u "gpt-4o";
     rq_messages :=
       VList
         [VDict
            [(u "role", VStr (u "user"));
             (u "content",
              VList
                [VDict
                   [(u "type", VStr (u "text"));
                    (u "text",
                     VStr (u "Phân tích chi tiết nội dung trong ảnh: biểu đồ, bảng, số liệu, text."))];
                 VDict
                   [(u "type", VStr (u "image_url"));
                    (u "image_url",
                     VDict
                       [(u "url",
                         VStr (u "data:image/jpeg;base64," ++ base64_image))])]])]];
     rq_temperature := None;
     rq_max_tokens := 1500 |}.

(** The loop over the images (lines 843-867); the state is the list
    [results["ocr_results"]["images"]], [total_tokens] and
    [combined_text]. *)
Fixpoint image_loop (image_files : list UploadFile)
    (images : list pyval) (total_tokens : Z) (combined_text : pystr)
  : M (list pyval * Z * pystr) :=
  match image_files with
  | [] => ret (images, total_tokens, combined_text)
  | img_file :: rest =>
      let base64_image := b64encode (file_bytes img_file) in
      response <- chat_completions_create (image_request base64_image) ;;
      let img_analysis := opt_val (content response) in
      image_loop rest
        (images ++ [VDict [(u "filename", VStr (filename img_file));
                           (u "analysis", img_analysis)]])
        (total_tokens + usage_total_tokens response)
        (combined_text ++ nl ++ nl ++ u "=== Từ ảnh: " ++ filename img_file
           ++ u " ===" ++ nl ++ to_str img_analysis)
  end.

Definition charts_failed (charts : list (pystr * pyval)) (e : exn)
  : list (pystr * pyval) :=
  Py.store (Py.store charts (u "available") (VBool false))
           (u "error") (VStr (str_exn e)).

Definition store_if_truthy (charts : list (pystr * pyval)) (key : pystr)
    (v : pyval) : list (pystr * pyval) :=
  if Py.truthy v then Py.store charts key v else charts.

(** Step 3 (lines 873-900): the dict [results["charts"]]. *)
Definition smart_charts (generator : Generator) (pdf_text : pystr)
    (text_content : option pystr) : M (list (pystr * pyval)) :=
  try_except
    (chart_result <-
       integrate_smart_chart_to_api generator pdf_text text_content ;;
     configs <- lift (Py.get chart_result (u "chart_configs") VNone) ;;
     if Py.truthy configs then
       let charts := [(u "available", VBool true)] in
       try_except
         (count <- lift (Py.len configs) ;;
          let charts := Py.store charts (u "count") (VInt (Z.of_nat count)) in
          let charts := Py.store charts (u "configs") configs in
          extracted_data <-
            lift (Py.get chart_result (u "extracted_data") VNone) ;;
          let charts :=
            store_if_truthy charts (u "extracted_data") extracted_data in
          recommended_charts <-
            lift (Py.get chart_result (u "recommended_charts") VNone) ;;
          ret (store_if_truthy charts (u "recommendations") recommended_charts))
         (fun e => ret (charts_failed charts e))
     else
       ret [(u "available", VBool false);
            (u "message",
             VStr (u "Không thể trích xuất dữ liệu biểu đồ từ báo cáo"))])
    (fun e => ret (charts_failed [] e)).

Definition prompts_map : list (pystr * pyval) :=
  [(u "summary",
    VStr (u "Tóm tắt Executive Summary ngắn gọn với các điểm chính"));
   (u "detailed",
    VStr (u "Phân tích chi tiết toàn diện báo cáo tài chính"));
   (u "insights",
    VStr (u "Phát hiện insights quan trọng và đưa ra khuyến nghị chiến lược"));
   (u "json",
    VStr (u "Trích xuất dữ liệu có cấu trúc JSON với các chỉ số quan trọng"))].

(** The request of lines 911-921. *)
Definition analysis_request (output_format combined_text : pystr)
  : ChatRequest :=
  let instruction :=
    match Py.lookup prompts_map output_format with
    | Some v => to_str v
    | None => u "Phân tích chi tiết toàn diện báo cáo tài chính"
    end in
  {| rq_client := api_service_client;
     rq_model := u "gpt-4o";
     rq_messages :=
       VList
         [SmartChartGenerator.message (u "system")
            (u "Bạn là chuyên gia phân tích báo cáo tài chính của VTC NETVIET.");
          SmartChartGenerator.message (u "user")
            (instruction ++ nl ++ nl ++ u "NỘI DUNG:" ++ nl ++ combined_text)];
     rq_temperature := Some 0.7%float;
     rq_max_tokens := 3000 |}.

(** The body of the [try] of [full_pipeline]. *)
Definition full_pipeline_try (generator : Generator)
    (pdf_file : option UploadFile) (image_files : list UploadFile)
    (text_content : option pystr) (output_format : pystr)
    (create_charts : bool) : M pyval :=
  let timestamp := now_isoformat in
  let combined_text :=
    match text_content with Some t => t | None => [] end in
  let total_tokens := 0%Z in
  (* 1. the PDF *)
  pdf <-
    match pdf_file with
    | Some f =>
        pdf_text <- lift (extract_text_from_pdf (file_bytes f)) ;;
        ret (pdf_text,
             [(u "pdf",
               VDict [(u "filename", VStr (filename f));
                      (u "text_length",
                       VInt (Z.of_nat (List.length pdf_text)))])],
             combined_text ++ nl ++ nl ++ u "=== Từ PDF: " ++ filename f
               ++ u " ===" ++ nl ++ pdf_text)
    | None => ret ([], [], combined_text)
    end ;;
  let '(pdf_text, input_summary, combined_text) := pdf in
  (* 2. the images *)
  ocr <-
    match image_files with
    | [] => ret ([], total_tokens, combined_text)
    | _ =>
        r <- image_loop image_files [] total_tokens combined_text ;;
        let '(images, total_tokens, combined_text) := r in
        ret ([(u "images", VList images)], total_tokens, combined_text)
    end ;;
  let '(ocr_results, total_tokens, combined_text) := ocr in
  (* 3. the charts *)
  charts <-
    (if create_charts && Py.truthy (VStr pdf_text)
     then smart_charts generator pdf_text text_content
     else ret []) ;;
  (* 4. the analysis *)
  an <-
    match strip combined_text with
    | [] => ret ([], total_tokens)
    | _ =>
        response <-
          chat_completions_create
            (analysis_request output_format combined_text) ;;
        ret ([(u "output_format", VStr output_format);
              (u "result", opt_val (content response))],
             (total_tokens + usage_total_tokens response)%Z)
    end ;;
  let '(analysis, total_tokens) := an in
  (* 5. the statistics *)
  let statistics :=
    [(u "total_tokens_used", VInt total_tokens);
     (u "pdf_processed",
      VBool (match pdf_file with Some _ => true | None => false end));
     (u "images_processed", VInt (Z.of_nat (List.length image_files)));
     (u "charts_created",
      if create_charts
      then match Py.lookup charts (u "count") with
           | Some v => v
           | None => VInt 0
           end
      else VInt 0);
     (u "output_format", VStr output_format)] in
  ret (VDict [(u "input_summary", VDict input_summary);
              (u "ocr_results", VDict ocr_results);
              (u "analysis", VDict analysis);
              (u "charts", VDict charts);
              (u "statistics", VDict statistics);
              (u "timestamp", VStr timestamp)]).

(** [full_pipeline(pdf_file, image_files, text_content, output_format,
    create_charts)]; [generator] is the object that
    [integrate_smart_chart_to_api] builds with [SmartChartGenerator()]. *)
Definition full_pipeline (generator : Generator)
    (pdf_file : option UploadFile) (image_files : list UploadFile)
    (text_content : option pystr) (output_format : pystr)
    (create_charts : bool) : M pyval :=
  try_except
    (full_pipeline_try generator pdf_file image_files text_content
       output_format create_charts)
    (fun e => raise (HTTPException 500 (str_exn e))).

End Endpoints.

(* ================================================================== *)
(** * Observations on a run *)

(** The exchanges with the service that [w'] has after those of [w]. *)
Definition new_exchanges (w w' : World) : list Exchange :=
  skipn (List.length (chat_log w)) (chat_log w').

(** The plotting calls that [w'] has after those of [w]. *)
Definition new_plot_calls (w w' : World) : list PlotCall :=
  skipn (List.length (plot_log w)) (plot_log w').

(** [w] with one more exchange. *)
Definition add_exchange (w : World) (x : Exchange) : World :=
  {| chat_log := chat_log w ++ [x];
     plot_log := plot_log w;
     open_figures := open_figures w;
     next_figure := next_figure w |}.



(** The priority that line 207 gives the spec of the recommendation at
    index [i]: [chart_rec.get("priority", i + 1)]. *)
Definition priority_for (i : nat) (chart_rec : pyval) : option pyval :=
  match Py.get chart_rec (u "priority") (VInt (Z.of_nat i + 1)) with
  | Ret priority => Some priority
  | Raise _ => None
  end.

Fixpoint priorities_from (i : nat) (items : list pyval)
  : list (option pyval) :=
  match items with
  | [] => []
  | chart_rec :: rest => priority_for i chart_rec :: priorities_from (S i) rest
  end.

(** [l] is [l'] with some of its elements left out. *)
Inductive subsequence {A : Type} : list A -> list A -> Prop :=
| subsequence_nil : subsequence [] []
| subsequence_skip (x : A) (l l' : list A) :
    subsequence l l' -> subsequence l (x :: l')
| subsequence_take (x : A) (l l' : list A) :
    subsequence l l' -> subsequence (x :: l) (x :: l').

(** The value stored under [key] in the dict [o]. *)
Definition field (o : pyval) (key : pystr) : option pyval :=
  match o with
  | VDict d => Py.lookup d key
  | _ => None
  end.

(** [m] keeps the relation [R] between the state it starts in and the
    state it ends in, whether it returns or raises. *)
Definition stable {A} (R : World -> World -> Prop) (m : M A) : Prop :=
  forall w, R w (snd (m w)).

(** No figure is opened or closed on balance. *)
Definition same_figures (w w' : World) : Prop :=
  open_figures w' = open_figures w /\ next_figure w' = next_figure w.

(** [m] ends by closing [fig] when it returns, and leaves it open when
    it raises. *)
Definition releases {A} (fig : nat) (old : list nat) (m : M A) : Prop :=
  forall w,
    open_figures w = fig :: old ->
    match m w with
    | (Ret _, w') =>
        exists wk, open_figures wk = fig :: old /\ w' = snd (plt_close fig wk)
    | (Raise _, w') => open_figures w' = fig :: old
    end.

(** What is asked of a plotting call for a pie whose labels are [labels]
    and whose explode array is to be [explode]. *)
Definition pie_call_uses (labels explode : pyval) (c : PlotCall) : Prop :=
  match c with
  | ax_pie _ l _ e => l = labels /\ e = explode
  | _ => True
  end.

(** The plotting calls added all meet [P]. *)
Definition plot_calls_meet (P : PlotCall -> Prop) (w w' : World) : Prop :=
  exists calls, plot_log w' = plot_log w ++ calls /\ Forall P calls.

(** A backend that accepts every call. *)
Definition permissive `{Env} : Prop :=
  forall log c, plt_raises log c = None.

(** [m] raises from every state. *)
Definition must_raise {A} (m : M A) : Prop :=
  forall w, is_Ret (fst (m w)) = false.


(* ================================================================== *)
(** * api_service.py: the analysis endpoints and the demo data *)

Section Analysis.
Context `{PyLib} `{Env}.

(** [analyze_with_openai(prompt, system_message)]: the content of the
    completion, which may be [None]. *)
Definition analyze_with_openai (prompt : pystr)
    (system_message : option pystr) : M (option pystr) :=
  let messages :=
    match system_message with
    | Some (c :: s) => [SmartChartGenerator.message (u "system") (c :: s)]
    | _ => []
    end ++ [SmartChartGenerator.message (u "user") prompt] in
  response <-
    chat_completions_create
      {| rq_client := api_service_client;
         rq_model := u "gpt-4o";
         rq_messages := VList messages;
         rq_temperature := Some 0.7%float;
         rq_max_tokens := 3000 |} ;;
  ret (content response).

(** The dict [prompts] of [analyze_text]. *)
Definition text_prompts : list (pystr * pyval) :=
  [(u "summary",
    VStr (u "Tóm tắt báo cáo thành Executive Summary với các điểm chính, số liệu quan trọng, xu hướng và khuyến nghị."));
   (u "detailed",
    VStr (u "Phân tích CHI TIẾT báo cáo bao gồm: phân loại, dữ liệu, đánh giá định tính, mối tương quan, kết luận."));
   (u "insights",
    VStr (u "Phát hiện insights sâu sắc: patterns, anomalies, predictive insights, actionable recommendations."));
   (u "qa",
    VStr (u "Tạo 10 câu hỏi quan trọng về báo cáo và trả lời chi tiết từng câu với trích dẫn nguồn."));
   (u "json",
    VStr (u "Trích xuất thông tin thành JSON:
            {
                " ++ dq ++ u "report_type" ++ dq ++ u ": " ++ dq ++ u "..." ++ dq ++ u ",
                " ++ dq ++ u "period" ++ dq ++ u ": " ++ dq ++ u "..." ++ dq ++ u ",
                " ++ dq ++ u "key_metrics" ++ dq ++ u ": [...],
                " ++ dq ++ u "summary" ++ dq ++ u ": " ++ dq ++ u "..." ++ dq ++ u ",
                " ++ dq ++ u "trends" ++ dq ++ u ": [...],
                " ++ dq ++ u "recommendations" ++ dq ++ u ": [...]
            }"))].

(** [prompts.get(key, prompts[fallback])] *)
Definition prompt_for (prompts : list (pystr * pyval)) (key fallback : pystr)
  : Outcome pyval :=
  match Py.getitem (VDict prompts) fallback with
  | Ret default => Py.get (VDict prompts) key default
  | Raise e => Raise e
  end.

(** [analyze_text(request)] for [request.text] and
    [request.analysis_type]. *)
Definition analyze_text (text analysis_type : pystr) : M pyval :=
  try_except
    (instruction <-
       lift (prompt_for text_prompts analysis_type (u "summary")) ;;
     let prompt :=
       to_str instruction ++ nl ++ nl ++ u "BÁO CÁO:" ++ nl ++ text in
     result <-
       analyze_with_openai prompt
         (Some (u "Bạn là chuyên gia phân tích báo cáo của VTC NETVIET, chuyên xử lý báo cáo tiếng Việt.")) ;;
     ret (VDict [(u "success", VBool true);
                 (u "analysis_type", VStr analysis_type);
                 (u "result", opt_val result);
                 (u "timestamp", VStr now_isoformat)]))
    (fun e => raise (HTTPException 500 (str_exn e))).

(** The dict [prompts] of [analyze_pdf]. *)
Definition pdf_prompts : list (pystr * pyval) :=
  [(u "summary",
    VStr (u "Tóm tắt nội dung PDF thành Executive Summary."));
   (u "detailed",
    VStr (u "Phân tích chi tiết toàn bộ nội dung PDF."));
   (u "insights",
    VStr (u "Phát hiện insights và khuyến nghị từ PDF."))].

(** [analyze_pdf(file, analysis_type)] *)
Definition analyze_pdf (file : UploadFile) (analysis_type : pystr)
  : M pyval :=
  try_except
    (text <- lift (extract_text_from_pdf (file_bytes file)) ;;
     match strip text with
     | [] =>
         raise (HTTPException 400 (u "Không thể trích xuất text từ PDF"))
     | _ =>
         instruction <-
           lift (prompt_for pdf_prompts analysis_type (u "summary")) ;;
         result <-
           analyze_with_openai
             (to_str instruction ++ nl ++ nl ++ u "NỘI DUNG:" ++ nl ++ text)
             (Some (u "Bạn là chuyên gia phân tích tài liệu.")) ;;
         ret (VDict [(u "success", VBool true);
                     (u "filename", VStr (filename file));
                     (u "text_length", VInt (Z.of_nat (List.length text)));
                     (u "analysis", opt_val result);
                     (u "timestamp", VStr now_isoformat)])
     end)
    (fun e => raise (HTTPException 500 (str_exn e))).

(** One element of the list comprehension of [compare_reports]:
    [f"=== {r['period']} ==={chr(10)}{r['content']}{chr(10)}"]. *)
Definition report_block (r : pyval) : Outcome pystr :=
  match Py.getitem r (u "period") with
  | Raise e => Raise e
  | Ret period =>
      match Py.getitem r (u "content") with
      | Raise e => Raise e
      | Ret content =>
          Ret (u "=== " ++ to_str period ++ u " ===" ++ nl
               ++ to_str content ++ nl)
      end
  end.

(** The list comprehension: the blocks in order, up to the first report
    that raises. *)
Fixpoint report_blocks (reports : list pyval) : Outcome (list pystr) :=
  match reports with
  | [] => Ret []
  | r :: rest =>
      match report_block r with
      | Raise e => Raise e
      | Ret b =>
          match report_blocks rest with
          | Raise e => Raise e
          | Ret bs => Ret (b :: bs)
          end
      end
  end.

(** [sep.join(parts)] *)
Fixpoint join (sep : pystr) (parts : list pystr) : pystr :=
  match parts with
  | [] => []
  | [p] => p
  | p :: rest => p ++ sep ++ join sep rest
  end.

(** [compare_reports(request)] for [request.reports]. *)
Definition compare_reports (reports : list pyval) : M pyval :=
  try_except
    (blocks <- lift (report_blocks reports) ;;
     let comparison_prompt :=
       u "So sánh các báo cáo sau:

" ++ join nl blocks ++ u "

Phân tích:
1. Xu hướng chung
2. So sánh cụ thể (bảng + % thay đổi)
3. Nguyên nhân
4. Dự báo" in
     result <-
       analyze_with_openai comparison_prompt
         (Some (u "Bạn là chuyên gia phân tích xu hướng và so sánh báo cáo.")) ;;
     ret (VDict [(u "success", VBool true);
                 (u "reports_compared",
                  VInt (Z.of_nat (List.length reports)));
                 (u "comparison", opt_val result);
                 (u "timestamp", VStr now_isoformat)]))
    (fun e => raise (HTTPException 500 (str_exn e))).

End Analysis.

(** The dict [examples] of [chart_examples]. *)
Definition chart_examples : pyval :=
  VDict
    [(u "line_chart",
      VDict
        [(u "description", VStr (u "Biểu đồ đường theo dõi xu hướng"));
         (u "data",
          VDict
            [(u "x",
              VList
                [VStr (u "Q1");
                 VStr (u "Q2");
                 VStr (u "Q3");
                 VStr (u "Q4")]);
             (u "y", VList [VInt 100; VInt 120; VInt 115; VInt 140]);
             (u "label", VStr (u "Doanh thu (tỷ VNĐ)"))]);
         (u "chart_type", VStr (u "line"));
         (u "title", VStr (u "Doanh thu theo quý 2024"))]);
     (u "bar_chart",
      VDict
        [(u "description", VStr (u "Biểu đồ cột so sánh"));
         (u "data",
          VDict
            [(u "x",
              VList
                [VStr (u "Sản phẩm A");
                 VStr (u "Sản phẩm B");
                 VStr (u "Sản phẩm C")]);
             (u "y", VList [VInt 45; VInt 60; VInt 38])]);
         (u "chart_type", VStr (u "bar"));
         (u "title", VStr (u "So sánh doanh số sản phẩm"))]);
     (u "pie_chart",
      VDict
        [(u "description", VStr (u "Biểu đồ tròn thị phần"));
         (u "data",
          VDict
            [(u "labels",
              VList
                [VStr (u "VTC");
                 VStr (u "Đối thủ A");
                 VStr (u "Đối thủ B");
                 VStr (u "Khác")]);
             (u "values", VList [VInt 35; VInt 25; VInt 20; VInt 20])]);
         (u "chart_type", VStr (u "pie"));
         (u "title", VStr (u "Thị phần thị trường 2024"))]);
     (u "scatter_chart",
      VDict
        [(u "description", VStr (u "Biểu đồ phân tán"));
         (u "data",
          VDict
            [(u "x",
              VList
                [VInt 1;
                 VInt 2;
                 VInt 3;
                 VInt 4;
                 VInt 5;
                 VInt 6;
                 VInt 7;
                 VInt 8]);
             (u "y",
              VList
                [VInt 2;
                 VInt 4;
                 VInt 3;
                 VInt 5;
                 VInt 7;
                 VInt 6;
                 VInt 8;
                 VInt 9]);
             (u "sizes",
              VList
                [VInt 50;
                 VInt 100;
                 VInt 150;
                 VInt 200;
                 VInt 100;
                 VInt 50;
                 VInt 200;
                 VInt 150])]);
         (u "chart_type", VStr (u "scatter"));
         (u "title", VStr (u "Mối quan hệ chi phí - lợi nhuận"))]);
     (u "heatmap",
      VDict
        [(u "description", VStr (u "Bản đồ nhiệt"));
         (u "data",
          VDict
            [(u "matrix",
              VList
                [VList [VFloat 1.2; VFloat 2.3; VFloat 3.1; VFloat 2.8];
                 VList [VFloat 2.1; VFloat 3.5; VFloat 4.2; VFloat 3.9];
                 VList [VFloat 1.8; VFloat 2.9; VFloat 3.8; VFloat 4.5]]);
             (u "xlabels",
              VList
                [VStr (u "Q1");
                 VStr (u "Q2");
                 VStr (u "Q3");
                 VStr (u "Q4")]);
             (u "ylabels",
              VList
                [VStr (u "Miền Bắc");
                 VStr (u "Miền Trung");
                 VStr (u "Miền Nam")])]);
         (u "chart_type", VStr (u "heatmap"));
         (u "title", VStr (u "Hiệu suất theo khu vực & quý"))])].

(** The values of a dict, in order. *)
Definition dict_values (o : pyval) : list pyval :=
  match o with
  | VDict d => map snd d
  | _ => []
  end.

(* ================================================================== *)
(** * Further observations *)

(** [chart_rec['title']] can be read. *)
Definition has_title (chart_rec : pyval) : bool :=
  is_Ret (Py.getitem chart_rec (u "title")).

(** [chart_rec['type']] can be read. *)
Definition has_type (chart_rec : pyval) : bool :=
  is_Ret (Py.getitem chart_rec (u "type")).

(** A recommendation with a title and without a type. *)
Definition untyped (chart_rec : pyval) : bool :=
  has_title chart_rec && negb (has_type chart_rec).

(** A chart spec with the two entries lines 207-208 add. *)
Definition carries_metadata (chart_config : pyval) : Prop :=
  exists priority description,
    field chart_config (u "priority") = Some priority
    /\ field chart_config (u "description") = Some description.

(** The [KeyError] that formatting [EXTRACTION_PROMPT] raises. *)
Definition extraction_KeyError : exn :=
  KeyError (VStr (nl ++ u "    " ++ dq ++ u "extracted_data" ++ dq)).

(** A report from which [compare_reports] can read a period and a
    content. *)
Definition complete_report (r : pyval) : bool :=
  is_Ret (Py.getitem r (u "period")) && is_Ret (Py.getitem r (u "content")).

(** [m] returns from every state. *)
Definition always_returns {A} (m : M A) : Prop :=
  forall w, is_Ret (fst (m w)) = true.

(** A value that [f'{v:.1f}'] formats: a [float], a [bool], or an
    [int] within the range of [float]. *)
Definition numeric (v : pyval) : bool :=
  match v with
  | VInt z => fits_float z
  | VFloat _ | VBool _ => true
  | _ => false
  end.

(** A row of which the annotation loop can format the first [columns]
    cells. *)
Definition row_covers (columns : nat) (row : pyval) : bool :=
  match columns with
  | O => true
  | S _ =>
      match row with
      | VList cells =>
          (columns <=? List.length cells)
          && forallb numeric (firstn columns cells)
      | _ => false
      end
  end.

(** A matrix that the annotation loop of the heatmap gets through:
    nothing to go over, or rows that all cover the length of the first
    one with numbers. *)
Definition rectangular (matrix : pyval) : bool :=
  match matrix with
  | VList [] | VStr [] | VDict [] => true
  | VList (first :: rest) =>
      match Py.len first with
      | Ret columns => forallb (row_covers columns) (first :: rest)
      | Raise _ => false
      end
  | _ => false
  end.

(** [range(len(v))] is only evaluated under [if v:]. *)
Definition sized_if_truthy (v : pyval) : bool :=
  negb (Py.truthy v) || is_Ret (Py.len v).

(** [data.get(key, default)] on the entries of a dict. *)
Definition entry (d : list (pystr * pyval)) (key : pystr) (default : pyval)
  : pyval :=
  match Py.lookup d key with
  | Some v => v
  | None => default
  end.

(** The data and chart types that the branches of [create_chart] get
    through without an exception of their own. *)
Definition drawable (data chart_type : pyval) : bool :=
  match data with
  | VDict d =>
      if Py.eq_str chart_type (u "line") then true
      else if Py.eq_str chart_type (u "bar") then
        is_Ret (Py.len (entry d (u "x") (VList [])))
      else if Py.eq_str chart_type (u "pie") then
        is_Ret (Py.len (entry d (u "labels") (VList [])))
      else if Py.eq_str chart_type (u "scatter") then
        is_Ret (Py.len (entry d (u "x") (VList [])))
      else if Py.eq_str chart_type (u "heatmap") then
        rectangular (entry d (u "matrix") (VList [VList []]))
        && sized_if_truthy (entry d (u "xlabels") (VList []))
        && sized_if_truthy (entry d (u "ylabels") (VList []))
      else Py.eq_str chart_type (u "area")
  | _ => false
  end.

(** A chart spec that carries data, a chart type and a title, and whose
    data its chart type can draw. *)
Definition renderable (config : pyval) : bool :=
  match Py.getitem config (u "data"), Py.getitem config (u "chart_type"),
        Py.getitem config (u "title") with
  | Ret data, Ret chart_type, Ret _ => drawable data chart_type
  | _, _, _ => false
  end.

(** Among the plotting calls [new] made after those of [log], one that
    the backend refused. *)
Definition refused_in `{Env} (log new : list PlotCall) : Prop :=
  exists before c after cause,
    new = before ++ c :: after
    /\ plt_raises (log ++ before) c = Some cause.

(** The run of [m] from [w] only adds plotting calls to the log, and if
    it raises, the backend has refused one of the calls it added. *)
Definition fails_only_by_refusal `{Env} {A} (m : M A) (w : World) : Prop :=
  exists new,
    plot_log (snd (m w)) = plot_log w ++ new
    /\ (is_Ret (fst (m w)) = false -> refused_in (plot_log w) new).

(** [m] fails only by a refusal of the backend, from every state. *)
Definition fails_by_refusal `{Env} {A} (m : M A) : Prop :=
  forall w, fails_only_by_refusal m w.

(** A chart spec whose title is a [str]. *)
Definition str_title (config : pyval) : bool :=
  match Py.getitem config (u "title") with
  | Ret (VStr _) => true
  | _ => false
  end.

(** A text of white space only. *)
Definition blank (s : pystr) : bool := forallb is_space s.

(* ================================================================== *)
(** * Concrete inputs, libraries and services used in the examples *)

Module Examples.

Local Open Scope N_scope.

(** The completion [```json\n{"a":1}\n```] and the bare [{"a":1}]. *)
Definition bare_json : pystr := u "{" ++ dq ++ u "a" ++ dq ++ u ":1}".
Definition fenced_json : pystr :=
  u "```json" ++ nl ++ bare_json ++ nl ++ u "```".

(** A library for the examples. *)

(** [s.lower()] as CPython 3.11 (Unicode 14.0) has it.  The table lists
    the code points that have a lower-case form of one character: those
    from [lo] up to [hi] in steps of [step], whose form is at the
    distance [delta].  The capital I with dot (U+0130) has a form of two
    characters.  The capital sigma is taken to its form [σ] wherever it
    stands: the form [ς] that CPython gives it at the end of a word is
    not modelled. *)
Definition lower_table : list (Z * Z * Z * Z) :=
  [(65, 90, 1, 32); (192, 214, 1, 32); (216, 222, 1, 32);
   (256, 302, 2, 1); (306, 310, 2, 1); (313, 327, 2, 1);
   (330, 374, 2, 1); (376, 376, 1, -121); (377, 381, 2, 1);
   (385, 385, 1, 210); (386, 388, 2, 1); (390, 390, 1, 206);
   (391, 391, 1, 1); (393, 394, 1, 205); (395, 395, 1, 1);
   (398, 398, 1, 79); (399, 399, 1, 202); (400, 400, 1, 203);
   (401, 401, 1, 1); (403, 403, 1, 205); (404, 404, 1, 207);
   (406, 406, 1, 211); (407, 407, 1, 209); (408, 408, 1, 1);
   (412, 412, 1, 211); (413, 413, 1, 213); (415, 415, 1, 214);
   (416, 420, 2, 1); (422, 422, 1, 218); (423, 423, 1, 1);
   (425, 425, 1, 218); (428, 428, 1, 1); (430, 430, 1, 218);
   (431, 431, 1, 1); (433, 434, 1, 217); (435, 437, 2, 1);
   (439, 439, 1, 219); (440, 440, 1, 1); (444, 444, 1, 1);
   (452, 452, 1, 2); (453, 453, 1, 1); (455, 455, 1, 2);
   (456, 456, 1, 1); (458, 458, 1, 2); (459, 475, 2, 1);
   (478, 494, 2, 1); (497, 497, 1, 2); (498, 500, 2, 1);
   (502, 502, 1, -97); (503, 503, 1, -56); (504, 542, 2, 1);
   (544, 544, 1, -130); (546, 562, 2, 1); (570, 570, 1, 10795);
   (571, 571, 1, 1); (573, 573, 1, -163); (574, 574, 1, 10792);
   (577, 577, 1, 1); (579, 579, 1, -195); (580, 580, 1, 69);
   (581, 581, 1, 71); (582, 590, 2, 1); (880, 882, 2, 1);
   (886, 886, 1, 1); (895, 895, 1, 116); (902, 902, 1, 38);
   (904, 906, 1, 37); (908, 908, 1, 64); (910, 911, 1, 63);
   (913, 929, 1, 32); (931, 939, 1, 32); (975, 975, 1, 8);
   (984, 1006, 2, 1); (1012, 1012, 1, -60); (1015, 1015, 1, 1);
   (1017, 1017, 1, -7); (1018, 1018, 1, 1); (1021, 1023, 1, -130);
   (1024, 1039, 1, 80); (1040, 1071, 1, 32); (1120, 1152, 2, 1);
   (1162, 1214, 2, 1); (1216, 1216, 1, 15); (1217, 1229, 2, 1);
   (1232, 1326, 2, 1); (1329, 1366, 1, 48); (4256, 4293, 1, 7264);
   (4295, 4295, 1, 7264); (4301, 4301, 1, 7264); (5024, 5103, 1, 38864);
   (5104, 5109, 1, 8); (7312, 7354, 1, -3008); (7357, 7359, 1, -3008);
   (7680, 7828, 2, 1); (7838, 7838, 1, -7615); (7840, 7934, 2, 1);
   (7944, 7951, 1, -8); (7960, 7965, 1, -8); (7976, 7983, 1, -8);
   (7992, 7999, 1, -8); (8008, 8013, 1, -8); (8025, 8031, 2, -8);
   (8040, 8047, 1, -8); (8072, 8079, 1, -8); (8088, 8095, 1, -8);
   (8104, 8111, 1, -8); (8120, 8121, 1, -8); (8122, 8123, 1, -74);
   (8124, 8124, 1, -9); (8136, 8139, 1, -86); (8140, 8140, 1, -9);
   (8152, 8153, 1, -8); (8154, 8155, 1, -100); (8168, 8169, 1, -8);
   (8170, 8171, 1, -112); (8172, 8172, 1, -7); (8184, 8185, 1, -128);
   (8186, 8187, 1, -126); (8188, 8188, 1, -9); (8486, 8486, 1, -7517);
   (8490, 8490, 1, -8383); (8491, 8491, 1, -8262); (8498, 8498, 1, 28);
   (8544, 8559, 1, 16); (8579, 8579, 1, 1); (9398, 9423, 1, 26);
   (11264, 11311, 1, 48); (11360, 11360, 1, 1);
   (11362, 11362, 1, -10743); (11363, 11363, 1, -3814);
   (11364, 11364, 1, -10727); (11367, 11371, 2, 1);
   (11373, 11373, 1, -10780); (11374, 11374, 1, -10749);
   (11375, 11375, 1, -10783); (11376, 11376, 1, -10782);
   (11378, 11378, 1, 1); (11381, 11381, 1, 1);
   (11390, 11391, 1, -10815); (11392, 11490, 2, 1);
   (11499, 11501, 2, 1); (11506, 11506, 1, 1); (42560, 42604, 2, 1);
   (42624, 42650, 2, 1); (42786, 42798, 2, 1); (42802, 42862, 2, 1);
   (42873, 42875, 2, 1); (42877, 42877, 1, -35332);
   (42878, 42886, 2, 1); (42891, 42891, 1, 1);
   (42893, 42893, 1, -42280); (42896, 42898, 2, 1);
   (42902, 42920, 2, 1); (42922, 42922, 1, -42308);
   (42923, 42923, 1, -42319); (42924, 42924, 1, -42315);
   (42925, 42925, 1, -42305); (42926, 42926, 1, -42308);
   (42928, 42928, 1, -42258); (42929, 42929, 1, -42282);
   (42930, 42930, 1, -42261); (42931, 42931, 1, 928);
   (42932, 42946, 2, 1); (42948, 42948, 1, -48);
   (42949, 42949, 1, -42307); (42950, 42950, 1, -35384);
   (42951, 42953, 2, 1); (42960, 42960, 1, 1); (42966, 42968, 2, 1);
   (42997, 42997, 1, 1); (65313, 65338, 1, 32); (66560, 66599, 1, 40);
   (66736, 66771, 1, 40); (66928, 66938, 1, 39); (66940, 66954, 1, 39);
   (66956, 66962, 1, 39); (66964, 66965, 1, 39); (68736, 68786, 1, 64);
   (71840, 71871, 1, 32); (93760, 93791, 1, 32);
   (125184, 125217, 1, 34)]%Z.

Definition lower_char (c : N) : pystr :=
  if c =? 304 then [105; 775]
  else
    let z := Z.of_N c in
    match
      List.find (fun '(lo, hi, step, _) =>
                   ((lo <=? z) && (z <=? hi) && ((z - lo) mod step =? 0))%Z)
                lower_table
    with
    | Some (_, _, _, delta) => [Z.to_N (z + delta)]
    | None => [c]
    end.

Definition lower (s : pystr) : pystr := flat_map lower_char s.

Definition decimal (z : Z) : pystr :=
  u (DecimalString.NilEmpty.string_of_int (Z.to_int z)).

Definition loads (s : pystr) : Outcome pyval :=
  if Str.eqb s bare_json then Ret (VDict [(u "a", VInt 1)])
  else Raise JSONDecodeError.

(** [repr(s)] of a [str]: in single quotes, or in double quotes when
    the text has a single and no double quote; the quote, the backslash
    and the characters that are not printable are escaped.  Of the code
    points from U+0100 on, all are taken to be printable. *)
Definition hex_digit (n : N) : N := if n <? 10 then 48 + n else 87 + n.

Fixpoint hex (digits : nat) (n : N) : pystr :=
  match digits with
  | O => []
  | S d => hex d (n / 16) ++ [hex_digit (n mod 16)]
  end.

Definition repr_char (quote c : N) : pystr :=
  if (c =? quote) || (c =? 92) then [92; c]
  else if c =? 9 then [92; 116]
  else if c =? 10 then [92; 110]
  else if c =? 13 then [92; 114]
  else if (c <? 32) || (c =? 127) then [92; 120] ++ hex 2 c
  else if c <? 127 then [c]
  else if (c <=? 160) || (c =? 173) then [92; 120] ++ hex 2 c
  else [c].

Definition repr_str (s : pystr) : pystr :=
  let quote :=
    if existsb (N.eqb 39) s && negb (existsb (N.eqb 34) s) then 34 else 39 in
  [quote] ++ flat_map (repr_char quote) s ++ [quote].

(** [str(e)].  A [KeyError] shows the [repr] of its key, an
    [HTTPException] its status and its detail (Starlette's [__str__]),
    the other exceptions with a message their message.  The classes
    whose message the embedding does not carry stand for it with their
    name; no statement below depends on those. *)
Definition message_of (e : exn) : pystr :=
  match e with
  | KeyError (VStr k) => repr_str k
  | KeyError (VInt z) => decimal z
  | KeyError _ => u "KeyError"
  | IndexError => u "IndexError"
  | TypeError => u "TypeError"
  | AttributeError => u "AttributeError"
  | ValueError msg => msg
  | OverflowError => u "int too large to convert to float"
  | JSONDecodeError => u "JSONDecodeError"
  | HTTPException status_code detail => decimal status_code ++ u ": " ++ detail
  | LibraryError _ => u "LibraryError"
  end.

(** [zip_file.writestr(name, data)] as [zipfile] of CPython 3.11 has
    it: the name is cut at its first NUL and written in ASCII or else in
    UTF-8, which has no place for a surrogate, with its length in 16
    bits. *)
Fixpoint until_nul (s : pystr) : pystr :=
  match s with
  | [] => []
  | c :: r => if c =? 0 then [] else c :: until_nul r
  end.

Definition is_surrogate (c : N) : bool := (55296 <=? c) && (c <=? 57343).

Definition utf8_size (c : N) : N :=
  if c <? 128 then 1 else if c <? 2048 then 2 else if c <? 65536 then 3 else 4.

Definition writestr (name : pystr) (data : list N) : Outcome unit :=
  let name := until_nul name in
  if existsb is_surrogate name then Raise (LibraryError 2)
  else if 65535 <? fold_right (fun c n => utf8_size c + n) 0 name
       then Raise (LibraryError 3)
       else Ret tt.

Definition lib : PyLib :=
  {| json_loads := loads;
     json_dumps_indent2 := fun _ => u "{}";
     json_dumps := fun _ => u "{}";
     str_lower := lower;
     str_value := fun _ => u "None";
     str_int := decimal;
     str_exn := message_of;
     format_1f := fun _ => u "0.0";
     b64encode := fun b => b;
     pdf_page_texts := fun b => Ret [b];
     zip_writestr := writestr;
     format_spec_field := fun v _ _ _ => Ret v |}.

(** A service that answers every request with [text] and reports
    [tokens] tokens, and a backend that accepts every call. *)
Definition env (text : pystr) (tokens : Z) : Env :=
  {| chat_service :=
       fun _ _ => Ret {| content := Some text; usage_total_tokens := tokens |};
     plt_raises := fun _ _ => None;
     Set3_colors := fun n => VList (repeat (VStr (u "#8dd3c7")) n);
     png_bytes := fun _ => [137; 80; 78; 71];
     now_isoformat := u "2024-01-01T00:00:00" |}.

(** A backend whose [imshow] refuses every matrix, for contrast. *)
Definition strict_env : Env :=
  {| chat_service :=
       fun _ _ => Ret {| content := Some []; usage_total_tokens := 0 |};
     plt_raises :=
       fun _ c => match c with
                  | ax_imshow _ => Some (LibraryError 1)
                  | _ => None
                  end;
     Set3_colors := fun n => VList [];
     png_bytes := fun _ => [];
     now_isoformat := [] |}.

(** The request a test double sends for a chart, on the client of the
    generator. *)
Definition double_request (extracted_data : pyval) (chart_request : pystr)
  : ChatRequest :=
  {| rq_client := smart_chart_generator_client;
     rq_model := u "gpt-4o";
     rq_messages := VList [SmartChartGenerator.message (u "user") chart_request];
     rq_temperature := Some 0.2%float;
     rq_max_tokens := 2000 |}.

Definition double_config (chart_request : pystr) (_ : ChatCompletion)
  : Outcome pyval :=
  Ret (VDict [(u "chart_type", VStr (u "bar"));
              (u "title", VStr chart_request);
              (u "data", VDict [(u "x", VList [VStr (u "Q1")]);
                                (u "y", VList [VInt 100])])]).

(** A generator in the place of [SmartChartGenerator()]: its extraction
    stage asks the service once and returns [extraction]; its spec stage
    asks the service once per chart and returns a bar chart titled with
    the request. *)
Definition double `{Env} (extraction : Outcome pyval) : Generator :=
  {| extract_financial_data :=
       fun report_content =>
         (_ <- chat_completions_create
                 (double_request VNone report_content) ;;
          lift extraction)%py;
     generate_chart_config :=
       fun extracted_data chart_request =>
         (response <- chat_completions_create
                        (double_request extracted_data chart_request) ;;
          lift (double_config chart_request response))%py |}.

Definition revenue : pyval :=
  VDict [(u "revenue",
          VDict [(u "periods", VList [VStr (u "Q1"); VStr (u "Q2")]);
                 (u "values", VList [VInt 100; VInt 120]);
                 (u "unit", VStr (u "tỷ VNĐ"))])].

Definition recommendation (title : pystr) (priority : Z) : pyval :=
  VDict [(u "title", VStr title);
         (u "type", VStr (u "bar"));
         (u "data_source", VStr (u "revenue"));
         (u "priority", VInt priority);
         (u "description", VStr [])].

(** Five recommendations with the priorities 3, 1, 2, 5, 4. *)
Definition five_recommendations : list pyval :=
  [recommendation (u "A") 3; recommendation (u "B") 1;
   recommendation (u "C") 2; recommendation (u "D") 5;
   recommendation (u "E") 4].

Definition extraction (recommended_charts : list pyval) : pyval :=
  VDict [(u "extracted_data", revenue);
         (u "recommended_charts", VList recommended_charts)].

(** An extraction result whose dataset is empty. *)
Definition empty_extraction : pyval :=
  VDict [(u "extracted_data", VDict []);
         (u "recommended_charts", VList [])].

(** Chart specs. *)
Definition spec (chart_type : pystr) (data : list (pystr * pyval)) : pyval :=
  VDict [(u "chart_type", VStr chart_type);
         (u "title", VStr (u "Doanh thu"));
         (u "data", VDict data)].

Definition rows (m : list (list Z)) : pyval :=
  VList (map (fun r => VList (map VInt r)) m).

Definition square_heatmap : pyval :=
  spec (u "heatmap") [(u "matrix", rows [[1; 2]; [3; 4]]%Z)].
Definition bar_spec : pyval :=
  spec (u "bar") [(u "x", VList [VStr (u "Q1"); VStr (u "Q2")]);
                  (u "y", VList [VInt 100; VInt 120])].
Definition unknown_spec : pyval := spec (u "radar") [].
Definition pie_data : pyval :=
  VDict [(u "labels", VList [VStr (u "A"); VStr (u "B");
                             VStr (u "C"); VStr (u "D")]);
         (u "values", VList [VInt 35; VInt 25; VInt 20; VInt 20])].

(** An uploaded PDF whose text the example library reads as it is. *)
Definition report_pdf : UploadFile :=
  {| filename := u "report.pdf"; file_bytes := u "Q1: 100, Q2: 120" |}.

(** The service of the examples answers [not json] and reports 7
    tokens. *)
Definition service : Env := env (u "not json") 7.

Definition report : pystr := u "Q1: 100, Q2: 120".

(** A request for a chart, in Vietnamese. *)
Definition chart_request : pystr :=
  u "Vẽ biểu đồ cột so sánh doanh thu 4 quý".

End Examples.

(* ================================================================== *)
(** * Further inputs for the examples *)

Module MoreExamples.

(** A recommendation without a type, and one without a title. *)
Definition untyped_recommendation : pyval :=
  VDict [(u "title", VStr (u "A")); (u "priority", VInt 1)].
Definition untitled_recommendation : pyval :=
  VDict [(u "type", VStr (u "bar")); (u "priority", VInt 2)].

(** An uploaded PDF whose one page holds two spaces, and an uploaded
    image. *)
Definition blank_pdf : UploadFile :=
  {| filename := u "scan.pdf"; file_bytes := u "  " |}.
Definition chart_image : UploadFile :=
  {| filename := u "chart.jpg"; file_bytes := [255; 216; 255]%N |}.

(** Two reports to compare, and one that has no content. *)
Definition report_of (period content : pystr) : pyval :=
  VDict [(u "period", VStr period); (u "content", VStr content)].
Definition two_reports : list pyval :=
  [report_of (u "Q1 2024") (u "Doanh thu 125");
   report_of (u "Q2 2024") (u "Doanh thu 145")].
Definition report_without_content : pyval :=
  VDict [(u "period", VStr (u "Q3 2024"))].

(** A bar chart whose title is the number 2024. *)
Definition bar_titled_2024 : pyval :=
  VDict [(u "chart_type", VStr (u "bar"));
         (u "title", VInt 2024);
         (u "data", VDict [(u "x", VList [VStr (u "Q1"); VStr (u "Q2")]);
                           (u "y", VList [VInt 100; VInt 120])])].

(** The matrix [[1, 2, 3], [4, 5]] as heatmap data. *)
Definition ragged_data : pyval :=
  VDict [(u "matrix", Examples.rows [[1; 2; 3]; [4; 5]]%Z)].

End MoreExamples.

(* ================================================================== *)
(** * Properties of the string operations *)

Module StrFacts.

Local Open Scope N_scope.

Lemma startswith_app (p r : pystr) : startswith (p ++ r) p = true.
Proof.
  induction p as [|a p IH]; simpl; [reflexivity|].
  now rewrite N.eqb_refl, IH.
Qed.

Lemma startswith_inv (p s : pystr) :
  startswith s p = true -> exists r, s = p ++ r.
Proof.
  revert s; induction p as [|a p IH]; intros s Hs.
  - now exists s.
  - destruct s as [|c s]; simpl in Hs; [discriminate|].
    apply andb_true_iff in Hs as [Hc Hs].
    apply N.eqb_eq in Hc; subst c.
    destruct (IH _ Hs) as [r ->]. now exists r.
Qed.

Lemma lstrip_idem (s : pystr) : lstrip (lstrip s) = lstrip s.
Proof.
  induction s as [|c s IH]; simpl; [reflexivity|].
  destruct (is_space c) eqn:E; [exact IH|].
  simpl. now rewrite E.
Qed.

Lemma lstrip_snoc (l : pystr) (c : N) :
  is_space c = false -> lstrip (l ++ [c]) = lstrip l ++ [c].
Proof.
  intros Hc; induction l as [|a l IH]; simpl.
  - now rewrite Hc.
  - destruct (is_space a); [exact IH|reflexivity].
Qed.

Lemma rstrip_cons (c : N) (r : pystr) :
  is_space c = false -> rstrip (c :: r) = c :: rstrip r.
Proof.
  intros Hc. unfold rstrip. simpl rev.
  rewrite lstrip_snoc by exact Hc.
  now rewrite rev_app_distr.
Qed.

Lemma rstrip_idem (s : pystr) : rstrip (rstrip s) = rstrip s.
Proof.
  unfold rstrip. now rewrite rev_involutive, lstrip_idem.
Qed.

Lemma lstrip_rstrip_lstrip (s : pystr) :
  lstrip (rstrip (lstrip s)) = rstrip (lstrip s).
Proof.
  induction s as [|c s IH]; [reflexivity|].
  simpl lstrip. destruct (is_space c) eqn:E; [exact IH|].
  rewrite rstrip_cons by exact E. simpl. now rewrite E.
Qed.

(** [strip] is idempotent. *)
Lemma strip_idem (s : pystr) : strip (strip s) = strip s.
Proof.
  unfold strip. now rewrite lstrip_rstrip_lstrip, rstrip_idem.
Qed.

Lemma split_go_nonempty (sep s cur : pystr) (k : nat) :
  split_go sep s cur k <> [].
Proof.
  revert cur k; induction s as [|c s IH]; intros cur k; simpl.
  - discriminate.
  - destruct k; [|apply IH].
    destruct (startswith (c :: s) sep); [discriminate|apply IH].
Qed.

(** Up to the first occurrence of the separator, [split] copies. *)
Lemma split_go_find (sep s cur : pystr) (n : nat) :
  find s sep = Some n ->
  exists tl, split_go sep s cur 0 = (rev cur ++ firstn n s) :: tl.
Proof.
  revert cur n; induction s as [|c s IH]; intros cur n Hf.
  - simpl in Hf. destruct (startswith [] sep) eqn:E; [|discriminate].
    injection Hf as <-. destruct sep; [|discriminate].
    simpl. rewrite app_nil_r. now eexists.
  - cbn [find] in Hf. cbn [split_go].
    destruct (startswith (c :: s) sep) eqn:E.
    + injection Hf as <-. simpl. rewrite app_nil_r. now eexists.
    + destruct (find s sep) as [m|] eqn:Em; [|discriminate].
      injection Hf as <-.
      destruct (IH (c :: cur) m eq_refl) as [tl ->].
      exists tl. simpl. now rewrite <- app_assoc.
Qed.

(** Without an occurrence of the separator there is one piece. *)
Lemma split_go_no_find (sep s cur : pystr) :
  find s sep = None -> split_go sep s cur 0 = [rev cur ++ s].
Proof.
  revert cur; induction s as [|c s IH]; intros cur Hf.
  - simpl. now rewrite app_nil_r.
  - cbn [find] in Hf. cbn [split_go].
    destruct (startswith (c :: s) sep) eqn:E; [discriminate|].
    destruct (find s sep) eqn:Em; [discriminate|].
    rewrite (IH (c :: cur) eq_refl). simpl. now rewrite <- app_assoc.
Qed.

(** A string that opens with the fence splits into the empty piece and
    the pieces of what follows the fence. *)
Lemma split_fence (after : pystr) :
  split (fence ++ after) fence = [] :: split_go fence after [] 0.
Proof. reflexivity. Qed.

End StrFacts.

(* ================================================================== *)
(** * The code-fence normalizer *)

Section Normalizer.

Import StrFacts.

Lemma normalize_fenced (raw after : pystr) :
  strip raw = fence ++ after ->
  normalize raw =
  match second ([] :: split_go fence after [] 0) with
  | Ret seg => Ret (strip (if startswith seg json_tag
                           then suffix_from 4 seg else seg))
  | Raise e => Raise e
  end.
Proof.
  intros E. unfold normalize, normalize_stripped. rewrite E.
  rewrite startswith_app, split_fence.
  now destruct (second _).
Qed.

(** C6.  [normalize] returns on every input.  When the trimmed input does
    not open with the fence it is returned as trimmed.  When it does, the
    result is the text between the opening fence and the next fence (the
    rest of the text when there is no other fence), without a leading
    [json] tag, trimmed.  The fenced and the bare form of [{"a":1}] both
    normalize to the bare text.  The places that have the five lines do
    what [normalize] says: lines 720-728 of [create_smart_chart] give
    [json.loads] the normalized completion, and so do lines 108-118 and
    152-162 of the two methods of the generator, which turn a
    [JSONDecodeError] into their [ValueError]. *)
Theorem normalize_spec :
  (forall raw, exists s, normalize raw = Ret s)
  /\ (forall raw,
        startswith (strip raw) fence = false ->
        normalize raw = Ret (strip raw))
  /\ (forall raw after n,
        strip raw = fence ++ after ->
        find after fence = Some n ->
        let body := firstn n after in
        normalize raw =
        Ret (strip (if startswith body json_tag
                    then suffix_from 4 body else body)))
  /\ (forall raw after,
        strip raw = fence ++ after ->
        find after fence = None ->
        normalize raw =
        Ret (strip (if startswith after json_tag
                    then suffix_from 4 after else after)))
  /\ normalize Examples.fenced_json = Ret Examples.bare_json
  /\ normalize Examples.bare_json = Ret Examples.bare_json
  /\ (forall (L : PyLib) (raw : pystr),
        smart_chart_config (Some raw)
        = match normalize raw with
          | Ret text => json_loads text
          | Raise e => Raise e
          end)
  /\ (forall (L : PyLib) (text raw : pystr) (tokens : Z) (w : World),
        SmartChartGenerator.parse_completion text
          {| content := Some raw; usage_total_tokens := tokens |} w
        = match normalize raw with
          | Ret result => SmartChartGenerator.loads_or_ValueError text result w
          | Raise e => (Raise e, w)
          end).
Proof.
  refine (conj _ (conj _ (conj _ (conj _ (conj _ (conj _ (conj _ _))))))).
  - intros raw. unfold normalize, normalize_stripped.
    destruct (startswith (strip raw) fence) eqn:E; [|now eexists].
    destruct (startswith_inv _ _ E) as [after ->].
    rewrite split_fence. unfold second. simpl nth_error.
    destruct (split_go fence after [] 0) as [|seg tl] eqn:Es.
    + now apply split_go_nonempty in Es.
    + now eexists.
  - intros raw E. unfold normalize, normalize_stripped.
    rewrite E. now rewrite strip_idem.
  - intros raw after n E Hf body.
    rewrite (normalize_fenced _ _ E).
    destruct (split_go_find fence after [] n Hf) as [tl ->].
    reflexivity.
  - intros raw after E Hf.
    rewrite (normalize_fenced _ _ E).
    now rewrite (split_go_no_find _ _ [] Hf).
  - reflexivity.
  - reflexivity.
  - intros L raw. unfold smart_chart_config, normalize, content_strip.
    now destruct (normalize_stripped (strip raw)).
  - intros L text raw tokens w.
    unfold SmartChartGenerator.parse_completion, normalize, bind, lift.
    cbn [content content_strip].
    now destruct (normalize_stripped (strip raw)).
Qed.

(** The fenced example, through the general statement: the text between
    the fences, and what lines 720-728 make of it with a parser that
    knows that text. *)
Lemma normalize_spec_witness :
  normalize Examples.fenced_json = Ret Examples.bare_json
  /\ @smart_chart_config Examples.lib (Some Examples.fenced_json)
     = Ret (VDict [(u "a", VInt 1)]).
Proof.
  assert (N : normalize Examples.fenced_json = Ret Examples.bare_json).
  { refine (proj1 (proj2 (proj2 normalize_spec))
              Examples.fenced_json
              (u "json" ++ nl ++ Examples.bare_json ++ nl ++ u "```")
              13%nat _ _); reflexivity. }
  split; [exact N|].
  rewrite (proj1 (proj2 (proj2 (proj2 (proj2 (proj2 (proj2 normalize_spec))))))
             Examples.lib Examples.fenced_json).
  rewrite N. reflexivity.
Defined.

End Normalizer.

(* ================================================================== *)
(** * The prompt templates under [str.format]

    Both templates show the expected JSON with single braces.  To
    [str.format] the first of these braces opens a replacement field
    whose name is the text up to the next colon; no keyword argument
    has that name. *)

Section Templates.
Context `{PyLib} `{Env}.

Lemma EXTRACTION_PROMPT_format (report_content : pystr) :
  Format.format SmartChartGenerator.EXTRACTION_PROMPT
    [(u "report_content", report_content)]
  = Raise (KeyError (VStr (nl ++ u "    " ++ dq ++ u "extracted_data" ++ dq))).
Proof. vm_compute. reflexivity. Qed.

Lemma CHART_GENERATION_PROMPT_format (extracted_data chart_request : pystr) :
  Format.format SmartChartGenerator.CHART_GENERATION_PROMPT
    [(u "extracted_data", extracted_data); (u "chart_request", chart_request)]
  = Raise (KeyError (VStr (nl ++ u "    " ++ dq ++ u "chart_type" ++ dq))).
Proof. vm_compute. reflexivity. Qed.

(** The extraction stage of the class raises [KeyError] while it builds
    its prompt, whatever the report, and the service is not called. *)
Lemma extract_financial_data_KeyError (client : client_id)
    (report_content : pystr) (w : World) :
  SmartChartGenerator.extract_financial_data client report_content w
  = (Raise (KeyError (VStr (nl ++ u "    " ++ dq ++ u "extracted_data" ++ dq))),
     w).
Proof.
  unfold SmartChartGenerator.extract_financial_data, bind, lift.
  now rewrite EXTRACTION_PROMPT_format.
Qed.

(** So does the spec stage of the class. *)
Lemma generate_chart_config_KeyError (client : client_id)
    (extracted_data : pyval) (chart_request : pystr) (w : World) :
  SmartChartGenerator.generate_chart_config client extracted_data
    chart_request w
  = (Raise (KeyError (VStr (nl ++ u "    " ++ dq ++ u "chart_type" ++ dq))), w).
Proof.
  unfold SmartChartGenerator.generate_chart_config, bind, lift.
  now rewrite CHART_GENERATION_PROMPT_format.
Qed.

End Templates.

(* ================================================================== *)
(** * Reasoning about computations *)

Lemma bind_Ret {A B} (m : M A) (k : A -> M B) (w w' : World) (a : A) :
  m w = (Ret a, w') -> bind m k w = k a w'.
Proof. intros E. unfold bind. now rewrite E. Qed.

Lemma bind_Raise {A B} (m : M A) (k : A -> M B) (w w' : World) (e : exn) :
  m w = (Raise e, w') -> bind m k w = (Raise e, w').
Proof. intros E. unfold bind. now rewrite E. Qed.

Lemma bind_lift_Ret {A B} (o : Outcome A) (k : A -> M B) (w : World) (a : A) :
  o = Ret a -> bind (lift o) k w = k a w.
Proof. now intros ->. Qed.

Lemma bind_lift_Raise {A B} (o : Outcome A) (k : A -> M B) (w : World)
    (e : exn) :
  o = Raise e -> bind (lift o) k w = (Raise e, w).
Proof. now intros ->. Qed.

Lemma try_except_Ret {A} (m : M A) (h : exn -> M A) (w w' : World) (a : A) :
  m w = (Ret a, w') -> try_except m h w = (Ret a, w').
Proof. intros E. unfold try_except. now rewrite E. Qed.

Lemma try_except_Raise {A} (m : M A) (h : exn -> M A) (w w' : World)
    (e : exn) :
  m w = (Raise e, w') -> try_except m h w = h e w'.
Proof. intros E. unfold try_except. now rewrite E. Qed.

(** Case analysis on the next step of a computation. *)
Ltac run_step :=
  match goal with
  | |- context [bind (lift ?o) _ _] =>
      let E := fresh "E" in
      destruct o eqn:E;
      [ rewrite (bind_lift_Ret _ _ _ _ eq_refl)
      | rewrite (bind_lift_Raise _ _ _ _ eq_refl) ]
  | |- context [bind ?m _ ?w] =>
      let E := fresh "E" in
      let r := fresh "r" in
      let w' := fresh "w" in
      destruct (m w) as [r w'] eqn:E; destruct r;
      [ rewrite (bind_Ret _ _ _ _ _ E) | rewrite (bind_Raise _ _ _ _ _ E) ]
  end.

Lemma bind_assoc {A B C} (m : M A) (k : A -> M B) (k' : B -> M C)
    (w : World) :
  bind (bind m k) k' w = bind m (fun a => bind (k a) k') w.
Proof. unfold bind. now destruct (m w) as [[a|e] w1]. Qed.

Lemma bind_ret_l {A B} (a : A) (k : A -> M B) (w : World) :
  bind (ret a) k w = k a w.
Proof. reflexivity. Qed.

Lemma bind_Ret_inv {A B} (m : M A) (k : A -> M B) (w w' : World) (b : B) :
  bind m k w = (Ret b, w') ->
  exists a w1, m w = (Ret a, w1) /\ k a w1 = (Ret b, w').
Proof.
  unfold bind. destruct (m w) as [[a|e] w1]; [|discriminate].
  intros E. now exists a, w1.
Qed.

Lemma lift_Ret_inv {A} (o : Outcome A) (w w' : World) (a : A) :
  lift o w = (Ret a, w') -> o = Ret a /\ w' = w.
Proof. unfold lift. now intros [= -> ->]. Qed.

Lemma eqb_refl (a : pystr) : Str.eqb a a = true.
Proof. unfold Str.eqb. now destruct (list_eq_dec N.eq_dec a a). Qed.

Lemma eqb_eq (a b : pystr) : Str.eqb a b = true -> a = b.
Proof.
  unfold Str.eqb. now destruct (list_eq_dec N.eq_dec a b).
Qed.

Lemma lookup_store_same (d : list (pystr * pyval)) (k : pystr) (v : pyval) :
  Py.lookup (Py.store d k v) k = Some v.
Proof.
  induction d as [|[k0 v0] d IH]; simpl.
  - now rewrite eqb_refl.
  - destruct (Str.eqb k0 k) eqn:E; simpl; now rewrite E.
Qed.

Lemma lookup_store_other (d : list (pystr * pyval)) (k k' : pystr)
    (v : pyval) :
  Str.eqb k k' = false ->
  Py.lookup (Py.store d k v) k' = Py.lookup d k'.
Proof.
  intros Hk. induction d as [|[k0 v0] d IH]; simpl.
  - now rewrite Hk.
  - destruct (Str.eqb k0 k) eqn:E; simpl.
    + apply eqb_eq in E. subst k0. now rewrite Hk.
    + destruct (Str.eqb k0 k'); [reflexivity|exact IH].
Qed.

Lemma try_except_Ret_inv {A} (m : M A) (h : exn -> M A) (w w' : World)
    (a : A) :
  try_except m h w = (Ret a, w') ->
  m w = (Ret a, w')
  \/ exists e w1, m w = (Raise e, w1) /\ h e w1 = (Ret a, w').
Proof.
  unfold try_except. destruct (m w) as [[x|e] w1]; intros E.
  - now left.
  - right. now exists e, w1.
Qed.

Lemma setitem_Ret_inv (o : pyval) (k : pystr) (v o' : pyval) :
  Py.setitem o k v = Ret o' -> exists d, o = VDict d /\ o' = VDict (Py.store d k v).
Proof.
  destruct o; try discriminate. intros [= <-]. now eexists.
Qed.

(** ** Relations that every step keeps *)

Section Stable.
Variable R : World -> World -> Prop.
Hypothesis R_refl : forall w, R w w.
Hypothesis R_trans : forall w1 w2 w3, R w1 w2 -> R w2 w3 -> R w1 w3.

Lemma stable_ret {A} (a : A) : stable R (ret a).
Proof. intros w. apply R_refl. Qed.

Lemma stable_raise {A} (e : exn) : stable R (@raise A e).
Proof. intros w. apply R_refl. Qed.

Lemma stable_lift {A} (o : Outcome A) : stable R (lift o).
Proof. intros w. apply R_refl. Qed.

Lemma stable_bind {A B} (m : M A) (k : A -> M B) :
  stable R m -> (forall a, stable R (k a)) -> stable R (bind m k).
Proof.
  intros Hm Hk w. unfold bind.
  specialize (Hm w). destruct (m w) as [[a|e] w1]; simpl in *; [|exact Hm].
  exact (R_trans _ _ _ Hm (Hk a w1)).
Qed.

Lemma stable_try_except {A} (m : M A) (h : exn -> M A) :
  stable R m -> (forall e, stable R (h e)) -> stable R (try_except m h).
Proof.
  intros Hm Hh w. unfold try_except.
  specialize (Hm w). destruct (m w) as [[a|e] w1]; simpl in *; [exact Hm|].
  exact (R_trans _ _ _ Hm (Hh e w1)).
Qed.

Lemma stable_if {A} (b : bool) (m1 m2 : M A) :
  stable R m1 -> stable R m2 -> stable R (if b then m1 else m2).
Proof. now destruct b. Qed.

Lemma stable_for_each {A} (l : list A) (body : A -> M unit) :
  (forall x, stable R (body x)) -> stable R (for_each l body).
Proof.
  intros Hb. induction l as [|x l IH]; simpl.
  - apply stable_ret.
  - apply stable_bind; [apply Hb|intros _; exact IH].
Qed.

End Stable.

(** Decomposition of a computation along its structure; [refl] and
    [trans] are the proofs that the relation is a preorder. *)
Ltac stable_with refl trans :=
  repeat first
    [ apply (stable_ret _ refl)
    | apply (stable_lift _ refl)
    | apply (stable_raise _ refl)
    | apply (stable_bind _ trans); [|intros ?]
    | apply (stable_try_except _ trans); [|intros ?]
    | apply (stable_for_each _ refl trans); intros ?
    | match goal with
      | |- stable _ (if ?b then _ else _) => destruct b
      | |- stable _ (match ?x with _ => _ end) => destruct x
      end ].

Lemma same_figures_refl (w : World) : same_figures w w.
Proof. now split. Qed.

Lemma same_figures_trans (w1 w2 w3 : World) :
  same_figures w1 w2 -> same_figures w2 w3 -> same_figures w1 w3.
Proof. intros [A1 B1] [A2 B2]. split; congruence. Qed.

(* ================================================================== *)
(** * The integration function *)

Section IntegrationFacts.
Context `{PyLib} `{Env}.

Lemma integrate_try_Ret_dict (generator : Generator) (pdf_text : pystr)
    (user_request : option pystr) (w w' : World) (v : pyval) :
  integrate_try generator pdf_text user_request w = (Ret v, w') ->
  exists d, v = VDict d.
Proof.
  unfold integrate_try.
  destruct (wants_chart user_request).
  - repeat (run_step; try discriminate).

    unfold ret. intros [= <- _]. now eexists.
  - repeat (run_step; try discriminate).
    unfold ret. intros [= <- _]. now eexists.
Qed.

Lemma integrate_raises (generator : Generator) (pdf_text : pystr)
    (user_request : option pystr) (w w' : World) (e : exn) :
  integrate_try generator pdf_text user_request w = (Raise e, w') ->
  integrate_smart_chart_to_api generator pdf_text user_request w
  = (Ret (error_result e), w').
Proof.
  intros E. unfold integrate_smart_chart_to_api.
  now rewrite (try_except_Raise _ _ _ _ _ E).
Qed.

(** Both paths begin with the extraction stage: what it raises is what
    the handler of [integrate_smart_chart_to_api] catches. *)
Lemma integrate_extraction_raises (generator : Generator)
    (pdf_text : pystr) (user_request : option pystr) (w w' : World)
    (e : exn) :
  extract_financial_data generator pdf_text w = (Raise e, w') ->
  integrate_smart_chart_to_api generator pdf_text user_request w
  = (Ret (error_result e), w').
Proof.
  intros Hx. apply integrate_raises. unfold integrate_try.
  destruct (wants_chart user_request).
  - now apply bind_Raise.
  - apply bind_Raise.
    unfold SmartChartGenerator.generate_multiple_charts.
    now apply bind_Raise.
Qed.

(** With the generator that [SmartChartGenerator(...)] builds, every call
    ends in the handler. *)
Lemma integrate_new (api_key : option pystr) (pdf_text : pystr)
    (user_request : option pystr) (w : World) :
  integrate_smart_chart_to_api (SmartChartGenerator.new api_key) pdf_text
    user_request w
  = (Ret (error_result
            (KeyError
               (VStr (nl ++ u "    " ++ dq ++ u "extracted_data" ++ dq)))),
     w).
Proof.
  apply integrate_extraction_raises.
  cbn [SmartChartGenerator.new extract_financial_data].
  apply extract_financial_data_KeyError.
Qed.

(** C10.  [integrate_smart_chart_to_api] returns a dict and never raises.
    With the generator it builds (line 236), the step that raises in
    every run is the extraction stage, and the dict returned is
    [{"error": str(e), "extracted_data": None, "chart_configs": []}] for
    the exception [e] that stage raised; the state is the one the stage
    left.  The same holds of every object in the place of the generator:
    the call returns a dict, and when its extraction stage raises (on
    either path) or its spec stage raises on the path of a request, the
    dict is the one with the [error] key. *)
Theorem integrate_never_raises (api_key : option pystr) (pdf_text : pystr)
    (user_request : option pystr) (w : World) :
  (exists e,
      extract_financial_data (SmartChartGenerator.new api_key) pdf_text w
      = (Raise e, w)
      /\ integrate_smart_chart_to_api (SmartChartGenerator.new api_key)
           pdf_text user_request w
         = (Ret (VDict [(u "error", VStr (str_exn e));
                        (u "extracted_data", VNone);
                        (u "chart_configs", VList [])]), w))
  /\ (forall generator,
        (exists d w',
            integrate_smart_chart_to_api generator pdf_text user_request w
            = (Ret (VDict d), w'))
        /\ (forall e w',
              extract_financial_data generator pdf_text w = (Raise e, w') ->
              integrate_smart_chart_to_api generator pdf_text user_request w
              = (Ret (VDict [(u "error", VStr (str_exn e));
                             (u "extracted_data", VNone);
                             (u "chart_configs", VList [])]), w'))
        /\ (forall r x data w1 e w',
              wants_chart user_request = true ->
              user_request = Some r ->
              extract_financial_data generator pdf_text w = (Ret x, w1) ->
              Py.get x (u "extracted_data") (VDict []) = Ret data ->
              generate_chart_config generator data r w1 = (Raise e, w') ->
              integrate_smart_chart_to_api generator pdf_text user_request w
              = (Ret (VDict [(u "error", VStr (str_exn e));
                             (u "extracted_data", VNone);
                             (u "chart_configs", VList [])]), w'))).
Proof.
  split.
  - eexists. split.
    + cbn [SmartChartGenerator.new extract_financial_data].
      apply extract_financial_data_KeyError.
    + apply integrate_new.
  - intros generator. refine (conj _ (conj _ _)).
    + unfold integrate_smart_chart_to_api, try_except.
      destruct (integrate_try generator pdf_text user_request w)
        as [[v|e] w'] eqn:E.
      * destruct (integrate_try_Ret_dict _ _ _ _ _ _ E) as [d ->].
        now exists d, w'.
      * unfold ret, error_result. now eexists _, _.
    + intros e w' Hx. now apply integrate_extraction_raises.
    + intros r x data w1 e w' Hk -> Hx Hd Hc.
      apply integrate_raises.
      unfold integrate_try. rewrite Hk.
      rewrite (bind_Ret _ _ _ _ _ Hx), (bind_lift_Ret _ _ _ _ Hd).
      now apply bind_Raise.
Qed.

End IntegrationFacts.

(* ================================================================== *)
(** * The orchestrator loop *)

Section Orchestrator.
Context `{PyLib} `{Env}.

Lemma forallb_firstn {A} (p : A -> bool) (l : list A) (n : nat) :
  forallb p l = true -> forallb p (firstn n l) = true.
Proof.
  revert n; induction l as [|a l IH]; intros [|n] Hp; simpl in *;
    try reflexivity.
  apply andb_true_iff in Hp as [Ha Hl]. now rewrite Ha, IH.
Qed.

Lemma skipn_app_length {A} (l new : list A) :
  skipn (List.length l) (l ++ new) = new.
Proof. induction l; simpl; auto. Qed.

(** One iteration adds nothing, or one spec that has the priority line
    207 gives it. *)
Lemma chart_step_priority (self : Generator) (extracted_data : pyval)
    (i : nat) (chart_rec : pyval) (chart_configs out : list pyval)
    (w w' : World) :
  SmartChartGenerator.chart_step self extracted_data i chart_rec
    chart_configs w = (Ret out, w') ->
  out = chart_configs
  \/ exists chart_config priority,
      out = chart_configs ++ [chart_config]
      /\ priority_for i chart_rec = Some priority
      /\ field chart_config (u "priority") = Some priority.
Proof.
  unfold SmartChartGenerator.chart_step. intros E.
  apply bind_Ret_inv in E as (t0 & w0 & Et & E).
  apply lift_Ret_inv in Et as [_ ->].
  apply try_except_Ret_inv in E as [E | (e & w1 & _ & E)].
  2:{ left. now injection E. }
  apply bind_Ret_inv in E as (type & w1 & _ & E).
  apply bind_Ret_inv in E as (title & w2 & _ & E).
  apply bind_Ret_inv in E as (c0 & w3 & _ & E).
  apply bind_Ret_inv in E as (priority & w4 & Ep & E).
  apply bind_Ret_inv in E as (c1 & w5 & E1 & E).
  apply bind_Ret_inv in E as (description & w6 & _ & E).
  apply bind_Ret_inv in E as (c2 & w7 & E2 & E).
  apply lift_Ret_inv in Ep as [Ep _].
  apply lift_Ret_inv in E1 as [E1 _], E2 as [E2 _].
  apply setitem_Ret_inv in E1 as (d0 & -> & ->).
  apply setitem_Ret_inv in E2 as (d1 & [= <-] & ->).
  right. eexists _, priority. split; [|split].
  - apply try_except_Ret_inv in E as [E | (e & w8 & _ & E)].
    + apply bind_Ret_inv in E as (t1 & w8 & _ & E).
      injection E as <- _. reflexivity.
    + injection E as <- _. reflexivity.
  - unfold priority_for. now rewrite Ep.
  - cbn [field].
    rewrite (lookup_store_other _ (u "description") (u "priority"))
      by (vm_compute; reflexivity).
    apply lookup_store_same.
Qed.

(** The loop goes through the items as the list has them: the specs it
    adds carry the priorities of the items, in the order of the list,
    less those of the items it passed over. *)
Lemma chart_loop_priorities (self : Generator) (extracted_data : pyval)
    (items : list pyval) :
  forall i chart_configs out w w',
    SmartChartGenerator.chart_loop self extracted_data i items
      chart_configs w = (Ret out, w') ->
    exists added,
      out = chart_configs ++ added
      /\ subsequence (map (fun c => field c (u "priority")) added)
                     (priorities_from i items).
Proof.
  induction items as [|chart_rec rest IH]; intros i configs out w w' E.
  - injection E as <- _. exists []. rewrite app_nil_r.
    split; [reflexivity|constructor].
  - cbn [SmartChartGenerator.chart_loop] in E.
    apply bind_Ret_inv in E as (mid & w1 & Es & E).
    apply IH in E as (added & -> & Hsub).
    apply chart_step_priority in Es as [-> | (c & p & -> & Hp & Hc)].
    + exists added. split; [reflexivity|].
      cbn [priorities_from]. now constructor.
    + exists (c :: added). rewrite <- app_assoc. split; [reflexivity|].
      cbn [priorities_from map]. rewrite Hp, Hc. now constructor.
Qed.

Lemma generate_multiple_charts_priorities (self : Generator)
    (report_content : pystr) (num_charts : Z) (w w1 w2 : World)
    (result : pyval) (recs configs : list pyval) :
  extract_financial_data self report_content w = (Ret result, w1) ->
  Py.get result (u "recommended_charts") (VList []) = Ret (VList recs) ->
  SmartChartGenerator.generate_multiple_charts self report_content
    num_charts w = (Ret (VList configs), w2) ->
  subsequence (map (fun c => field c (u "priority")) configs)
              (priorities_from 0 (Py.slice_to recs num_charts)).
Proof.
  intros Hx Hr E.
  unfold SmartChartGenerator.generate_multiple_charts in E.
  rewrite (bind_Ret _ _ _ _ _ Hx) in E.
  apply bind_Ret_inv in E as (data & w3 & _ & E).
  rewrite (bind_lift_Ret _ _ _ _ Hr) in E.
  destruct (negb (Py.truthy data)); [discriminate|].
  apply bind_Ret_inv in E as (n1 & w4 & _ & E).
  apply bind_Ret_inv in E as (n2 & w5 & _ & E).
  cbn [Py.iter_slice_to] in E.
  rewrite (bind_lift_Ret _ _ _ _ eq_refl) in E.
  apply bind_Ret_inv in E as (out & w6 & El & E).
  injection E as <- _.
  apply chart_loop_priorities in El as (added & -> & Hsub).
  exact Hsub.
Qed.

(** With the spec stage of the class, an iteration makes no spec: the
    stage raises while it formats its prompt, the handler of line 213
    continues, and the service has not been asked. *)
Lemma chart_step_new (api_key : option pystr) (extracted_data : pyval)
    (i : nat) (chart_rec title : pyval) (chart_configs : list pyval)
    (w : World) :
  Py.getitem chart_rec (u "title") = Ret title ->
  SmartChartGenerator.chart_step (SmartChartGenerator.new api_key)
    extracted_data i chart_rec chart_configs w
  = (Ret chart_configs, w).
Proof.
  intros Ht. unfold SmartChartGenerator.chart_step.
  rewrite (bind_lift_Ret _ _ _ _ Ht).
  destruct (Py.getitem chart_rec (u "type")) as [type|e] eqn:Ey.
  - erewrite try_except_Raise; [reflexivity|].
    rewrite (bind_lift_Ret _ _ _ _ eq_refl), (bind_lift_Ret _ _ _ _ Ht).
    apply bind_Raise.
    cbn [SmartChartGenerator.new generate_chart_config].
    apply generate_chart_config_KeyError.
  - erewrite try_except_Raise; [reflexivity|].
    apply (bind_lift_Raise _ _ _ _ eq_refl).
Qed.

Lemma chart_loop_new (api_key : option pystr) (extracted_data : pyval)
    (items : list pyval) :
  forallb has_title items = true ->
  forall i chart_configs w,
    SmartChartGenerator.chart_loop (SmartChartGenerator.new api_key)
      extracted_data i items chart_configs w
    = (Ret chart_configs, w).
Proof.
  induction items as [|chart_rec rest IH]; intros Ht i chart_configs w;
    [reflexivity|].
  simpl in Ht. apply andb_true_iff in Ht as [Hc Hrest].
  cbn [SmartChartGenerator.chart_loop].
  unfold has_title in Hc.
  destruct (Py.getitem chart_rec (u "title")) as [title|e] eqn:Et;
    [|discriminate].
  rewrite (bind_Ret _ _ _ _ _
             (chart_step_new api_key extracted_data i chart_rec title
                chart_configs w Et)).
  now apply IH.
Qed.

(** C1 against the code.  (1) [generate_multiple_charts] of the class
    raises the [KeyError] of the extraction prompt for every report and
    every [num_charts], before the service is asked: no spec is made for
    any recommendation.  (2) Nor would the loop of the class make one:
    given recommendations that have their titles, it passes over each of
    them, since the spec stage raises the [KeyError] of its own prompt.
    (3) The loop takes [recommended_charts[:num_charts]] as the list has
    them: for every object in the place of [self] whose extraction stage
    returns, the priorities of the specs returned are those of the first
    [num_charts] recommendations in the order of the list, less those of
    the recommendations passed over.  (4, 5) Nothing is sorted: of five
    recommendations with the priorities 3, 1, 2, 5, 4 and
    [num_charts = 2] the loop is given those with 3 and 1, and the specs
    returned are never those with 1 and 2. *)
Theorem generate_multiple_charts_order :
  (forall api_key report_content num_charts w,
      SmartChartGenerator.generate_multiple_charts
        (SmartChartGenerator.new api_key) report_content num_charts w
      = (Raise (KeyError
                  (VStr (nl ++ u "    " ++ dq ++ u "extracted_data" ++ dq))),
         w))
  /\ (forall api_key extracted_data recs num_charts w,
        forallb has_title recs = true ->
        SmartChartGenerator.chart_loop (SmartChartGenerator.new api_key)
          extracted_data 0 (Py.slice_to recs num_charts) [] w
        = (Ret [], w))
  /\ (forall self report_content num_charts w w1 w2 result recs configs,
        extract_financial_data self report_content w = (Ret result, w1) ->
        Py.get result (u "recommended_charts") (VList [])
        = Ret (VList recs) ->
        SmartChartGenerator.generate_multiple_charts self report_content
          num_charts w = (Ret (VList configs), w2) ->
        subsequence (map (fun c => field c (u "priority")) configs)
                    (priorities_from 0 (Py.slice_to recs num_charts)))
  /\ priorities_from 0 (Py.slice_to Examples.five_recommendations 2)
     = [Some (VInt 3); Some (VInt 1)]
  /\ (forall self report_content w w1 w2 result configs,
        extract_financial_data self report_content w = (Ret result, w1) ->
        Py.get result (u "recommended_charts") (VList [])
        = Ret (VList Examples.five_recommendations) ->
        SmartChartGenerator.generate_multiple_charts self report_content
          2 w = (Ret (VList configs), w2) ->
        map (fun c => field c (u "priority")) configs
        <> [Some (VInt 1); Some (VInt 2)]).
Proof.
  refine (conj _ (conj _ (conj _ (conj _ _)))).
  - intros api_key report_content num_charts w.
    unfold SmartChartGenerator.generate_multiple_charts.
    apply bind_Raise. cbn [SmartChartGenerator.new extract_financial_data].
    apply extract_financial_data_KeyError.
  - intros api_key extracted_data recs num_charts w Ht.
    apply chart_loop_new. unfold Py.slice_to.
    destruct (num_charts <? 0)%Z.
    + now apply forallb_firstn.
    + now apply forallb_firstn.
  - intros self report_content num_charts w w1 w2 result recs configs.
    apply generate_multiple_charts_priorities.
  - vm_compute. reflexivity.
  - intros self report_content w w1 w2 result configs Hx Hr E Heq.
    pose proof (generate_multiple_charts_priorities _ _ _ _ _ _ _ _ _
                  Hx Hr E) as Hsub.
    rewrite Heq in Hsub.
    assert (Hp : priorities_from 0 (Py.slice_to Examples.five_recommendations 2)
                 = [Some (VInt 3); Some (VInt 1)])
      by (vm_compute; reflexivity).
    rewrite Hp in Hsub.
    repeat match goal with
           | S : subsequence _ _ |- _ => inversion S; clear S; subst
           end.
Qed.

End Orchestrator.

(* ================================================================== *)
(** * The user-request path and the extraction failures *)

Section RequestPath.
Context `{PyLib} `{Env}.

Lemma get_Ret_dict (o : pyval) (k : pystr) (default v : pyval) :
  Py.get o k default = Ret v -> exists d, o = VDict d.
Proof. destruct o; try discriminate. now eexists. Qed.

(** On the user-request path, when both stages return, the answer holds
    the one spec the spec stage made from the whole dataset. *)
Lemma integrate_request_path (generator : Generator) (pdf_text r : pystr)
    (w w1 w2 : World) (x data chart_config : pyval) :
  wants_chart (Some r) = true ->
  extract_financial_data generator pdf_text w = (Ret x, w1) ->
  Py.get x (u "extracted_data") (VDict []) = Ret data ->
  generate_chart_config generator data r w1 = (Ret chart_config, w2) ->
  exists recs,
    Py.get x (u "recommended_charts") (VList []) = Ret recs
    /\ integrate_smart_chart_to_api generator pdf_text (Some r) w
       = (Ret (VDict [(u "extracted_data", data);
                      (u "chart_configs", VList [chart_config]);
                      (u "recommended_charts", recs)]), w2).
Proof.
  intros Hk Hx Hd Hc.
  destruct (get_Ret_dict _ _ _ _ Hd) as [d ->].
  eexists. split; [reflexivity|].
  unfold integrate_smart_chart_to_api.
  erewrite try_except_Ret; [reflexivity|].
  unfold integrate_try. rewrite Hk.
  rewrite (bind_Ret _ _ _ _ _ Hx), (bind_lift_Ret _ _ _ _ Hd).
  rewrite (bind_Ret _ _ _ _ _ Hc). reflexivity.
Qed.

(** C7 against the code.  For a request with a chart keyword the
    function goes the way the claim says - the extraction stage, then the
    spec stage once on the whole dataset with the request, not the
    recommendation loop - but with the generator it builds the
    extraction stage raises while it formats its prompt: for every report
    and every such request the answer is the error dict, and
    [chart_configs] is empty, not of length 1.  For every object in the
    place of the generator: when both stages return, [chart_configs] is
    the list of the one spec; when either raises, it is empty. *)
Theorem integrate_user_request (pdf_text r : pystr) (w : World) :
  wants_chart (Some r) = true ->
  (forall api_key,
      exists result,
        integrate_smart_chart_to_api (SmartChartGenerator.new api_key)
          pdf_text (Some r) w = (Ret result, w)
        /\ field result (u "chart_configs") = Some (VList [])
        /\ field result (u "extracted_data") = Some VNone
        /\ field result (u "error")
           = Some (VStr (str_exn
                           (KeyError
                              (VStr (nl ++ u "    " ++ dq
                                     ++ u "extracted_data" ++ dq))))))
  /\ (forall generator,
        (forall x w1 data chart_config w2,
            extract_financial_data generator pdf_text w = (Ret x, w1) ->
            Py.get x (u "extracted_data") (VDict []) = Ret data ->
            generate_chart_config generator data r w1
            = (Ret chart_config, w2) ->
            exists result,
              integrate_smart_chart_to_api generator pdf_text (Some r) w
              = (Ret result, w2)
              /\ field result (u "extracted_data") = Some data
              /\ field result (u "chart_configs")
                 = Some (VList [chart_config]))
        /\ (forall e w1,
              extract_financial_data generator pdf_text w = (Raise e, w1) ->
              exists result,
                integrate_smart_chart_to_api generator pdf_text (Some r) w
                = (Ret result, w1)
                /\ field result (u "chart_configs") = Some (VList []))
        /\ (forall x w1 data e w2,
              extract_financial_data generator pdf_text w = (Ret x, w1) ->
              Py.get x (u "extracted_data") (VDict []) = Ret data ->
              generate_chart_config generator data r w1 = (Raise e, w2) ->
              exists result,
                integrate_smart_chart_to_api generator pdf_text (Some r) w
                = (Ret result, w2)
                /\ field result (u "chart_configs") = Some (VList []))).
Proof.
  intros Hk. split.
  - intros api_key. eexists. split; [apply integrate_new|].
    repeat split; reflexivity.
  - intros generator. refine (conj _ (conj _ _)).
    + intros x w1 data chart_config w2 Hx Hd Hc.
      destruct (integrate_request_path _ _ _ _ _ _ _ _ _ Hk Hx Hd Hc)
        as (recs & _ & ->).
      eexists. split; [reflexivity|]. split; reflexivity.
    + intros e w1 Hx. eexists. split.
      * exact (integrate_extraction_raises _ _ _ _ _ _ Hx).
      * reflexivity.
    + intros x w1 data e w2 Hx Hd Hc. eexists. split.
      * apply integrate_raises. unfold integrate_try. rewrite Hk.
        rewrite (bind_Ret _ _ _ _ _ Hx), (bind_lift_Ret _ _ _ _ Hd).
        eapply bind_Raise; exact Hc.
      * reflexivity.
Qed.

(** C5 against the code.  (1) The extraction stage of the class raises
    [KeyError] while it formats its prompt: for every report, before the
    service is asked, so whatever the completion would have been.
    (2) With an extraction stage that does return, an empty dataset makes
    [generate_multiple_charts] raise [ValueError], but on the user-request
    path the same result goes on to the spec stage and a spec comes
    back. *)
Theorem extraction_failure_paths :
  (forall (client : client_id) (report_content : pystr) (w : World),
      SmartChartGenerator.extract_financial_data client report_content w
      = (Raise (KeyError
                  (VStr (nl ++ u "    " ++ dq ++ u "extracted_data" ++ dq))),
         w))
  /\ (forall (generator : Generator) (pdf_text r : pystr) (num_charts : Z)
             (w w1 w2 : World) (x chart_config : pyval),
        wants_chart (Some r) = true ->
        extract_financial_data generator pdf_text w = (Ret x, w1) ->
        Py.get x (u "extracted_data") (VDict []) = Ret (VDict []) ->
        generate_chart_config generator (VDict []) r w1
        = (Ret chart_config, w2) ->
        SmartChartGenerator.generate_multiple_charts generator pdf_text
          num_charts w
        = (Raise (ValueError (u "Không thể trích xuất dữ liệu từ báo cáo")),
           w1)
        /\ exists result,
            integrate_smart_chart_to_api generator pdf_text (Some r) w
            = (Ret result, w2)
            /\ field result (u "extracted_data") = Some (VDict [])
            /\ field result (u "chart_configs") = Some (VList [chart_config])
            /\ field result (u "error") = None).
Proof.
  split.
  - intros client report_content w.
    apply extract_financial_data_KeyError.
  - intros generator pdf_text r num_charts w w1 w2 x chart_config
           Hk Hx Hd Hc.
    split.
    + unfold SmartChartGenerator.generate_multiple_charts.
      rewrite (bind_Ret _ _ _ _ _ Hx), (bind_lift_Ret _ _ _ _ Hd).
      destruct (get_Ret_dict _ _ _ _ Hd) as [d ->].
      reflexivity.
    + destruct (integrate_request_path _ _ _ _ _ _ _ _ _ Hk Hx Hd Hc)
        as (recs & _ & ->).
      eexists. split; [reflexivity|]. repeat split; reflexivity.
Qed.

End RequestPath.

(* ================================================================== *)
(** * Token accounting of the full pipeline *)

Section Tokens.
Context `{PyLib} `{Env}.





End Tokens.

(* ================================================================== *)
(** * The renderer: figures *)

Section Figures.
Context `{PyLib} `{Env}.

Ltac figs := stable_with same_figures_refl same_figures_trans.

Lemma plt_call_same_figures (c : PlotCall) : stable same_figures (plt_call c).
Proof.
  intros w. unfold plt_call. now destruct (plt_raises (plot_log w) c).
Qed.

Lemma plt_savefig_same_figures : stable same_figures plt_savefig.
Proof.
  intros w. unfold plt_savefig.
  now destruct (plt_raises (plot_log w) savefig).
Qed.

Lemma draw_same_figures (data chart_type : pyval) :
  stable same_figures (draw data chart_type).
Proof.
  unfold draw, draw_line, draw_bar, draw_pie, draw_scatter, draw_heatmap,
    draw_area, annotate_row, annotate_cell, when_.
  figs; apply plt_call_same_figures.
Qed.

Lemma releases_bind {A B} (fig : nat) (old : list nat) (m : M A)
    (k : A -> M B) :
  stable same_figures m -> (forall a, releases fig old (k a)) ->
  releases fig old (bind m k).
Proof.
  intros Hm Hk w Hw. unfold bind.
  destruct (Hm w) as [Ho _].
  destruct (m w) as [[a|e] w1]; simpl in Ho.
  - apply Hk. congruence.
  - congruence.
Qed.

Lemma releases_close {A} (fig : nat) (old : list nat) (a : A) :
  releases fig old (plt_close fig ;;; ret a).
Proof.
  intros w Hw. unfold bind, ret. cbn.
  exists w. split; [exact Hw|reflexivity].
Qed.

Lemma create_chart_try_releases (fig : nat) (old : list nat)
    (data chart_type title xlabel ylabel : pyval) :
  releases fig old (create_chart_try fig data chart_type title xlabel ylabel).
Proof.
  unfold create_chart_try, when_.
  repeat (apply releases_bind;
          [ first [ apply draw_same_figures
                  | apply plt_call_same_figures
                  | apply plt_savefig_same_figures
                  | figs; apply plt_call_same_figures ]
          | intros ? ]).
  apply releases_close.
Qed.

Lemma remove_figure_head (fig : nat) (old : list nat) :
  remove_figure fig (fig :: old) = old.
Proof. simpl. now rewrite Nat.eqb_refl. Qed.

(** C9.  Whatever the arguments and whatever the backend does,
    [create_chart] leaves the set of open figures as it found it, on the
    path that returns the image and on every path that raises.  When it
    did open a figure, the last plotting call it made is the [close] of
    that figure. *)
Theorem create_chart_releases_figure
    (data chart_type title xlabel ylabel : pyval) (style : pystr)
    (w : World) :
  let w' := snd (create_chart data chart_type title xlabel ylabel style w) in
  open_figures w' = open_figures w
  /\ (next_figure w' = next_figure w
      \/ exists calls, plot_log w' = calls ++ [close (next_figure w)]).
Proof.
  remember (create_chart data chart_type title xlabel ylabel style w)
    as run eqn:Er.
  intros w'. subst w'.
  unfold create_chart in Er. unfold bind at 1 in Er.
  pose proof (plt_call_same_figures (style_use style) w) as [A1 B1].
  destruct (plt_call (style_use style) w) as [[[]|e] w1].
  2:{ subst run. simpl in *. split; [exact A1|left; exact B1]. }
  simpl in A1, B1.
  unfold bind, plt_subplots in Er.
  destruct (plt_raises (plot_log w1) subplots) as [e|].
  { subst run. simpl. split; [exact A1|left; exact B1]. }
  set (w2 := {| chat_log := chat_log w1;
                plot_log := plot_log w1 ++ [subplots];
                open_figures := next_figure w1 :: open_figures w1;
                next_figure := S (next_figure w1) |}) in Er.
  pose proof (create_chart_try_releases (next_figure w1) (open_figures w1)
                data chart_type title xlabel ylabel w2 eq_refl) as R.
  unfold try_except in Er.
  destruct (create_chart_try (next_figure w1) data chart_type title xlabel
              ylabel w2) as [[buffer|e] w3].
  - destruct R as (wk & Hk & ->). subst run. simpl.
    rewrite Hk, remove_figure_head. split; [exact A1|].
    right. rewrite <- B1. now eexists.
  - subst run. unfold plt_close, raise. simpl.
    rewrite R, remove_figure_head. split; [exact A1|].
    right. rewrite <- B1. now eexists.
Qed.

End Figures.

(* ================================================================== *)
(** * Execution under a backend that accepts every call *)

Section Accepted.
Context `{PyLib} `{Env}.

Lemma plt_call_accepted (c : PlotCall) (w : World) :
  permissive -> plt_call c w = (Ret tt, log_plot c w).
Proof. intros Hp. unfold plt_call. now rewrite Hp. Qed.

Lemma plt_subplots_accepted (w : World) :
  permissive ->
  plt_subplots w
  = (Ret (next_figure w),
     {| chat_log := chat_log w;
        plot_log := plot_log w ++ [subplots];
        open_figures := next_figure w :: open_figures w;
        next_figure := S (next_figure w) |}).
Proof. intros Hp. unfold plt_subplots. now rewrite Hp. Qed.

Lemma plt_savefig_accepted (w : World) :
  permissive ->
  plt_savefig w = (Ret (png_bytes (plot_log w)), log_plot savefig w).
Proof. intros Hp. unfold plt_savefig. now rewrite Hp. Qed.

Lemma when_accepted (b : bool) (c : PlotCall) (w : World) :
  permissive ->
  when_ b (plt_call c) w = (Ret tt, if b then log_plot c w else w).
Proof.
  intros Hp. destruct b; [now apply plt_call_accepted|reflexivity].
Qed.

End Accepted.

(** Symbolic execution under a backend that accepts every call. *)
Ltac exec Hp :=
  repeat first
    [ rewrite (bind_Ret _ _ _ _ _ (plt_call_accepted _ _ Hp))
    | rewrite (bind_Ret _ _ _ _ _ (when_accepted _ _ _ Hp))
    | rewrite (bind_Ret _ _ _ _ _ (plt_subplots_accepted _ Hp))
    | rewrite (bind_Ret _ _ _ _ _ (plt_savefig_accepted _ Hp))
    | erewrite bind_lift_Ret by (first [eassumption | reflexivity])
    | rewrite bind_ret_l
    | rewrite bind_assoc ];
  cbv beta.

(* ================================================================== *)
(** * The renderer: the pie branch *)

Section Pie.
Context `{PyLib} `{Env}.

Lemma stable_bind_lift {A B} (R : World -> World -> Prop)
    (R_refl : forall w, R w w) (o : Outcome A) (k : A -> M B) :
  (forall a, o = Ret a -> stable R (k a)) -> stable R (bind (lift o) k).
Proof.
  intros Hk w. destruct o as [a|e]; [apply (Hk a eq_refl)|apply R_refl].
Qed.

Section Calls.
Variable P : PlotCall -> Prop.

Lemma plot_calls_meet_refl (w : World) : plot_calls_meet P w w.
Proof. exists []. now rewrite app_nil_r. Qed.

Lemma plot_calls_meet_trans (w1 w2 w3 : World) :
  plot_calls_meet P w1 w2 -> plot_calls_meet P w2 w3 ->
  plot_calls_meet P w1 w3.
Proof.
  intros (c1 & E1 & F1) (c2 & E2 & F2). exists (c1 ++ c2). split.
  - now rewrite E2, E1, app_assoc.
  - apply Forall_app. now split.
Qed.

Lemma plt_call_meets (c : PlotCall) :
  P c -> stable (plot_calls_meet P) (plt_call c).
Proof.
  intros Hc w. unfold plt_call.
  destruct (plt_raises (plot_log w) c); exists [c]; split; auto.
Qed.

Lemma plt_subplots_meets : P subplots -> stable (plot_calls_meet P) plt_subplots.
Proof.
  intros Hc w. unfold plt_subplots.
  destruct (plt_raises (plot_log w) subplots); exists [subplots]; split; auto.
Qed.

Lemma plt_savefig_meets : P savefig -> stable (plot_calls_meet P) plt_savefig.
Proof.
  intros Hc w. unfold plt_savefig.
  destruct (plt_raises (plot_log w) savefig); exists [savefig]; split; auto.
Qed.

Lemma plt_close_meets (fig : nat) :
  P (close fig) -> stable (plot_calls_meet P) (plt_close fig).
Proof. intros Hc w. exists [close fig]. split; auto. Qed.

End Calls.

(** C8.  For a pie whose data has no [explode], where [labels] is what
    [data.get("labels", [])] gives and [n] its length: every [ax.pie]
    call that [create_chart] makes is given the explode array of [n]
    entries [0.05], and its labels are [labels]; with a backend that
    accepts the calls, [create_chart] returns and has made that call. *)
Theorem create_chart_pie_explode (d : list (pystr * pyval))
    (labels title xlabel ylabel : pyval) (n : nat) (style : pystr)
    (w : World) :
  Py.lookup d (u "explode") = None ->
  Py.get (VDict d) (u "labels") (VList []) = Ret labels ->
  Py.len labels = Ret n ->
  let explode := VList (repeat (VFloat 0.05) n) in
  let run := create_chart (VDict d) (VStr (u "pie")) title xlabel ylabel
               style w in
  plot_calls_meet (pie_call_uses labels explode) w (snd run)
  /\ (permissive ->
      is_Ret (fst run) = true
      /\ exists values colors,
          In (ax_pie values labels colors explode)
             (new_plot_calls w (snd run))).
Proof.
  intros Hx Hl Hn explode run. split.
  - subst run.
    pose proof (plot_calls_meet_refl (pie_call_uses labels explode)) as Rr.
    pose proof (plot_calls_meet_trans (pie_call_uses labels explode)) as Rt.
    unfold create_chart, create_chart_try, when_.
    change (draw (VDict d) (VStr (u "pie"))) with (draw_pie (VDict d)).
    unfold draw_pie.
    repeat first
      [ apply (stable_ret _ Rr)
      | apply (stable_raise _ Rr)
      | apply plt_call_meets; now simpl
      | apply plt_subplots_meets; now simpl
      | apply plt_savefig_meets; now simpl
      | apply plt_close_meets; now simpl
      | apply (stable_bind_lift _ Rr);
        let Ha := fresh "Ha" in
        intros ? Ha;
        first [ rewrite Hl in Ha | rewrite Hn in Ha
              | unfold Py.get in Ha; rewrite Hx in Ha | idtac ];
        try (injection Ha as <-)
      | apply (stable_bind _ Rt); [|intros ?]
      | apply (stable_try_except _ Rt); [|intros ?]
      | match goal with
        | |- stable _ (if ?b then _ else _) => destruct b
        end ].
  - intros Hp. subst run.
    unfold create_chart.
    exec Hp.
    match goal with
    | |- context [try_except ?m _ ?w2] =>
        eassert (E : m w2 = (Ret _, _))
    end.
    { unfold create_chart_try.
      change (draw (VDict d) (VStr (u "pie"))) with (draw_pie (VDict d)).
      unfold draw_pie.
      exec Hp.
      unfold plt_close, bind, ret. reflexivity. }
    rewrite (try_except_Ret _ _ _ _ _ E). cbn [fst snd is_Ret].
    split; [reflexivity|].
    eexists _, _. unfold new_plot_calls.
    unfold Py.get. rewrite Hx.
    destruct (Py.truthy xlabel), (Py.truthy ylabel);
      cbn [log_plot plot_log]; rewrite <- !app_assoc, skipn_app_length;
      simpl; auto.
Qed.

End Pie.

(* ================================================================== *)
(** * The renderer: when it fails *)

Section Failures.
Context `{PyLib} `{Env}.

Lemma must_raise_raise {A} (e : exn) : must_raise (@raise A e).
Proof. now intros w. Qed.

Lemma must_raise_bind_l {A B} (m : M A) (k : A -> M B) :
  must_raise m -> must_raise (bind m k).
Proof.
  intros Hm w. specialize (Hm w). unfold bind.
  now destruct (m w) as [[a|e] w1].
Qed.

Lemma must_raise_bind_r {A B} (m : M A) (k : A -> M B) :
  (forall a, must_raise (k a)) -> must_raise (bind m k).
Proof.
  intros Hk w. unfold bind.
  destruct (m w) as [[a|e] w1]; [apply Hk|reflexivity].
Qed.

Lemma must_raise_bind_lift {A B} (o : Outcome A) (k : A -> M B) :
  (forall a, o = Ret a -> must_raise (k a)) -> must_raise (bind (lift o) k).
Proof.
  intros Hk w. destruct o as [a|e]; [apply (Hk a eq_refl)|reflexivity].
Qed.

Lemma must_raise_try_except {A} (m : M A) (h : exn -> M A) :
  must_raise m -> (forall e, must_raise (h e)) -> must_raise (try_except m h).
Proof.
  intros Hm Hh w. specialize (Hm w). unfold try_except.
  destruct (m w) as [[a|e] w1]; [discriminate|apply Hh].
Qed.

Lemma must_raise_for_each {A} (l : list A) (body : A -> M unit) (x : A) :
  In x l -> must_raise (body x) -> must_raise (for_each l body).
Proof.
  intros Hin Hx. induction l as [|y l IH]; [destruct Hin|].
  simpl. destruct Hin as [-> | Hin].
  - now apply must_raise_bind_l.
  - apply must_raise_bind_r. intros _. now apply IH.
Qed.

(** Whatever happens in the [try], [create_chart] raises when the body
    of the [try] does. *)
Lemma create_chart_must_raise (data chart_type title xlabel ylabel : pyval)
    (style : pystr) :
  must_raise (draw data chart_type) ->
  must_raise (create_chart data chart_type title xlabel ylabel style).
Proof.
  intros Hd. unfold create_chart.
  apply must_raise_bind_r; intros _.
  apply must_raise_bind_r; intros fig.
  apply must_raise_try_except.
  - unfold create_chart_try. now apply must_raise_bind_l.
  - intros e. apply must_raise_bind_r; intros _. apply must_raise_raise.
Qed.


Lemma in_seq_lt (j n : nat) : j < n -> In j (seq 0 n).
Proof. intros Hj. apply in_seq. lia. Qed.





End Failures.

(* ================================================================== *)
(** * Batch rendering *)

Section Batch.
Context `{PyLib} `{Env}.

(** Both sides take the same next step. *)
Ltac same_step m w :=
  let E := fresh "E" in
  let r := fresh "r" in
  let w' := fresh "w" in
  destruct (m w) as [r w'] eqn:E; destruct r;
  [ do 2 (erewrite (bind_Ret m) by exact E)
  | do 2 (erewrite (bind_Raise m) by exact E); reflexivity ].

Lemma individual_loop_app (l1 l2 : list pyval) :
  forall results w,
    individual_loop (l1 ++ l2) results w
    = bind (individual_loop l1 results) (fun r => individual_loop l2 r) w.
Proof.
  induction l1 as [|config l1 IH]; intros results w; [reflexivity|].
  cbn [app individual_loop]. rewrite !bind_assoc.
  same_step (create_chart_of config (u "seaborn")) w.
  rewrite !bind_assoc.
  same_step (lift (Py.getitem config (u "title"))) w0.
  rewrite !bind_assoc.
  same_step (lift (Py.getitem config (u "chart_type"))) w1.
  apply IH.
Qed.

Lemma zip_loop_app (l1 l2 : list pyval) :
  forall i members w,
    zip_loop i (l1 ++ l2) members w
    = bind (zip_loop i l1 members)
           (fun m => zip_loop (i + List.length l1) l2 m) w.
Proof.
  induction l1 as [|config l1 IH]; intros i members w.
  - cbn. now rewrite Nat.add_0_r.
  - cbn [app zip_loop List.length].
    do 4 (rewrite !bind_assoc;
          match goal with
          | |- bind ?m _ ?w0 = bind ?m _ ?w0 => same_step m w0
          end).
    rewrite IH. now rewrite Nat.add_succ_comm.
Qed.

Lemma individual_loop_length (l : list pyval) :
  forall results w results' w',
    individual_loop l results w = (Ret results', w') ->
    List.length results' = List.length results + List.length l.
Proof.
  induction l as [|config l IH]; intros results w results' w' E.
  - injection E as <- _. simpl. lia.
  - cbn [individual_loop] in E.
    apply bind_Ret_inv in E as (buffer & w1 & _ & E).
    apply bind_Ret_inv in E as (title & w2 & _ & E).
    apply bind_Ret_inv in E as (ct & w3 & _ & E).
    apply IH in E. rewrite E, length_app. simpl. lia.
Qed.

Lemma zip_loop_length (l : list pyval) :
  forall i members w members' w',
    zip_loop i l members w = (Ret members', w') ->
    List.length members' = List.length members + List.length l.
Proof.
  induction l as [|config l IH]; intros i members w members' w' E.
  - injection E as <- _. simpl. lia.
  - cbn [zip_loop] in E.
    apply bind_Ret_inv in E as (buffer & w1 & _ & E).
    apply bind_Ret_inv in E as (title & w2 & _ & E).
    apply bind_Ret_inv in E as (name & w3 & _ & E).
    apply bind_Ret_inv in E as (written & w4 & _ & E).
    apply IH in E. rewrite E, length_app. simpl. lia.
Qed.

Lemma create_chart_of_Ret_inv (config : pyval) (style : pystr)
    (w w' : World) (buffer : list N) :
  create_chart_of config style w = (Ret buffer, w') ->
  exists title chart_type,
    Py.getitem config (u "title") = Ret title
    /\ Py.getitem config (u "chart_type") = Ret chart_type.
Proof.
  unfold create_chart_of. intros E.
  apply bind_Ret_inv in E as (data & w1 & _ & E).
  apply bind_Ret_inv in E as (chart_type & w2 & Ec & E).
  apply bind_Ret_inv in E as (title & w3 & Et & E).
  apply lift_Ret_inv in Ec as [Ec _], Et as [Et _].
  now exists title, chart_type.
Qed.

(** When every render returns, the [individual] loop gets through. *)
Lemma individual_loop_total (chart_configs : list pyval) :
  Forall (fun config => always_returns (create_chart_of config (u "seaborn")))
         chart_configs ->
  forall results w,
    exists out w', individual_loop chart_configs results w = (Ret out, w').
Proof.
  induction 1 as [|config rest Hc _ IH]; intros results w;
    [now eexists _, _|].
  specialize (Hc w). cbn [individual_loop].
  destruct (create_chart_of config (u "seaborn") w) as [[buffer|e] w1] eqn:Ec;
    [|discriminate].
  destruct (create_chart_of_Ret_inv _ _ _ _ _ Ec) as (title & ct & Et & Ey).
  rewrite (bind_Ret _ _ _ _ _ Ec).
  rewrite (bind_lift_Ret _ _ _ _ Et), (bind_lift_Ret _ _ _ _ Ey).
  apply IH.
Qed.

(** The [zip] branch after a render that returned: the name of the
    member cannot be made, or the archive does not take the member. *)
Lemma zip_loop_member_raises (config : pyval) (rest : list pyval) (i : nat)
    (members : list (pystr * list N)) (w w' : World) (buffer : list N)
    (title : pyval) (e : exn) :
  create_chart_of config (u "seaborn") w = (Ret buffer, w') ->
  Py.getitem config (u "title") = Ret title ->
  replace_spaces title = Raise e
  \/ (exists name,
        replace_spaces title = Ret name
        /\ zip_writestr (str_int (Z.of_nat i) ++ u "_" ++ name ++ u ".png")
             buffer = Raise e) ->
  zip_loop i (config :: rest) members w = (Raise e, w').
Proof.
  intros Hc Ht Hm. cbn [zip_loop].
  rewrite (bind_Ret _ _ _ _ _ Hc), (bind_lift_Ret _ _ _ _ Ht).
  destruct Hm as [Hn | (name & Hn & Hw)].
  - now rewrite (bind_lift_Raise _ _ _ _ Hn).
  - rewrite (bind_lift_Ret _ _ _ _ Hn).
    now rewrite (bind_lift_Raise _ _ _ _ Hw).
Qed.

(** C2, as the code has it.  [render_all_charts] renders the specs in
    the given order.  (1) When it returns, every spec was rendered: the
    archive has as many members, the JSON body as many charts, as there
    are specs; there is no count of failures.  (2, 3) When the render of
    a spec raises [e] after the specs before it were rendered, the whole
    call raises the HTTP 500 error with [str(e)]: the state is the one in
    which the failure occurred, so no later spec is rendered, and the
    images made so far are not returned.  (4) So it is in the [zip]
    branch when the spec was rendered and the name of its member cannot
    be made - [replace] on a title that is not a string - or the archive
    does not take the member.  (5) The [individual] branch returns when
    every render returns. *)
Theorem render_all_charts_aborts :
  (forall chart_configs output_format w response w',
      render_all_charts chart_configs output_format w = (Ret response, w') ->
      match response with
      | ZipResponse members =>
          List.length members = List.length chart_configs
      | JsonResponse body =>
          field body (u "count")
          = Some (VInt (Z.of_nat (List.length chart_configs)))
          /\ exists charts,
              field body (u "charts") = Some (VList charts)
              /\ List.length charts = List.length chart_configs
      end)
  /\ (forall before config after output_format w results w1 e w2,
        Str.eqb output_format (u "zip") = false ->
        individual_loop before [] w = (Ret results, w1) ->
        create_chart_of config (u "seaborn") w1 = (Raise e, w2) ->
        render_all_charts (before ++ config :: after) output_format w
        = (Raise (HTTPException 500 (str_exn e)), w2))
  /\ (forall before config after w members w1 e w2,
        zip_loop 1 before [] w = (Ret members, w1) ->
        create_chart_of config (u "seaborn") w1 = (Raise e, w2) ->
        render_all_charts (before ++ config :: after) (u "zip") w
        = (Raise (HTTPException 500 (str_exn e)), w2))
  /\ (forall before config after w members w1 buffer w2 title e,
        zip_loop 1 before [] w = (Ret members, w1) ->
        create_chart_of config (u "seaborn") w1 = (Ret buffer, w2) ->
        Py.getitem config (u "title") = Ret title ->
        replace_spaces title = Raise e
        \/ (exists name,
              replace_spaces title = Ret name
              /\ zip_writestr
                   (str_int (Z.of_nat (1 + List.length before)) ++ u "_"
                    ++ name ++ u ".png") buffer = Raise e) ->
        render_all_charts (before ++ config :: after) (u "zip") w
        = (Raise (HTTPException 500 (str_exn e)), w2))
  /\ (forall chart_configs output_format w,
        Str.eqb output_format (u "zip") = false ->
        Forall (fun config =>
                  always_returns (create_chart_of config (u "seaborn")))
               chart_configs ->
        exists results w',
          render_all_charts chart_configs output_format w
          = (Ret (JsonResponse
                    (VDict [(u "success", VBool true);
                            (u "count",
                             VInt (Z.of_nat (List.length chart_configs)));
                            (u "charts", VList results)])), w')
          /\ List.length results = List.length chart_configs).
Proof.
  refine (conj _ (conj _ (conj _ (conj _ _)))).
  - intros chart_configs output_format w response w' E.
    unfold render_all_charts, try_except in E.
    destruct (Str.eqb output_format (u "zip")).
    + destruct (bind (zip_loop 1 chart_configs []) _ w)
        as [[r|e] w0] eqn:Eb; [|discriminate].
      injection E as -> ->.
      apply bind_Ret_inv in Eb as (members & w1 & El & Er).
      injection Er as <- _.
      now apply zip_loop_length in El.
    + destruct (bind (individual_loop chart_configs []) _ w)
        as [[r|e] w0] eqn:Eb; [|discriminate].
      injection E as -> ->.
      apply bind_Ret_inv in Eb as (results & w1 & El & Er).
      injection Er as <- _.
      apply individual_loop_length in El. simpl in El.
      split.
      * cbn [field Py.lookup].
        replace (Str.eqb (u "success") (u "count")) with false by reflexivity.
        replace (Str.eqb (u "count") (u "count")) with true by reflexivity.
        now rewrite El.
      * exists results. split; [reflexivity|exact El].
  - intros before config after output_format w results w1 e w2 Hf Hl Hc.
    unfold render_all_charts. rewrite Hf.
    erewrite try_except_Raise; [reflexivity|].
    apply bind_Raise. rewrite individual_loop_app.
    rewrite (bind_Ret _ _ _ _ _ Hl). cbn [individual_loop].
    now apply bind_Raise.
  - intros before config after w members w1 e w2 Hl Hc.
    unfold render_all_charts.
    replace (Str.eqb (u "zip") (u "zip")) with true by reflexivity.
    erewrite try_except_Raise; [reflexivity|].
    apply bind_Raise. rewrite zip_loop_app.
    rewrite (bind_Ret _ _ _ _ _ Hl). cbn [zip_loop].
    now apply bind_Raise.
  - intros before config after w members w1 buffer w2 title e Hl Hc Ht Hm.
    unfold render_all_charts.
    replace (Str.eqb (u "zip") (u "zip")) with true by reflexivity.
    erewrite try_except_Raise; [reflexivity|].
    apply bind_Raise. rewrite zip_loop_app.
    rewrite (bind_Ret _ _ _ _ _ Hl).
    now apply (zip_loop_member_raises _ _ _ _ _ _ buffer title).
  - intros chart_configs output_format w Hf Hall.
    unfold render_all_charts. rewrite Hf.
    destruct (individual_loop_total chart_configs Hall [] w)
      as (out & w' & El).
    exists out, w'. split.
    + apply try_except_Ret. rewrite (bind_Ret _ _ _ _ _ El).
      apply individual_loop_length in El. simpl in El.
      unfold ret. now rewrite El.
    + now apply individual_loop_length in El.
Qed.

End Batch.

(* ================================================================== *)
(** * The statements at concrete inputs *)

Section Instances.

#[local] Existing Instance Examples.lib.
#[local] Existing Instance Examples.service.

(** Five recommendations with the priorities 3, 1, 2, 5, 4 and
    [num_charts = 2].  The loop of the class passes over the first two.
    With an extraction stage and a spec stage that return, in the place
    of those of the class, the specs are those of the recommendations
    with priority 3 and priority 1. *)
Lemma generate_multiple_charts_order_witness :
  SmartChartGenerator.chart_loop (SmartChartGenerator.new None)
    Examples.revenue 0 (Py.slice_to Examples.five_recommendations 2) []
    empty_world
  = (Ret [], empty_world)
  /\ exists configs w2,
      SmartChartGenerator.generate_multiple_charts
        (Examples.double
           (Ret (Examples.extraction Examples.five_recommendations)))
        Examples.report 2 empty_world
      = (Ret (VList configs), w2)
      /\ subsequence (map (fun c => field c (u "priority")) configs)
                     (priorities_from 0
                        (Py.slice_to Examples.five_recommendations 2))
      /\ map (fun c => field c (u "priority")) configs
         = [Some (VInt 3); Some (VInt 1)].
Proof.
  split.
  - assert (Ht : forallb has_title Examples.five_recommendations = true)
      by reflexivity.
    exact (proj1 (proj2 generate_multiple_charts_order)
             None Examples.revenue Examples.five_recommendations 2%Z
             empty_world Ht).
  - eassert (E : SmartChartGenerator.generate_multiple_charts
                   (Examples.double
                      (Ret (Examples.extraction Examples.five_recommendations)))
                   Examples.report 2 empty_world = (Ret (VList _), _))
      by (vm_compute; reflexivity).
    eassert (Hx : extract_financial_data
                    (Examples.double
                       (Ret (Examples.extraction
                               Examples.five_recommendations)))
                    Examples.report empty_world = (Ret _, _))
      by (vm_compute; reflexivity).
    pose proof (proj1 (proj2 (proj2 generate_multiple_charts_order))
                  _ _ _ _ _ _ _ Examples.five_recommendations _
                  Hx eq_refl E) as Hsub.
    eexists _, _. split; [exact E|]. split; [exact Hsub|reflexivity].
Defined.

(** The report of the examples and the request [chart]: the answer is
    the error dict with the message of the [KeyError]. *)
Lemma integrate_never_raises_witness :
  integrate_smart_chart_to_api (SmartChartGenerator.new None)
    Examples.report (Some (u "chart")) empty_world
  = (Ret (VDict [(u "error",
                  VStr (u "'\n    " ++ dq ++ u "extracted_data" ++ dq
                        ++ u "'"));
                 (u "extracted_data", VNone);
                 (u "chart_configs", VList [])]), empty_world).
Proof.
  assert (Hx : extract_financial_data (SmartChartGenerator.new None)
                 Examples.report empty_world
               = (Raise extraction_KeyError, empty_world))
    by (vm_compute; reflexivity).
  rewrite (proj1 (proj2 (proj2 (integrate_never_raises None Examples.report
                                  (Some (u "chart")) empty_world)
                           (SmartChartGenerator.new None)))
             extraction_KeyError empty_world Hx).
  reflexivity.
Defined.

(** A request in Vietnamese with a capital: it has the keywords, and
    the answer of the function has no chart. *)
Lemma integrate_user_request_witness :
  wants_chart (Some Examples.chart_request) = true
  /\ exists result,
      integrate_smart_chart_to_api (SmartChartGenerator.new None)
        Examples.report (Some Examples.chart_request) empty_world
      = (Ret result, empty_world)
      /\ field result (u "chart_configs") = Some (VList [])
      /\ field result (u "extracted_data") = Some VNone.
Proof.
  assert (Hk : wants_chart (Some Examples.chart_request) = true)
    by (vm_compute; reflexivity).
  split; [exact Hk|].
  destruct (proj1 (integrate_user_request Examples.report
                     Examples.chart_request empty_world Hk) None)
    as (result & E & Hc & Hd & _).
  exists result. split; [exact E|]. split; [exact Hc|exact Hd].
Defined.

(** The two paths on an extraction result with an empty dataset. *)
Lemma extraction_failure_paths_witness :
  SmartChartGenerator.generate_multiple_charts
    (Examples.double (Ret Examples.empty_extraction)) Examples.report 3
    empty_world
  = (Raise (ValueError (u "Không thể trích xuất dữ liệu từ báo cáo")),
     add_exchange empty_world
       (Examples.double_request VNone Examples.report,
        Ret {| content := Some (u "not json"); usage_total_tokens := 7 |}))
  /\ exists result w2,
      integrate_smart_chart_to_api
        (Examples.double (Ret Examples.empty_extraction)) Examples.report
        (Some (u "chart")) empty_world
      = (Ret result, w2)
      /\ field result (u "error") = None.
Proof.
  assert (Hk : wants_chart (Some (u "chart")) = true) by reflexivity.
  edestruct (proj2 extraction_failure_paths
               (Examples.double (Ret Examples.empty_extraction))
               Examples.report (u "chart") 3%Z empty_world)
    as (Hm & result & Hr & _ & _ & He);
    [exact Hk | vm_compute; reflexivity | reflexivity
     | vm_compute; reflexivity | ].
  split; [exact Hm|].
  exists result. eexists. split; [exact Hr|exact He].
Defined.


Lemma service_permissive : permissive.
Proof. intros log c. reflexivity. Qed.

(** A pie with four labels and no [explode]: the call to [ax.pie] has
    four explode values, each [0.05]. *)
Lemma create_chart_pie_explode_witness :
  exists values colors,
    In (ax_pie values
          (VList [VStr (u "A"); VStr (u "B"); VStr (u "C"); VStr (u "D")])
          colors
          (VList [VFloat 0.05; VFloat 0.05; VFloat 0.05; VFloat 0.05]))
       (plot_log
          (snd (create_chart Examples.pie_data (VStr (u "pie"))
                  (VStr (u "Thị phần")) VNone VNone (u "seaborn")
                  empty_world))).
Proof.
  destruct (create_chart_pie_explode
              [(u "labels",
                VList [VStr (u "A"); VStr (u "B"); VStr (u "C"); VStr (u "D")]);
               (u "values", VList [VInt 35; VInt 25; VInt 20; VInt 20])]
              (VList [VStr (u "A"); VStr (u "B"); VStr (u "C"); VStr (u "D")])
              (VStr (u "Thị phần")) VNone VNone 4 (u "seaborn") empty_world
              eq_refl eq_refl eq_refl) as [_ P].
  destruct (P service_permissive) as (_ & values & colors & Hin).
  exists values, colors. exact Hin.
Defined.



(** A batch of three specs whose second has an unknown chart type. *)
Lemma render_all_charts_aborts_witness :
  exists detail w2,
    render_all_charts
      [Examples.bar_spec; Examples.unknown_spec; Examples.bar_spec]
      (u "individual") empty_world
    = (Raise (HTTPException 500 detail), w2).
Proof.
  eexists _, _.
  eapply (proj1 (proj2 render_all_charts_aborts)
            [Examples.bar_spec] Examples.unknown_spec [Examples.bar_spec]
            (u "individual") empty_world).
  - reflexivity.
  - vm_compute. reflexivity.
  - vm_compute. reflexivity.
Defined.

(** C2 as stated fails: of two specs one is malformed (N = 2, K = 1).
    Neither form of the batch yields the one image and a failure count of
    1: both raise the HTTP 500 error.  With the malformed spec first,
    the good spec after it is never drawn. *)
Lemma render_all_charts_no_partial_result :
  (exists detail w',
      render_all_charts [Examples.bar_spec; Examples.unknown_spec]
        (u "individual") empty_world
      = (Raise (HTTPException 500 detail), w'))
  /\ (exists detail w',
        render_all_charts [Examples.bar_spec; Examples.unknown_spec]
          (u "zip") empty_world
        = (Raise (HTTPException 500 detail), w'))
  /\ plot_log
       (snd (render_all_charts [Examples.unknown_spec; Examples.bar_spec]
               (u "individual") empty_world))
     = [style_use (u "seaborn"); subplots; close 0].
Proof.
  refine (conj _ (conj _ _)).
  - eexists _, _. vm_compute. reflexivity.
  - eexists _, _. vm_compute. reflexivity.
  - vm_compute. reflexivity.
Qed.

(** The figure of a failed render and the figure of a successful one
    are both closed. *)
Lemma figures_closed_example :
  open_figures
    (snd (create_chart_of Examples.unknown_spec (u "seaborn") empty_world))
  = []
  /\ open_figures
       (snd (create_chart_of Examples.bar_spec (u "seaborn") empty_world))
     = [].
Proof. split; vm_compute; reflexivity. Qed.

End Instances.

(** The square heatmap on a backend whose [imshow] refuses the matrix:
    the render fails with the HTTP 400 error and the figure is closed. *)
Lemma backend_refusal_fails :
  let run :=
    @create_chart_of Examples.lib Examples.strict_env
      Examples.square_heatmap (u "seaborn") empty_world in
  (exists detail, fst run = Raise (HTTPException 400 detail))
  /\ open_figures (snd run) = []
  /\ plot_log (snd run)
     = [style_use (u "seaborn"); subplots;
        ax_imshow (Examples.rows [[1; 2]; [3; 4]]%Z); close 0].
Proof.
  refine (conj _ (conj _ _)).
  - eexists. vm_compute. reflexivity.
  - vm_compute. reflexivity.
  - vm_compute. reflexivity.
Qed.


(* ================================================================== *)
(** * The generator class as shipped *)

Section ShippedClass.
Context `{PyLib} `{Env}.

(** X1.  With the class as it is, [integrate_smart_chart_to_api] answers every
    report and every request with the error dict of the [KeyError] that
    formatting the extraction prompt raises, and exchanges nothing with
    the service. *)
Theorem integrate_shipped_class (api_key : option pystr)
    (pdf_text : pystr) (user_request : option pystr) (w : World) :
  integrate_smart_chart_to_api (SmartChartGenerator.new api_key) pdf_text
    user_request w
  = (Ret (VDict [(u "error", VStr (str_exn extraction_KeyError));
                 (u "extracted_data", VNone);
                 (u "chart_configs", VList [])]), w).
Proof.
  unfold integrate_smart_chart_to_api.
  erewrite try_except_Raise; [reflexivity|].
  unfold integrate_try, SmartChartGenerator.generate_multiple_charts.
  unfold extraction_KeyError.
  destruct (wants_chart user_request).
  - apply bind_Raise. cbn [SmartChartGenerator.new extract_financial_data].
    apply extract_financial_data_KeyError.
  - do 2 apply bind_Raise.
    cbn [SmartChartGenerator.new extract_financial_data].
    apply extract_financial_data_KeyError.
Qed.

(** X2.  The spec stage of the class raises [KeyError] for every dataset and
    every request while it formats its prompt, and
    [generate_multiple_charts] of the class raises for every report and
    every number of charts; neither reaches the service. *)
Theorem shipped_stages_raise (api_key : option pystr) (w : World) :
  (forall extracted_data chart_request,
      generate_chart_config (SmartChartGenerator.new api_key) extracted_data
        chart_request w
      = (Raise (KeyError
                  (VStr (nl ++ u "    " ++ dq ++ u "chart_type" ++ dq))), w))
  /\ (forall report_content num_charts,
        SmartChartGenerator.generate_multiple_charts
          (SmartChartGenerator.new api_key) report_content num_charts w
        = (Raise extraction_KeyError, w)).
Proof.
  split.
  - intros extracted_data chart_request.
    cbn [SmartChartGenerator.new generate_chart_config].
    apply generate_chart_config_KeyError.
  - intros report_content num_charts.
    unfold SmartChartGenerator.generate_multiple_charts, extraction_KeyError.
    apply bind_Raise. cbn [SmartChartGenerator.new extract_financial_data].
    apply extract_financial_data_KeyError.
Qed.

End ShippedClass.

(* ================================================================== *)
(** * The recommendation loop, for every generator *)

Section Loop.
Context `{PyLib} `{Env}.

(** What one iteration does to the list of specs: nothing, or one more
    spec that carries the metadata. *)
Lemma chart_step_Ret_inv (self : Generator) (extracted_data : pyval)
    (i : nat) (chart_rec : pyval) (chart_configs out : list pyval)
    (w w' : World) :
  SmartChartGenerator.chart_step self extracted_data i chart_rec
    chart_configs w = (Ret out, w') ->
  out = chart_configs
  \/ exists chart_config,
      out = chart_configs ++ [chart_config]
      /\ carries_metadata chart_config.
Proof.
  unfold SmartChartGenerator.chart_step. intros E.
  apply bind_Ret_inv in E as (t0 & w0 & Et & E).
  apply lift_Ret_inv in Et as [_ ->].
  apply try_except_Ret_inv in E as [E | (e & w1 & _ & E)].
  2:{ left. now injection E. }
  apply bind_Ret_inv in E as (type & w1 & _ & E).
  apply bind_Ret_inv in E as (title & w2 & _ & E).
  apply bind_Ret_inv in E as (c0 & w3 & _ & E).
  apply bind_Ret_inv in E as (priority & w4 & _ & E).
  apply bind_Ret_inv in E as (c1 & w5 & E1 & E).
  apply bind_Ret_inv in E as (description & w6 & _ & E).
  apply bind_Ret_inv in E as (c2 & w7 & E2 & E).
  apply lift_Ret_inv in E1 as [E1 _], E2 as [E2 _].
  apply setitem_Ret_inv in E1 as (d0 & -> & ->).
  apply setitem_Ret_inv in E2 as (d1 & [= <-] & ->).
  right. eexists. split.
  - apply try_except_Ret_inv in E as [E | (e & w8 & _ & E)].
    + apply bind_Ret_inv in E as (t1 & w8 & _ & E).
      injection E as <- _. reflexivity.
    + injection E as <- _. reflexivity.
  - exists priority, description. cbn [field]. split.
    + rewrite (lookup_store_other _ (u "description") (u "priority"))
        by (vm_compute; reflexivity).
      apply lookup_store_same.
    + apply lookup_store_same.
Qed.

Lemma chart_loop_Ret_inv (self : Generator) (extracted_data : pyval)
    (items : list pyval) :
  forall i chart_configs out w w',
    SmartChartGenerator.chart_loop self extracted_data i items
      chart_configs w = (Ret out, w') ->
    exists added,
      out = chart_configs ++ added
      /\ List.length added <= List.length items
      /\ Forall carries_metadata added.
Proof.
  induction items as [|chart_rec rest IH]; intros i configs out w w' E.
  - injection E as <- _. exists []. rewrite app_nil_r. repeat split; auto.
  - cbn [SmartChartGenerator.chart_loop] in E.
    apply bind_Ret_inv in E as (mid & w1 & Es & E).
    apply IH in E as (added & -> & Hlen & Hall).
    apply chart_step_Ret_inv in Es as [-> | (c & -> & Hc)].
    + exists added. repeat split; auto. simpl. lia.
    + exists (c :: added). rewrite <- app_assoc. repeat split; auto.
      simpl. lia.
Qed.

(** What [generate_multiple_charts] returns, when it returns. *)
Lemma generate_multiple_charts_Ret_inv (self : Generator)
    (report_content : pystr) (num_charts : Z) (w w' : World) (v : pyval) :
  SmartChartGenerator.generate_multiple_charts self report_content
    num_charts w = (Ret v, w') ->
  exists configs,
    v = VList configs
    /\ ((0 <= num_charts)%Z -> List.length configs <= Z.to_nat num_charts)
    /\ Forall carries_metadata configs.
Proof.
  unfold SmartChartGenerator.generate_multiple_charts. intros E.
  apply bind_Ret_inv in E as (x & w1 & _ & E).
  apply bind_Ret_inv in E as (data & w2 & _ & E).
  apply bind_Ret_inv in E as (recs & w3 & _ & E).
  destruct (negb (Py.truthy data)); [discriminate|].
  apply bind_Ret_inv in E as (n1 & w4 & _ & E).
  apply bind_Ret_inv in E as (n2 & w5 & _ & E).
  apply bind_Ret_inv in E as (items & w6 & Ei & E).
  apply bind_Ret_inv in E as (configs & w7 & El & E).
  injection E as <- _.
  apply lift_Ret_inv in Ei as [Ei _].
  apply chart_loop_Ret_inv in El as (added & -> & Hlen & Hall).
  exists added. repeat split; auto.
  intros Hn.
  assert (Hi : List.length items <= Z.to_nat num_charts).
  { unfold Py.iter_slice_to, Py.slice_to in Ei.
    assert (Hneg : (num_charts <? 0)%Z = false) by (apply Z.ltb_ge; lia).
    rewrite Hneg in Ei.
    destruct recs; try discriminate; injection Ei as <-;
      rewrite ?length_map, length_firstn; lia. }
  simpl. lia.
Qed.

(** X3.  [generate_multiple_charts] never returns more specs than
    [num_charts], whatever the two stages do. *)
Theorem generate_multiple_charts_bounded (self : Generator)
    (report_content : pystr) (num_charts : Z) (w w' : World) (v : pyval) :
  (0 <= num_charts)%Z ->
  SmartChartGenerator.generate_multiple_charts self report_content
    num_charts w = (Ret v, w') ->
  exists configs,
    v = VList configs /\ List.length configs <= Z.to_nat num_charts.
Proof.
  intros Hn E.
  destruct (generate_multiple_charts_Ret_inv _ _ _ _ _ _ E)
    as (configs & -> & Hlen & _).
  exists configs. split; [reflexivity|]. now apply Hlen.
Qed.

(** X4.  Every spec that [generate_multiple_charts] returns is a dict that
    has a [priority] and a [description] entry. *)
Theorem generate_multiple_charts_metadata (self : Generator)
    (report_content : pystr) (num_charts : Z) (w w' : World) (v : pyval) :
  SmartChartGenerator.generate_multiple_charts self report_content
    num_charts w = (Ret v, w') ->
  exists configs, v = VList configs /\ Forall carries_metadata configs.
Proof.
  intros E.
  destruct (generate_multiple_charts_Ret_inv _ _ _ _ _ _ E)
    as (configs & -> & _ & Hall).
  now exists configs.
Qed.

(** An iteration whose recommendation has a title returns, whatever the
    spec stage does. *)
Lemma chart_step_returns (self : Generator) (extracted_data : pyval)
    (i : nat) (chart_rec : pyval) (chart_configs : list pyval) (w : World) :
  has_title chart_rec = true ->
  exists out w',
    SmartChartGenerator.chart_step self extracted_data i chart_rec
      chart_configs w = (Ret out, w').
Proof.
  unfold has_title, SmartChartGenerator.chart_step. intros Ht.
  destruct (Py.getitem chart_rec (u "title")) as [t|] eqn:Et; [|discriminate].
  rewrite (bind_lift_Ret _ _ _ _ eq_refl).
  unfold try_except.
  match goal with
  | |- context [match ?m w with _ => _ end] => destruct (m w) as [[a|e] w1]
  end; now eexists _, _.
Qed.

(** An iteration whose recommendation has a title and no type leaves the
    list and the state as they are. *)
Lemma chart_step_untyped (self : Generator) (extracted_data : pyval)
    (i : nat) (chart_rec : pyval) (chart_configs : list pyval) (w : World) :
  untyped chart_rec = true ->
  SmartChartGenerator.chart_step self extracted_data i chart_rec
    chart_configs w = (Ret chart_configs, w).
Proof.
  unfold untyped, has_title, has_type, SmartChartGenerator.chart_step.
  intros Hu. apply andb_true_iff in Hu as [Ht Hy].
  destruct (Py.getitem chart_rec (u "title")) as [t|]; [|discriminate].
  destruct (Py.getitem chart_rec (u "type")) as [y|]; [discriminate|].
  reflexivity.
Qed.

Lemma chart_loop_untyped (self : Generator) (extracted_data : pyval)
    (items : list pyval) :
  forall i chart_configs w,
    forallb untyped items = true ->
    SmartChartGenerator.chart_loop self extracted_data i items
      chart_configs w = (Ret chart_configs, w).
Proof.
  induction items as [|chart_rec rest IH]; intros i configs w Hu.
  - reflexivity.
  - simpl in Hu. apply andb_true_iff in Hu as [Hrec Hrest].
    cbn [SmartChartGenerator.chart_loop].
    rewrite (bind_Ret _ _ _ _ _ (chart_step_untyped _ _ _ _ _ _ Hrec)).
    now apply IH.
Qed.

Lemma chart_loop_missing_title (self : Generator) (extracted_data : pyval)
    (before after : list pyval) (chart_rec : pyval) (e : exn) :
  forallb has_title before = true ->
  Py.getitem chart_rec (u "title") = Raise e ->
  forall i chart_configs w,
    exists w',
      SmartChartGenerator.chart_loop self extracted_data i
        (before ++ chart_rec :: after) chart_configs w = (Raise e, w').
Proof.
  intros Hb He. induction before as [|b before IH]; intros i configs w.
  - exists w. cbn [app SmartChartGenerator.chart_loop].
    apply bind_Raise. unfold SmartChartGenerator.chart_step.
    now rewrite He.
  - simpl in Hb. apply andb_true_iff in Hb as [Hb1 Hb2].
    destruct (chart_step_returns self extracted_data i b configs w Hb1)
      as (out & w1 & Es).
    destruct (IH Hb2 (S i) out w1) as [w' El].
    exists w'. cbn [app SmartChartGenerator.chart_loop].
    now rewrite (bind_Ret _ _ _ _ _ Es).
Qed.

(** X5.  The title of a recommendation is read before the [try] of the loop
    (line 198): a recommendation without one ends the whole call with its
    [KeyError], after the specs of the recommendations before it were
    made, and none of them is returned. *)
Theorem generate_multiple_charts_missing_title (self : Generator)
    (report_content : pystr) (num_charts : Z) (w w1 : World)
    (result data : pyval) (recs before after : list pyval)
    (chart_rec : pyval) (e : exn) :
  extract_financial_data self report_content w = (Ret result, w1) ->
  Py.get result (u "extracted_data") (VDict []) = Ret data ->
  Py.truthy data = true ->
  is_Ret (Py.len data) = true ->
  Py.get result (u "recommended_charts") (VList []) = Ret (VList recs) ->
  Py.slice_to recs num_charts = before ++ chart_rec :: after ->
  forallb has_title before = true ->
  Py.getitem chart_rec (u "title") = Raise e ->
  exists w2,
    SmartChartGenerator.generate_multiple_charts self report_content
      num_charts w = (Raise e, w2).
Proof.
  intros Hx Hd Ht Hlen Hr Hs Hb He.
  unfold SmartChartGenerator.generate_multiple_charts.
  rewrite (bind_Ret _ _ _ _ _ Hx).
  rewrite (bind_lift_Ret _ _ _ _ Hd), (bind_lift_Ret _ _ _ _ Hr).
  rewrite Ht. cbn [negb].
  destruct (Py.len data) as [n|] eqn:En; [|discriminate].
  rewrite (bind_lift_Ret _ _ _ _ eq_refl).
  cbn [Py.len Py.iter_slice_to].
  rewrite (bind_lift_Ret _ _ _ _ eq_refl), (bind_lift_Ret _ _ _ _ eq_refl).
  rewrite Hs.
  destruct (chart_loop_missing_title self data before after chart_rec e
              Hb He 0 [] w1) as [w2 El].
  exists w2. now apply bind_Raise.
Qed.

(** X6.  Recommendations that have a title and no type are passed over
    without a word: when the selected ones are all of that kind the
    answer is the empty list, and the spec stage is not called. *)
Theorem generate_multiple_charts_untyped (self : Generator)
    (report_content : pystr) (num_charts : Z) (w w1 : World)
    (result data : pyval) (recs : list pyval) :
  extract_financial_data self report_content w = (Ret result, w1) ->
  Py.get result (u "extracted_data") (VDict []) = Ret data ->
  Py.truthy data = true ->
  is_Ret (Py.len data) = true ->
  Py.get result (u "recommended_charts") (VList []) = Ret (VList recs) ->
  forallb untyped (Py.slice_to recs num_charts) = true ->
  SmartChartGenerator.generate_multiple_charts self report_content
    num_charts w = (Ret (VList []), w1).
Proof.
  intros Hx Hd Ht Hlen Hr Hu.
  unfold SmartChartGenerator.generate_multiple_charts.
  rewrite (bind_Ret _ _ _ _ _ Hx).
  rewrite (bind_lift_Ret _ _ _ _ Hd), (bind_lift_Ret _ _ _ _ Hr).
  rewrite Ht. cbn [negb].
  destruct (Py.len data) as [n|] eqn:En; [|discriminate].
  rewrite (bind_lift_Ret _ _ _ _ eq_refl).
  cbn [Py.len Py.iter_slice_to].
  rewrite (bind_lift_Ret _ _ _ _ eq_refl), (bind_lift_Ret _ _ _ _ eq_refl).
  now rewrite (bind_Ret _ _ _ _ _ (chart_loop_untyped self data _ 0 [] w1 Hu)).
Qed.

End Loop.

(* ================================================================== *)
(** * The normalizer applied twice *)

Module FenceFacts.

Import StrFacts.

Lemma startswith_app_l (s t p : pystr) :
  startswith s p = true -> startswith (s ++ t) p = true.
Proof.
  revert s; induction p as [|a p IH]; intros s Hs; [reflexivity|].
  destruct s as [|c s]; simpl in *; [discriminate|].
  apply andb_true_iff in Hs as [Hc Hs].
  now rewrite Hc, IH.
Qed.

Lemma startswith_firstn (s p : pystr) (k : nat) :
  startswith (firstn k s) p = true -> startswith s p = true.
Proof.
  intros Hs. rewrite <- (firstn_skipn k s). now apply startswith_app_l.
Qed.

Lemma contains_nil (t : pystr) : contains t [] = true.
Proof. now destruct t. Qed.

Lemma contains_app_l (s t p : pystr) :
  contains s p = true -> contains (s ++ t) p = true.
Proof.
  induction s as [|c s IH]; intros Hc.
  - simpl in Hc. rewrite orb_false_r in Hc.
    destruct p; [apply contains_nil|discriminate].
  - cbn [contains] in Hc. cbn [app contains].
    apply orb_true_iff in Hc as [Hc|Hc]; apply orb_true_iff.
    + left. now apply (startswith_app_l (c :: s) t p).
    + right. now apply IH.
Qed.

Lemma contains_tail (c : N) (s p : pystr) :
  contains (c :: s) p = false -> contains s p = false.
Proof.
  cbn [contains]. intros Hc. now apply orb_false_elim in Hc.
Qed.

Lemma contains_skipn (s p : pystr) (k : nat) :
  contains s p = false -> contains (skipn k s) p = false.
Proof.
  revert s; induction k as [|k IH]; intros s Hc; [exact Hc|].
  destruct s as [|c s]; [exact Hc|].
  simpl skipn. apply IH. now apply contains_tail in Hc.
Qed.

Lemma contains_lstrip (s p : pystr) :
  contains s p = false -> contains (lstrip s) p = false.
Proof.
  induction s as [|c s IH]; intros Hc; [exact Hc|].
  cbn [lstrip]. destruct (is_space c); [|exact Hc].
  apply IH. now apply contains_tail in Hc.
Qed.

Lemma lstrip_suffix (s : pystr) : exists a, s = a ++ lstrip s.
Proof.
  induction s as [|c s [a E]]; [now exists []|].
  cbn [lstrip]. destruct (is_space c).
  - exists (c :: a). simpl. now f_equal.
  - now exists [].
Qed.

Lemma rstrip_prefix (s : pystr) : exists b, s = rstrip s ++ b.
Proof.
  unfold rstrip. destruct (lstrip_suffix (rev s)) as [a E].
  exists (rev a). rewrite <- rev_app_distr, <- E. now rewrite rev_involutive.
Qed.

Lemma contains_rstrip (s p : pystr) :
  contains s p = false -> contains (rstrip s) p = false.
Proof.
  intros Hc. destruct (contains (rstrip s) p) eqn:E; [|reflexivity].
  destruct (rstrip_prefix s) as [b Eb].
  apply (contains_app_l _ b) in E. rewrite <- Eb in E. congruence.
Qed.

Lemma contains_strip (s p : pystr) :
  contains s p = false -> contains (strip s) p = false.
Proof.
  intros Hc. unfold strip. now apply contains_rstrip, contains_lstrip.
Qed.

(** The text before the first occurrence of a separator holds none. *)
Lemma contains_firstn_find (s : pystr) (a : N) (p : pystr) (n : nat) :
  find s (a :: p) = Some n -> contains (firstn n s) (a :: p) = false.
Proof.
  revert n; induction s as [|c s IH]; intros n Hf.
  - discriminate.
  - cbn [find] in Hf.
    destruct (startswith (c :: s) (a :: p)) eqn:E.
    + now injection Hf as <-.
    + destruct (find s (a :: p)) as [m|] eqn:Em; [|discriminate].
      injection Hf as <-. cbn [firstn contains].
      apply orb_false_iff. split; [|now apply IH].
      destruct (startswith (c :: firstn m s) (a :: p)) eqn:E'; [|reflexivity].
      apply (startswith_firstn (c :: s) (a :: p) (S m)) in E'. congruence.
Qed.

Lemma find_None_contains (s p : pystr) :
  find s p = None -> contains s p = false.
Proof.
  induction s as [|c s IH]; cbn [find contains]; intros Hf.
  - now destruct (startswith [] p).
  - destruct (startswith (c :: s) p); [discriminate|].
    destruct (find s p); [discriminate|]. now apply IH.
Qed.

Lemma contains_startswith (s p : pystr) :
  contains s p = false -> startswith s p = false.
Proof.
  destruct s; cbn [contains]; intros Hc; now apply orb_false_elim in Hc.
Qed.

End FenceFacts.

Section NormalizerTwice.

Import StrFacts FenceFacts.

(** A trimmed text that does not open with the fence is returned as it
    is. *)
Lemma normalize_clean (r : pystr) :
  strip r = r -> startswith r fence = false -> normalize r = Ret r.
Proof.
  intros Hs Hf. unfold normalize, normalize_stripped.
  now rewrite Hs, Hf, Hs.
Qed.

Lemma body_clean (body : pystr) :
  contains body fence = false ->
  normalize (strip (if startswith body json_tag
                    then suffix_from 4 body else body))
  = Ret (strip (if startswith body json_tag
                then suffix_from 4 body else body)).
Proof.
  intros Hc. apply normalize_clean; [apply strip_idem|].
  apply contains_startswith, contains_strip.
  destruct (startswith body json_tag); [|exact Hc].
  now apply contains_skipn.
Qed.

(** X7.  What [normalize] returns is trimmed and is a fixed point of
    [normalize]: the five lines can be applied to their own output, as
    happens when a text goes through two of the three places that have
    them, without changing it again. *)
Theorem normalize_idempotent (raw : pystr) :
  exists r,
    normalize raw = Ret r /\ strip r = r /\ normalize r = Ret r.
Proof.
  destruct (startswith (strip raw) fence) eqn:E.
  - destruct (startswith_inv _ _ E) as [after Ea].
    rewrite (normalize_fenced _ _ Ea).
    destruct (find after fence) as [n|] eqn:Ef.
    + destruct (split_go_find fence after [] n Ef) as [tl ->].
      cbn [second nth_error rev app].
      eexists. split; [reflexivity|]. split; [apply strip_idem|].
      apply body_clean. now apply (contains_firstn_find after 96 [96; 96]%N).
    + rewrite (split_go_no_find _ _ [] Ef).
      cbn [second nth_error rev app].
      eexists. split; [reflexivity|]. split; [apply strip_idem|].
      apply body_clean. now apply find_None_contains.
  - exists (strip raw). split; [|split].
    + unfold normalize, normalize_stripped. now rewrite E, strip_idem.
    + apply strip_idem.
    + apply normalize_clean; [apply strip_idem|exact E].
Qed.

End NormalizerTwice.

(* ================================================================== *)
(** * Blank texts *)

Module BlankFacts.

Lemma lstrip_blank (s : pystr) : blank s = true -> lstrip s = [].
Proof.
  induction s as [|c s IH]; [reflexivity|].
  simpl. destruct (is_space c); [exact IH|discriminate].
Qed.

Lemma lstrip_head (s : pystr) (c : N) (r : pystr) :
  lstrip s = c :: r -> is_space c = false.
Proof.
  induction s as [|a s IH]; [discriminate|].
  simpl. destruct (is_space a) eqn:Ea; [exact IH|].
  now intros [= <- _].
Qed.

Lemma lstrip_nil (s : pystr) : lstrip s = [] -> blank s = true.
Proof.
  induction s as [|c s IH]; [reflexivity|].
  simpl. destruct (is_space c); [exact IH|discriminate].
Qed.

Lemma blank_rev (s : pystr) : blank (rev s) = blank s.
Proof.
  unfold blank. induction s as [|c s IH]; [reflexivity|].
  simpl. rewrite forallb_app, IH. simpl.
  rewrite andb_true_r. apply andb_comm.
Qed.

(** [strip] leaves nothing exactly of the blank texts. *)
Lemma strip_nil_blank (s : pystr) : strip s = [] <-> blank s = true.
Proof.
  split.
  - unfold strip, rstrip. intros Hs.
    destruct (lstrip s) as [|c r] eqn:El; [now apply lstrip_nil|].
    apply (f_equal (@rev N)) in Hs. rewrite rev_involutive in Hs.
    simpl rev at 2 in Hs. apply lstrip_nil in Hs.
    rewrite blank_rev in Hs. simpl in Hs.
    now rewrite (lstrip_head _ _ _ El) in Hs.
  - intros Hb. unfold strip. now rewrite (lstrip_blank _ Hb).
Qed.

Lemma blank_app (a b : pystr) : blank (a ++ b) = blank a && blank b.
Proof. apply forallb_app. Qed.

End BlankFacts.

(* ================================================================== *)
(** * What the integration function hands to the pipeline *)

Section Charts.
Context `{PyLib} `{Env}.

Lemma lookup_store_if_truthy_other (d : list (pystr * pyval))
    (k k' : pystr) (v : pyval) :
  Str.eqb k k' = false ->
  Py.lookup (store_if_truthy d k v) k' = Py.lookup d k'.
Proof.
  intros Hk. unfold store_if_truthy.
  destruct (Py.truthy v); [now apply lookup_store_other|reflexivity].
Qed.

(** [integrate_smart_chart_to_api] returns a dict whose [chart_configs]
    is a list of at most three specs. *)
Lemma integrate_inv (generator : Generator) (pdf_text : pystr)
    (user_request : option pystr) (w : World) :
  exists d w' configs,
    integrate_smart_chart_to_api generator pdf_text user_request w
    = (Ret (VDict d), w')
    /\ Py.lookup d (u "chart_configs") = Some (VList configs)
    /\ List.length configs <= 3.
Proof.
  unfold integrate_smart_chart_to_api, try_except.
  destruct (integrate_try generator pdf_text user_request w)
    as [[v|e] w'] eqn:E.
  - unfold integrate_try in E. destruct (wants_chart user_request).
    + apply bind_Ret_inv in E as (x & w1 & _ & E).
      apply bind_Ret_inv in E as (data & w2 & _ & E).
      apply bind_Ret_inv in E as (c & w3 & _ & E).
      apply bind_Ret_inv in E as (recs & w4 & _ & E).
      injection E as <- _.
      eexists _, _, [c]. split; [reflexivity|]. split; [reflexivity|].
      simpl. lia.
    + apply bind_Ret_inv in E as (cs & w1 & Em & E).
      injection E as <- _.
      apply generate_multiple_charts_Ret_inv in Em
        as (configs & -> & Hlen & _).
      eexists _, _, configs. split; [reflexivity|]. split; [reflexivity|].
      apply Hlen. lia.
  - eexists _, _, []. split; [reflexivity|]. split; [reflexivity|].
    simpl. lia.
Qed.

(** X8.  Whatever the generator does and whatever is asked,
    [integrate_smart_chart_to_api] answers with a dict whose
    [chart_configs] entry is a list of at most three specs. *)
Theorem integrate_chart_configs_bounded (generator : Generator)
    (pdf_text : pystr) (user_request : option pystr) (w : World) :
  exists result w' configs,
    integrate_smart_chart_to_api generator pdf_text user_request w
    = (Ret result, w')
    /\ field result (u "chart_configs") = Some (VList configs)
    /\ List.length configs <= 3.
Proof.
  destruct (integrate_inv generator pdf_text user_request w)
    as (d & w' & configs & E & Hc & Hlen).
  now exists (VDict d), w', configs.
Qed.

(** Step 3 of the pipeline, run on what the integration function
    returned. *)
Lemma smart_charts_run (generator : Generator) (pdf_text : pystr)
    (text_content : option pystr) (w w' : World)
    (d : list (pystr * pyval)) (configs : list pyval) :
  integrate_smart_chart_to_api generator pdf_text text_content w
  = (Ret (VDict d), w') ->
  Py.lookup d (u "chart_configs") = Some (VList configs) ->
  smart_charts generator pdf_text text_content w
  = (Ret (match configs with
          | [] =>
              [(u "available", VBool false);
               (u "message",
                VStr (u "Không thể trích xuất dữ liệu biểu đồ từ báo cáo"))]
          | _ =>
              store_if_truthy
                (store_if_truthy
                   (Py.store
                      (Py.store [(u "available", VBool true)] (u "count")
                         (VInt (Z.of_nat (List.length configs))))
                      (u "configs") (VList configs))
                   (u "extracted_data")
                   (match Py.lookup d (u "extracted_data") with
                    | Some v => v
                    | None => VNone
                    end))
                (u "recommendations")
                (match Py.lookup d (u "recommended_charts") with
                 | Some v => v
                 | None => VNone
                 end)
          end), w').
Proof.
  intros E Hc. unfold smart_charts. apply try_except_Ret.
  rewrite (bind_Ret _ _ _ _ _ E). cbn [Py.get]. rewrite Hc.
  rewrite (bind_lift_Ret _ _ _ _ eq_refl).
  destruct configs as [|c configs]; reflexivity.
Qed.

(** The dict [results["charts"]] after step 3: without a [count], or
    with [available] true, the list of specs and its length, which is
    between one and three. *)
Lemma smart_charts_inv (generator : Generator) (pdf_text : pystr)
    (text_content : option pystr) (w : World) :
  exists charts w',
    smart_charts generator pdf_text text_content w = (Ret charts, w')
    /\ (Py.lookup charts (u "count") = None
        /\ Py.lookup charts (u "available") = Some (VBool false)
        \/ exists configs,
            Py.lookup charts (u "count")
            = Some (VInt (Z.of_nat (List.length configs)))
            /\ Py.lookup charts (u "available") = Some (VBool true)
            /\ Py.lookup charts (u "configs") = Some (VList configs)
            /\ 1 <= List.length configs <= 3).
Proof.
  destruct (integrate_inv generator pdf_text text_content w)
    as (d & w' & configs & E & Hc & Hlen).
  eexists _, w'. split; [exact (smart_charts_run _ _ _ _ _ _ _ E Hc)|].
  destruct configs as [|c configs].
  - left. split; reflexivity.
  - right. exists (c :: configs). split; [|split; [|split]].
    + rewrite !lookup_store_if_truthy_other by (vm_compute; reflexivity).
      rewrite lookup_store_other by (vm_compute; reflexivity).
      reflexivity.
    + rewrite !lookup_store_if_truthy_other by (vm_compute; reflexivity).
      rewrite !lookup_store_other by (vm_compute; reflexivity).
      reflexivity.
    + rewrite !lookup_store_if_truthy_other by (vm_compute; reflexivity).
      apply lookup_store_same.
    + simpl in *. lia.
Qed.

(** X9.  The pipeline up to the charts: the statistic [charts_created] is a
    number between zero and three; when it is not zero, charts were asked
    for, [charts.available] is true and [charts.configs] is a list of
    that many specs. *)
Theorem full_pipeline_charts_created (generator : Generator)
    (pdf_file : option UploadFile) (image_files : list UploadFile)
    (text_content : option pystr) (output_format : pystr)
    (create_charts : bool) (w w' : World) (results : pyval) :
  full_pipeline generator pdf_file image_files text_content output_format
    create_charts w = (Ret results, w') ->
  exists charts statistics n,
    field results (u "charts") = Some (VDict charts)
    /\ field results (u "statistics") = Some statistics
    /\ field statistics (u "charts_created") = Some (VInt (Z.of_nat n))
    /\ n <= 3
    /\ (0 < n ->
        create_charts = true
        /\ Py.lookup charts (u "available") = Some (VBool true)
        /\ exists configs,
            Py.lookup charts (u "configs") = Some (VList configs)
            /\ List.length configs = n).
Proof.
  intros E.
  unfold full_pipeline, try_except in E.
  destruct (full_pipeline_try generator pdf_file image_files text_content
              output_format create_charts w) as [[v|e] w0] eqn:Et;
    [|discriminate].
  injection E as -> ->.
  unfold full_pipeline_try in Et.
  apply bind_Ret_inv in Et
    as ([[pdf_text input_summary] combined1] & w1 & _ & Et).
  apply bind_Ret_inv in Et
    as ([[ocr_results tokens2] combined2] & w2 & _ & Et).
  apply bind_Ret_inv in Et as (charts & w3 & E3 & Et).
  apply bind_Ret_inv in Et as ([analysis tokens4] & w4 & _ & Et).
  unfold ret in Et. injection Et as <- <-.
  assert (H3 : Py.lookup charts (u "count") = None
               \/ create_charts = true
                  /\ exists configs,
                      Py.lookup charts (u "count")
                      = Some (VInt (Z.of_nat (List.length configs)))
                      /\ Py.lookup charts (u "available") = Some (VBool true)
                      /\ Py.lookup charts (u "configs") = Some (VList configs)
                      /\ 1 <= List.length configs <= 3).
  { destruct create_charts; cbn [andb] in E3.
    - destruct (Py.truthy (VStr pdf_text)).
      + destruct (smart_charts_inv generator pdf_text text_content w2)
          as (charts' & w3' & Es & Hs).
        rewrite Es in E3. injection E3 as <- _.
        destruct Hs as [[Hn _] | (configs & Hs)]; [now left|].
        right. split; [reflexivity|]. now exists configs.
      + injection E3 as <- _. now left.
    - injection E3 as <- _. now left. }
  exists charts. eexists.
  destruct H3 as [Hn | (-> & configs & Hn & Ha & Hc & Hlen)].
  - exists 0. split; [reflexivity|]. split; [reflexivity|].
    split; [|split; [lia|intros; lia]].
    cbn [field Py.lookup].
    repeat match goal with
           | |- context [Str.eqb ?a ?b] =>
               let r := eval vm_compute in (Str.eqb a b) in
               change (Str.eqb a b) with r
           end.
    cbv iota. rewrite Hn. now destruct create_charts.
  - exists (List.length configs).
    split; [reflexivity|]. split; [reflexivity|].
    split; [|split; [lia|]].
    + cbn [field Py.lookup].
      repeat match goal with
             | |- context [Str.eqb ?a ?b] =>
                 let r := eval vm_compute in (Str.eqb a b) in
                 change (Str.eqb a b) with r
             end.
      cbv iota. now rewrite Hn.
    + intros _. split; [reflexivity|]. split; [exact Ha|].
      now exists configs.
Qed.

End Charts.

(* ================================================================== *)
(** * The pipeline as a whole *)

Section Pipeline.
Context `{PyLib} `{Env}.

Lemma bind_ext {A B} (m : M A) (k k' : A -> M B) (w : World) :
  (forall a w1, k a w1 = k' a w1) -> bind m k w = bind m k' w.
Proof.
  intros Hk. unfold bind. destruct (m w) as [[a|e] w1]; [apply Hk|reflexivity].
Qed.

Lemma full_pipeline_try_no_pdf (generator generator' : Generator)
    (image_files : list UploadFile) (text_content : option pystr)
    (output_format : pystr) (create_charts : bool) (w : World) :
  full_pipeline_try generator None image_files text_content output_format
    create_charts w
  = full_pipeline_try generator' None image_files text_content output_format
      false w.
Proof.
  unfold full_pipeline_try.
  rewrite !bind_ret_l. cbv beta iota.
  apply bind_ext. intros [[ocr_results tokens] combined] w2.
  cbn [Py.truthy andb]. rewrite andb_false_r, !bind_ret_l.
  apply bind_ext. intros [analysis tokens4] w4.
  now destruct create_charts.
Qed.

(** X10.  Without a PDF the chart step is not entered: the generator is not
    used and [create_charts] changes nothing, whatever text and images
    come with the request. *)
Theorem full_pipeline_charts_need_pdf (generator generator' : Generator)
    (image_files : list UploadFile) (text_content : option pystr)
    (output_format : pystr) (create_charts : bool) (w : World) :
  full_pipeline generator None image_files text_content output_format
    create_charts w
  = full_pipeline generator' None image_files text_content output_format
      false w.
Proof.
  unfold full_pipeline, try_except.
  now rewrite (full_pipeline_try_no_pdf generator generator').
Qed.

(** X11.  A submission with nothing in it - no PDF, no image, no text but
    blanks - is answered with an empty analysis; the service is not
    asked. *)
Theorem full_pipeline_empty_submission (generator : Generator)
    (text_content : option pystr) (output_format : pystr)
    (create_charts : bool) (w : World) :
  strip (match text_content with Some t => t | None => [] end) = [] ->
  exists results statistics,
    full_pipeline generator None [] text_content output_format
      create_charts w = (Ret results, w)
    /\ field results (u "analysis") = Some (VDict [])
    /\ field results (u "charts") = Some (VDict [])
    /\ field results (u "statistics") = Some statistics
    /\ field statistics (u "total_tokens_used") = Some (VInt 0).
Proof.
  intros Hs.
  unfold full_pipeline, try_except.
  rewrite (full_pipeline_try_no_pdf generator generator).
  unfold full_pipeline_try.
  rewrite !bind_ret_l. cbv beta iota.
  cbn [andb]. rewrite !bind_ret_l. rewrite Hs. rewrite bind_ret_l.
  eexists _, _. split; [reflexivity|].
  repeat split; reflexivity.
Qed.

Lemma image_loop_log (image_files : list UploadFile) :
  forall images total_tokens combined_text w images' total' combined' w',
    image_loop image_files images total_tokens combined_text w
    = (Ret (images', total', combined'), w') ->
    exists entries new,
      images' = images ++ entries
      /\ map (fun entry => field entry (u "filename")) entries
         = map (fun f => Some (VStr (filename f))) image_files
      /\ chat_log w' = chat_log w ++ new
      /\ map fst new
         = map (fun f => image_request (b64encode (file_bytes f)))
               image_files.
Proof.
  induction image_files as [|img rest IH];
    intros images total combined w images' total' combined' w' E.
  - simpl in E. unfold ret in E. injection E as <- <- <- <-.
    exists [], []. now rewrite !app_nil_r.
  - cbn [image_loop] in E.
    apply bind_Ret_inv in E as (response & w1 & Ec & E).
    apply IH in E as (entries & new & -> & Hn & Hlog & Hx).
    unfold chat_completions_create in Ec. injection Ec as Eo <-.
    cbn [chat_log] in Hlog.
    eexists (_ :: entries), (_ :: new). rewrite <- app_assoc.
    split; [reflexivity|]. split; [|split].
    + cbn [map]. now rewrite Hn.
    + rewrite Hlog, <- app_assoc. reflexivity.
    + cbn [map fst]. now rewrite Hx.
Qed.

(** X12.  Every image sent is analysed: the loop asks the service once per
    image, in the order of the upload, and files one entry per image
    under its file name. *)
Theorem image_loop_entries (image_files : list UploadFile)
    (images : list pyval) (total_tokens : Z) (combined_text : pystr)
    (w w' : World) (images' : list pyval) (total' : Z)
    (combined' : pystr) :
  image_loop image_files images total_tokens combined_text w
  = (Ret (images', total', combined'), w') ->
  exists entries,
    images' = images ++ entries
    /\ map (fun entry => field entry (u "filename")) entries
       = map (fun f => Some (VStr (filename f))) image_files
    /\ map fst (new_exchanges w w')
       = map (fun f => image_request (b64encode (file_bytes f)))
             image_files.
Proof.
  intros E.
  apply image_loop_log in E as (entries & new & -> & Hn & Hlog & Hx).
  exists entries. split; [reflexivity|]. split; [exact Hn|].
  unfold new_exchanges. now rewrite Hlog, skipn_app_length.
Qed.

(** When the service answers every request, the image loop returns. *)
Lemma image_loop_returns (image_files : list UploadFile) :
  (forall log rq, is_Ret (chat_service log rq) = true) ->
  forall images total_tokens combined_text w,
    exists r w',
      image_loop image_files images total_tokens combined_text w
      = (Ret r, w').
Proof.
  intros Hs. induction image_files as [|img rest IH];
    intros images total combined w.
  - now eexists _, _.
  - cbn [image_loop]. unfold bind at 1, chat_completions_create.
    cbv zeta.
    specialize (Hs (chat_log w) (image_request (b64encode (file_bytes img)))).
    destruct (chat_service (chat_log w)
                (image_request (b64encode (file_bytes img))))
      as [response|e]; [|discriminate].
    apply IH.
Qed.

(** X13.  Chart generation is never fatal for the pipeline: when the PDF can
    be read and the service answers every request, [full_pipeline]
    returns, whatever the two stages of the generator do. *)
Theorem full_pipeline_returns (generator : Generator)
    (pdf_file : option UploadFile) (image_files : list UploadFile)
    (text_content : option pystr) (output_format : pystr)
    (create_charts : bool) (w : World) :
  (forall log rq, is_Ret (chat_service log rq) = true) ->
  match pdf_file with
  | Some f => is_Ret (extract_text_from_pdf (file_bytes f)) = true
  | None => True
  end ->
  exists results w',
    full_pipeline generator pdf_file image_files text_content
      output_format create_charts w = (Ret results, w').
Proof.
  intros Hs Hpdf.
  unfold full_pipeline.
  assert (Ht : exists results w',
             full_pipeline_try generator pdf_file image_files text_content
               output_format create_charts w = (Ret results, w')).
  2:{ destruct Ht as (results & w' & Ht). exists results, w'.
      now apply try_except_Ret. }
  unfold full_pipeline_try.
  (* 1. the PDF *)
  match goal with
  | |- context [bind ?m _ w] =>
      assert (E1 : exists r, m w = (Ret r, w))
  end.
  { destruct pdf_file as [f|]; [|now eexists].
    destruct (extract_text_from_pdf (file_bytes f)) as [t|]; [|discriminate].
    rewrite (bind_lift_Ret _ _ _ _ eq_refl). now eexists. }
  destruct E1 as ([[pdf_text input_summary] combined1] & E1).
  rewrite (bind_Ret _ _ _ _ _ E1). clear E1.
  (* 2. the images *)
  match goal with
  | |- context [bind ?m _ w] =>
      assert (E2 : exists r w2, m w = (Ret r, w2))
  end.
  { destruct image_files as [|img rest]; [now eexists _, _|].
    destruct (image_loop_returns (img :: rest) Hs [] 0%Z combined1 w)
      as ([[images t2] c2] & w2 & El).
    rewrite (bind_Ret _ _ _ _ _ El). now eexists _, _. }
  destruct E2 as ([[ocr_results tokens2] combined2] & w2 & E2).
  rewrite (bind_Ret _ _ _ _ _ E2). clear E2.
  (* 3. the charts *)
  match goal with
  | |- context [bind ?m _ w2] =>
      assert (E3 : exists r w3, m w2 = (Ret r, w3))
  end.
  { destruct (create_charts && Py.truthy (VStr pdf_text));
      [|now eexists _, _].
    destruct (smart_charts_inv generator pdf_text text_content w2)
      as (charts & w3 & Es & _).
    now exists charts, w3. }
  destruct E3 as (charts & w3 & E3).
  rewrite (bind_Ret _ _ _ _ _ E3). clear E3.
  (* 4. the analysis *)
  match goal with
  | |- context [bind ?m _ w3] =>
      assert (E4 : exists r w4, m w3 = (Ret r, w4))
  end.
  { destruct (strip combined2); [now eexists _, _|].
    unfold bind, chat_completions_create. cbv zeta.
    match goal with
    | |- context [chat_service ?l ?rq] =>
        specialize (Hs l rq); destruct (chat_service l rq); [|discriminate]
    end.
    now eexists _, _. }
  destruct E4 as ([analysis tokens4] & w4 & E4).
  rewrite (bind_Ret _ _ _ _ _ E4).
  now eexists _, _.
Qed.

End Pipeline.

(* ================================================================== *)
(** * The analysis endpoints *)

Section AnalysisFacts.
Context `{PyLib} `{Env}.

Lemma blank_pages (pages : list pystr) :
  blank (List.concat (map (fun page => page ++ nl ++ nl) pages))
  = forallb blank pages.
Proof.
  unfold blank. induction pages as [|page pages IH]; [reflexivity|].
  cbn [map List.concat forallb]. rewrite !forallb_app, IH.
  cbn [nl forallb]. now rewrite andb_true_r.
Qed.

(** X14.  [analyze_pdf] asks the service at most once.  A PDF whose pages hold
    no text but blanks - or that has no page - is refused with status 400
    inside the [try]; the handler of that [try] catches the refusal, and
    what leaves the endpoint is a status 500 whose detail is the text of
    the 400, the service not being asked.  With a page that is not blank
    the service is asked once through the client of [api_service]; its
    answer comes back with the length of the text, its failure as
    status 500. *)
Theorem analyze_pdf_requests (file : UploadFile) (analysis_type : pystr)
    (pages : list pystr) (w : World) :
  pdf_page_texts (file_bytes file) = Ret pages ->
  (forallb blank pages = true ->
   analyze_pdf file analysis_type w
   = (Raise (HTTPException 500
               (str_exn (HTTPException 400
                           (u "Không thể trích xuất text từ PDF")))), w))
  /\ (forallb blank pages = false ->
      exists text rq o,
        extract_text_from_pdf (file_bytes file) = Ret text
        /\ snd (analyze_pdf file analysis_type w) = add_exchange w (rq, o)
        /\ rq_client rq = api_service_client
        /\ fst (analyze_pdf file analysis_type w)
           = match o with
             | Ret c =>
                 Ret (VDict [(u "success", VBool true);
                             (u "filename", VStr (filename file));
                             (u "text_length",
                              VInt (Z.of_nat (List.length text)));
                             (u "analysis", opt_val (content c));
                             (u "timestamp", VStr now_isoformat)])
             | Raise e => Raise (HTTPException 500 (str_exn e))
             end).
Proof.
  intros Ep.
  assert (Ex : extract_text_from_pdf (file_bytes file)
               = Ret (List.concat (map (fun page => page ++ nl ++ nl) pages)))
    by (unfold extract_text_from_pdf; now rewrite Ep).
  split; intros Hb.
  - rewrite <- blank_pages in Hb. apply BlankFacts.strip_nil_blank in Hb.
    unfold analyze_pdf.
    erewrite try_except_Raise; [reflexivity|].
    rewrite (bind_lift_Ret _ _ _ _ Ex). now rewrite Hb.
  - rewrite <- blank_pages in Hb.
    exists (List.concat (map (fun page => page ++ nl ++ nl) pages)).
    unfold analyze_pdf, try_except.
    rewrite (bind_lift_Ret _ _ _ _ Ex).
    destruct (strip (List.concat (map (fun page => page ++ nl ++ nl) pages)))
      as [|c r] eqn:Es.
    { apply BlankFacts.strip_nil_blank in Es. congruence. }
    assert (Hi : exists instruction,
               prompt_for pdf_prompts analysis_type (u "summary")
               = Ret instruction).
    { unfold prompt_for. cbn [Py.getitem Py.get].
      match goal with
      | |- context [Py.lookup pdf_prompts (u "summary")] =>
          let v := eval vm_compute in (Py.lookup pdf_prompts (u "summary")) in
          change (Py.lookup pdf_prompts (u "summary")) with v
      end.
      now eexists. }
    destruct Hi as [instruction Ei].
    rewrite (bind_lift_Ret _ _ _ _ Ei).
    unfold analyze_with_openai.
    unfold bind, chat_completions_create. cbv beta zeta.
    match goal with
    | |- context [chat_service ?l ?rq] =>
        exists rq, (chat_service l rq); destruct (chat_service l rq)
    end; (split; [exact Ex|repeat split; reflexivity]).
Qed.

Lemma report_blocks_complete (reports : list pyval) :
  forallb complete_report reports = true ->
  exists blocks, report_blocks reports = Ret blocks.
Proof.
  induction reports as [|r rest IH]; intros Hc; [now eexists|].
  simpl in Hc. apply andb_true_iff in Hc as [Hr Hrest].
  unfold complete_report in Hr. apply andb_true_iff in Hr as [Hp Hn].
  destruct (IH Hrest) as [blocks Eb].
  cbn [report_blocks]. unfold report_block. rewrite Eb.
  destruct (Py.getitem r (u "period")); [|discriminate].
  destruct (Py.getitem r (u "content")); [|discriminate].
  now eexists.
Qed.

Lemma report_blocks_incomplete (reports : list pyval) :
  forallb complete_report reports = false ->
  exists e, report_blocks reports = Raise e.
Proof.
  induction reports as [|r rest IH]; intros Hc; [discriminate|].
  simpl in Hc. cbn [report_blocks]. unfold report_block.
  unfold complete_report in Hc at 1.
  destruct (Py.getitem r (u "period")) as [period|e]; [|now exists e].
  destruct (Py.getitem r (u "content")) as [content|e]; [|now exists e].
  destruct (IH Hc) as [e ->]. now exists e.
Qed.

(** X15.  [compare_reports] asks the service at most once.  A report without
    a period or without a content fails the call with status 500 before
    the service is asked.  When every report has both, the service is
    asked once through the client of [api_service]; its answer comes
    back with the number of reports, and its failure as status 500. *)
Theorem compare_reports_requests (reports : list pyval) (w : World) :
  (forallb complete_report reports = false ->
   exists e,
     compare_reports reports w
     = (Raise (HTTPException 500 (str_exn e)), w))
  /\ (forallb complete_report reports = true ->
      exists rq o,
        snd (compare_reports reports w) = add_exchange w (rq, o)
        /\ rq_client rq = api_service_client
        /\ fst (compare_reports reports w)
           = match o with
             | Ret c =>
                 Ret (VDict [(u "success", VBool true);
                             (u "reports_compared",
                              VInt (Z.of_nat (List.length reports)));
                             (u "comparison", opt_val (content c));
                             (u "timestamp", VStr now_isoformat)])
             | Raise e => Raise (HTTPException 500 (str_exn e))
             end).
Proof.
  split; intros Hc.
  - destruct (report_blocks_incomplete reports Hc) as [e Eb].
    exists e. unfold compare_reports.
    erewrite try_except_Raise; [reflexivity|].
    now rewrite (bind_lift_Raise _ _ _ _ Eb).
  - destruct (report_blocks_complete reports Hc) as [blocks Eb].
    unfold compare_reports, try_except.
    rewrite (bind_lift_Ret _ _ _ _ Eb).
    unfold analyze_with_openai.
    unfold bind, chat_completions_create. cbv beta zeta.
    match goal with
    | |- context [chat_service ?l ?rq] =>
        exists rq, (chat_service l rq); destruct (chat_service l rq)
    end; repeat split; reflexivity.
Qed.

(** X16.  An analysis type that the endpoint does not know is not refused.
    [analyze_text] and [analyze_pdf] exchange with the service what they
    exchange for [summary]; the request of the full pipeline is the one
    for [detailed]. *)
Theorem unknown_analysis_type_fallback :
  (forall text analysis_type w,
      Py.lookup text_prompts analysis_type = None ->
      snd (analyze_text text analysis_type w)
      = snd (analyze_text text (u "summary") w))
  /\ (forall file analysis_type w,
        Py.lookup pdf_prompts analysis_type = None ->
        analyze_pdf file analysis_type w
        = analyze_pdf file (u "summary") w)
  /\ (forall output_format combined_text,
        Py.lookup prompts_map output_format = None ->
        analysis_request output_format combined_text
        = analysis_request (u "detailed") combined_text).
Proof.
  refine (conj _ (conj _ _)).
  - intros text analysis_type w Hl.
    unfold analyze_text, prompt_for. cbn [Py.getitem Py.get]. rewrite Hl.
    match goal with
    | |- context [Py.lookup text_prompts (u "summary")] =>
        let r := eval vm_compute in (Py.lookup text_prompts (u "summary")) in
        change (Py.lookup text_prompts (u "summary")) with r
    end.
    cbv iota.
    unfold analyze_with_openai.
    unfold try_except, bind, lift, chat_completions_create. cbv beta zeta.
    match goal with
    | |- context [chat_service ?l ?rq] => destruct (chat_service l rq)
    end; reflexivity.
  - intros file analysis_type w Hl.
    unfold analyze_pdf, prompt_for. cbn [Py.getitem Py.get]. rewrite Hl.
    match goal with
    | |- context [Py.lookup pdf_prompts (u "summary")] =>
        let r := eval vm_compute in (Py.lookup pdf_prompts (u "summary")) in
        change (Py.lookup pdf_prompts (u "summary")) with r
    end.
    reflexivity.
  - intros output_format combined_text Hl.
    unfold analysis_request. rewrite Hl.
    match goal with
    | |- context [Py.lookup prompts_map (u "detailed")] =>
        let r := eval vm_compute in (Py.lookup prompts_map (u "detailed")) in
        change (Py.lookup prompts_map (u "detailed")) with r
    end.
    cbv iota. cbn [to_str]. reflexivity.
Qed.

End AnalysisFacts.

(* ================================================================== *)
(** * The renderer: which inputs it gets through *)

Section Refusal.
Context `{PyLib} `{Env}.

Lemma refusal_ret {A} (a : A) : fails_by_refusal (ret a).
Proof.
  intros w. exists []. split; [simpl; now rewrite app_nil_r|discriminate].
Qed.

Lemma refusal_bind {A B} (m : M A) (k : A -> M B) :
  fails_by_refusal m -> (forall a, fails_by_refusal (k a)) ->
  fails_by_refusal (bind m k).
Proof.
  intros Hm Hk w. destruct (Hm w) as (n1 & L1 & R1).
  unfold fails_only_by_refusal, bind.
  destruct (m w) as [[a|e] w1]; simpl in L1, R1.
  - destruct (Hk a w1) as (n2 & L2 & R2).
    exists (n1 ++ n2). split.
    + now rewrite L2, L1, app_assoc.
    + intros Hf. destruct (R2 Hf) as (b & c & r & cause & -> & Hr).
      exists (n1 ++ b), c, r, cause. split.
      * now rewrite app_assoc.
      * now rewrite app_assoc, <- L1.
  - exists n1. split; [exact L1|]. intros _. now apply R1.
Qed.

Lemma refusal_bind_lift {A B} (o : Outcome A) (k : A -> M B) (a : A) :
  o = Ret a -> fails_by_refusal (k a) -> fails_by_refusal (bind (lift o) k).
Proof. intros -> Hk w. apply Hk. Qed.

(** A handler that only adds to the log keeps the refusal that made the
    body raise. *)
Lemma refusal_try_except {A} (m : M A) (h : exn -> M A) :
  fails_by_refusal m ->
  (forall e w, exists new, plot_log (snd (h e w)) = plot_log w ++ new) ->
  fails_by_refusal (try_except m h).
Proof.
  intros Hm Hh w. destruct (Hm w) as (n1 & L1 & R1).
  unfold fails_only_by_refusal, try_except.
  destruct (m w) as [[a|e] w1]; simpl in L1, R1.
  - exists n1. split; [exact L1|exact R1].
  - destruct (Hh e w1) as (n2 & L2).
    destruct (R1 eq_refl) as (b & c & r & cause & -> & Hr).
    exists ((b ++ c :: r) ++ n2). split.
    + rewrite L2, L1. symmetry. apply app_assoc.
    + intros _. exists b, c, (r ++ n2), cause. split; [|exact Hr].
      now rewrite <- app_assoc.
Qed.

Lemma refusal_when (b : bool) (m : M unit) :
  fails_by_refusal m -> fails_by_refusal (when_ b m).
Proof. destruct b; [trivial|intros _; apply refusal_ret]. Qed.

Lemma refusal_for_each {A} (l : list A) (body : A -> M unit) :
  (forall x, In x l -> fails_by_refusal (body x)) ->
  fails_by_refusal (for_each l body).
Proof.
  induction l as [|y l IH]; intros Hb; [apply refusal_ret|].
  cbn [for_each]. apply refusal_bind.
  - apply Hb. now left.
  - intros _. apply IH. intros x Hx. apply Hb. now right.
Qed.

Lemma refusal_plt_call (c : PlotCall) : fails_by_refusal (plt_call c).
Proof.
  intros w. exists [c]. unfold plt_call.
  destruct (plt_raises (plot_log w) c) as [e|] eqn:E.
  - split; [reflexivity|]. intros _. exists [], c, [], e.
    split; [reflexivity|now rewrite app_nil_r].
  - split; [reflexivity|discriminate].
Qed.

Lemma refusal_plt_subplots : fails_by_refusal plt_subplots.
Proof.
  intros w. exists [subplots]. unfold plt_subplots.
  destruct (plt_raises (plot_log w) subplots) as [e|] eqn:E.
  - split; [reflexivity|]. intros _. exists [], subplots, [], e.
    split; [reflexivity|now rewrite app_nil_r].
  - split; [reflexivity|discriminate].
Qed.

Lemma refusal_plt_savefig : fails_by_refusal plt_savefig.
Proof.
  intros w. exists [savefig]. unfold plt_savefig.
  destruct (plt_raises (plot_log w) savefig) as [e|] eqn:E.
  - split; [reflexivity|]. intros _. exists [], savefig, [], e.
    split; [reflexivity|now rewrite app_nil_r].
  - split; [reflexivity|discriminate].
Qed.

Lemma refusal_plt_close (fig : nat) : fails_by_refusal (plt_close fig).
Proof. intros w. exists [close fig]. split; [reflexivity|discriminate]. Qed.

(** Under a backend that accepts every call nothing is refused. *)
Lemma refusal_returns {A} (m : M A) :
  permissive -> fails_by_refusal m -> always_returns m.
Proof.
  intros Hp Hm w. destruct (Hm w) as (new & _ & R).
  destruct (is_Ret (fst (m w))); [reflexivity|].
  destruct (R eq_refl) as (b & c & r & cause & _ & Hr).
  rewrite Hp in Hr. discriminate.
Qed.

End Refusal.

(** Steps that fail only by a refusal of the backend. *)
Ltac refusal_steps :=
  repeat first
    [ apply (refusal_bind_lift _ _ _ eq_refl)
    | eapply refusal_bind_lift; [eassumption|]
    | apply refusal_plt_call
    | apply refusal_plt_subplots
    | apply refusal_plt_savefig
    | apply refusal_plt_close
    | apply refusal_when
    | apply refusal_ret
    | apply refusal_bind; [|intros ?] ].

Section Drawable.
Context `{PyLib} `{Env}.

Lemma forallb_false_nth {A} (p : A -> bool) (l : list A) :
  forallb p l = false ->
  exists i x, nth_error l i = Some x /\ p x = false.
Proof.
  induction l as [|a l IH]; intros Hf; [discriminate|].
  simpl in Hf. destruct (p a) eqn:Ea.
  - destruct (IH Hf) as (i & x & Hi & Hx). now exists (S i), x.
  - now exists 0, a.
Qed.

Lemma forallb_nth {A} (p : A -> bool) (l : list A) (i : nat) (x : A) :
  forallb p l = true -> nth_error l i = Some x -> p x = true.
Proof.
  intros Hf Hi. apply nth_error_In in Hi.
  now apply (proj1 (forallb_forall p l) Hf).
Qed.

Lemma format_cell_numeric (v : pyval) :
  numeric v = true -> format_cell v = Ret (format_1f v).
Proof.
  destruct v; try discriminate; try reflexivity.
  cbn [numeric format_cell]. now intros ->.
Qed.

Lemma format_cell_other (v : pyval) :
  numeric v = false -> is_Ret (format_cell v) = false.
Proof.
  destruct v; try discriminate; try reflexivity.
  cbn [numeric format_cell]. now intros ->.
Qed.

(** One cell of a row that covers the columns is annotated, unless the
    backend refuses the text. *)
Lemma annotate_cell_refusal (rows : list pyval) (row : pyval)
    (columns i j : nat) :
  nth_error rows i = Some row ->
  row_covers columns row = true ->
  j < columns ->
  fails_by_refusal (annotate_cell (VList rows) i j).
Proof.
  intros Hi Hc Hj. unfold annotate_cell. cbn [Py.index]. rewrite Hi.
  apply (refusal_bind_lift _ _ _ eq_refl).
  destruct columns as [|c]; [lia|]. cbn [row_covers] in Hc.
  destruct row as [| | | | |cells|]; try discriminate.
  apply andb_true_iff in Hc as [Hlen Hnum].
  apply Nat.leb_le in Hlen.
  destruct (nth_error cells j) as [v|] eqn:Ev.
  2:{ apply nth_error_None in Ev. lia. }
  assert (Hv : numeric v = true).
  { apply (forallb_nth numeric (firstn (S c) cells) j v Hnum).
    rewrite nth_error_firstn.
    destruct (Nat.ltb_spec j (S c)); [exact Ev|lia]. }
  cbn [Py.index]. rewrite Ev.
  apply (refusal_bind_lift _ _ _ eq_refl).
  apply (refusal_bind_lift _ _ _ (format_cell_numeric v Hv)).
  apply refusal_plt_call.
Qed.

(** The annotation loop gets through a rectangular matrix, unless the
    backend refuses a text. *)
Lemma annotations_refusal (matrix : pyval) :
  rectangular matrix = true ->
  fails_by_refusal
    (rows <- lift (Py.len matrix) ;;
     for_each (seq 0 rows) (annotate_row matrix)).
Proof.
  intros Hr.
  destruct matrix as [| | | |s|rows|d]; try discriminate.
  - destruct s; [|discriminate].
    apply (refusal_bind_lift _ _ _ eq_refl). apply refusal_ret.
  - destruct rows as [|first rest].
    { apply (refusal_bind_lift _ _ _ eq_refl). apply refusal_ret. }
    cbn [rectangular] in Hr.
    destruct (Py.len first) as [columns|] eqn:Ec; [|discriminate].
    apply (refusal_bind_lift _ _ _ eq_refl).
    apply refusal_for_each. intros i Hi. apply in_seq in Hi.
    destruct (nth_error (first :: rest) i) as [row|] eqn:Ei.
    2:{ apply nth_error_None in Ei. lia. }
    unfold annotate_row. cbn [Py.index nth_error].
    apply (refusal_bind_lift _ _ _ eq_refl).
    apply (refusal_bind_lift _ _ _ Ec).
    apply refusal_for_each. intros j Hj. apply in_seq in Hj.
    apply (annotate_cell_refusal _ row columns); auto; [|lia].
    now apply (forallb_nth _ _ i row Hr).
  - destruct d; [|discriminate].
    apply (refusal_bind_lift _ _ _ eq_refl). apply refusal_ret.
Qed.

(** A row that does not cover the columns stops the annotation. *)
Lemma annotate_row_uncovered (rows : list pyval) (first row : pyval)
    (columns i : nat) :
  nth_error rows 0 = Some first ->
  Py.len first = Ret columns ->
  nth_error rows i = Some row ->
  row_covers columns row = false ->
  must_raise (annotate_row (VList rows) i).
Proof.
  intros H0r Hc Hi Hr. unfold annotate_row. cbn [Py.index]. rewrite H0r.
  apply must_raise_bind_lift. intros ? [= <-].
  apply must_raise_bind_lift. intros c Ec.
  rewrite Hc in Ec. injection Ec as <-.
  destruct columns as [|c]; [discriminate|]. cbn [row_covers] in Hr.
  assert (Hcell : forall j,
             j < S c ->
             (forall w, is_Ret (fst (annotate_cell (VList rows) i j w))
                        = false) ->
             must_raise (for_each (seq 0 (S c))
                           (annotate_cell (VList rows) i))).
  { intros j Hj Hw. apply must_raise_for_each with (x := j); [|exact Hw].
    now apply in_seq_lt. }
  assert (Hrow : forall j w,
             annotate_cell (VList rows) i j w
             = (cell <- lift (Py.index row j) ;;
                text <- lift (format_cell cell) ;;
                plt_call (ax_text j i text)) w).
  { intros j w. unfold annotate_cell. cbn [Py.index]. now rewrite Hi. }
  destruct row as [| | | |s|cells|d].
  1-4, 7: apply (Hcell 0); [lia|]; intros w; now rewrite Hrow.
  - apply (Hcell 0); [lia|]. intros w. rewrite Hrow. now destruct s.
  - apply andb_false_iff in Hr as [Hlen | Hnum].
    + apply Nat.leb_gt in Hlen.
      apply (Hcell (List.length cells)); [lia|]. intros w. rewrite Hrow.
      cbn [Py.index].
      assert (E : nth_error cells (List.length cells) = None)
        by (apply nth_error_None; lia).
      now rewrite E.
    + destruct (forallb_false_nth _ _ Hnum) as (j & v & Hj & Hv).
      assert (Hlt : j < S c).
      { destruct (Nat.ltb_spec j (S c)) as [Hlt|Hge]; [exact Hlt|].
        rewrite nth_error_firstn in Hj.
        destruct (Nat.ltb_spec j (S c)); [lia|discriminate]. }
      rewrite nth_error_firstn in Hj.
      destruct (Nat.ltb_spec j (S c)); [|lia].
      apply (Hcell j Hlt). intros w. rewrite Hrow.
      cbn [Py.index]. rewrite Hj.
      rewrite (bind_lift_Ret _ _ _ _ eq_refl).
      pose proof (format_cell_other v Hv) as Hf.
      destruct (format_cell v); [discriminate|reflexivity].
Qed.

(** The annotation loop does not get through any other matrix. *)
Lemma annotations_must_raise (matrix : pyval) :
  rectangular matrix = false ->
  must_raise
    (rows <- lift (Py.len matrix) ;;
     for_each (seq 0 rows) (annotate_row matrix)).
Proof.
  intros Hr.
  destruct matrix as [| | | |s|rows|d]; try (now intros w).
  - destruct s; [discriminate|now intros w].
  - destruct rows as [|first rest]; [discriminate|].
    cbn [rectangular] in Hr.
    apply must_raise_bind_lift. intros n [= <-].
    destruct (Py.len first) as [columns|e] eqn:Ec.
    + destruct (forallb_false_nth _ _ Hr) as (i & row & Hi & Hrow).
      assert (Hlt : i < List.length (first :: rest))
        by (apply nth_error_Some; now rewrite Hi).
      apply must_raise_for_each with (x := i);
        [now apply in_seq_lt|].
      now apply (annotate_row_uncovered _ first row columns).
    + apply must_raise_for_each with (x := 0); [now left|].
      unfold annotate_row. cbn [Py.index nth_error].
      apply must_raise_bind_lift. intros ? [= <-].
      rewrite Ec. now intros w.
  - destruct d; [discriminate|now intros w].
Qed.

End Drawable.

Section DrawableCharts.
Context `{PyLib} `{Env}.

Lemma when_unsized (v : pyval) (k : nat -> M unit) :
  sized_if_truthy v = false ->
  must_raise (when_ (Py.truthy v) (n <- lift (Py.len v) ;; k n)).
Proof.
  unfold sized_if_truthy. intros Hs.
  apply orb_false_iff in Hs as [Ht Hl].
  apply negb_false_iff in Ht. rewrite Ht. cbn [when_].
  apply must_raise_bind_lift. intros n En. rewrite En in Hl. discriminate.
Qed.

Lemma when_sized (v : pyval) (k : nat -> M unit) :
  sized_if_truthy v = true ->
  (forall n, fails_by_refusal (k n)) ->
  fails_by_refusal (when_ (Py.truthy v) (n <- lift (Py.len v) ;; k n)).
Proof.
  unfold sized_if_truthy. intros Hs Hk.
  destruct (Py.truthy v); [|apply refusal_ret].
  cbn [negb orb] in Hs. cbn [when_].
  destruct (Py.len v) as [n|] eqn:En; [|discriminate].
  apply (refusal_bind_lift _ _ n eq_refl). apply Hk.
Qed.

(** The branches raise on what is not drawable, whatever the backend
    does. *)
Lemma draw_not_drawable (data chart_type : pyval) :
  drawable data chart_type = false -> must_raise (draw data chart_type).
Proof.
  intros Hd.
  destruct data as [| | | | | |d].
  1-6: unfold draw, draw_line, draw_bar, draw_pie, draw_scatter,
         draw_heatmap, draw_area;
       repeat match goal with
              | |- context [if ?b then _ else _] => destruct b
              end; now intros w.
  cbn [drawable] in Hd. unfold draw.
  destruct (Py.eq_str chart_type (u "line")); [discriminate|].
  destruct (Py.eq_str chart_type (u "bar")).
  { unfold draw_bar.
    do 2 (apply must_raise_bind_lift; intros ? [= <-]).
    apply must_raise_bind_lift. intros n En.
    unfold entry in Hd. rewrite En in Hd. discriminate. }
  destruct (Py.eq_str chart_type (u "pie")).
  { unfold draw_pie.
    do 2 (apply must_raise_bind_lift; intros ? [= <-]).
    apply must_raise_bind_lift. intros n En.
    unfold entry in Hd. rewrite En in Hd. discriminate. }
  destruct (Py.eq_str chart_type (u "scatter")).
  { unfold draw_scatter.
    do 2 (apply must_raise_bind_lift; intros ? [= <-]).
    apply must_raise_bind_lift. intros n En.
    unfold entry in Hd. rewrite En in Hd. discriminate. }
  destruct (Py.eq_str chart_type (u "heatmap")).
  { unfold draw_heatmap.
    do 3 (apply must_raise_bind_lift; intros ? [= <-]).
    fold (entry d (u "matrix") (VList [VList []])).
    fold (entry d (u "xlabels") (VList [])).
    fold (entry d (u "ylabels") (VList [])).
    apply must_raise_bind_r; intros _.
    destruct (sized_if_truthy (entry d (u "xlabels") (VList []))) eqn:Sx.
    2:{ apply must_raise_bind_l. now apply when_unsized. }
    apply must_raise_bind_r; intros _.
    destruct (sized_if_truthy (entry d (u "ylabels") (VList []))) eqn:Sy.
    2:{ apply must_raise_bind_l. now apply when_unsized. }
    apply must_raise_bind_r; intros _.
    apply must_raise_bind_r; intros _.
    apply annotations_must_raise.
    now rewrite !andb_true_r in Hd. }
  destruct (Py.eq_str chart_type (u "area")); [discriminate|].
  apply must_raise_raise.
Qed.

(** The branches get through what is drawable, unless the backend
    refuses a call. *)
Lemma draw_refusal (data chart_type : pyval) :
  drawable data chart_type = true ->
  fails_by_refusal (draw data chart_type).
Proof.
  intros Hd.
  destruct data as [| | | | | |d]; try discriminate.
  cbn [drawable] in Hd. unfold draw.
  destruct (Py.eq_str chart_type (u "line")).
  { unfold draw_line. refusal_steps. }
  destruct (Py.eq_str chart_type (u "bar")).
  { unfold draw_bar, entry in *.
    destruct (Py.len _) as [n|] eqn:En in Hd; [|discriminate].
    refusal_steps. }
  destruct (Py.eq_str chart_type (u "pie")).
  { unfold draw_pie, entry in *.
    destruct (Py.len _) as [n|] eqn:En in Hd; [|discriminate].
    refusal_steps. }
  destruct (Py.eq_str chart_type (u "scatter")).
  { unfold draw_scatter, entry in *.
    destruct (Py.len _) as [n|] eqn:En in Hd; [|discriminate].
    refusal_steps. }
  destruct (Py.eq_str chart_type (u "heatmap")).
  { apply andb_true_iff in Hd as [Hd Sy].
    apply andb_true_iff in Hd as [Hr Sx].
    unfold draw_heatmap.
    do 3 apply (refusal_bind_lift _ _ _ eq_refl).
    fold (entry d (u "matrix") (VList [VList []])).
    fold (entry d (u "xlabels") (VList [])).
    fold (entry d (u "ylabels") (VList [])).
    apply refusal_bind; [apply refusal_plt_call|intros _].
    apply refusal_bind;
      [apply (when_sized _ _ Sx); intros n; refusal_steps|intros _].
    apply refusal_bind;
      [apply (when_sized _ _ Sy); intros n; refusal_steps|intros _].
    apply refusal_bind; [apply refusal_plt_call|intros _].
    now apply annotations_refusal. }
  destruct (Py.eq_str chart_type (u "area")); [|discriminate].
  unfold draw_area. refusal_steps.
Qed.

Lemma create_chart_refusal
    (data chart_type title xlabel ylabel : pyval) (style : pystr) :
  drawable data chart_type = true ->
  fails_by_refusal (create_chart data chart_type title xlabel ylabel style).
Proof.
  intros Hd. unfold create_chart.
  apply refusal_bind; [apply refusal_plt_call|intros _].
  apply refusal_bind; [apply refusal_plt_subplots|intros fig].
  apply refusal_try_except.
  - unfold create_chart_try.
    apply refusal_bind; [now apply draw_refusal|intros _].
    refusal_steps.
  - intros e w. exists [close fig]. reflexivity.
Qed.

Lemma create_chart_returns_drawable
    (data chart_type title xlabel ylabel : pyval) (style : pystr) :
  permissive ->
  drawable data chart_type = true ->
  always_returns (create_chart data chart_type title xlabel ylabel style).
Proof.
  intros Hp Hd. apply (refusal_returns _ Hp). now apply create_chart_refusal.
Qed.

(** X17.  What is not drawable is refused, whatever the backend does:
    [create_chart] raises on data that is not a dict, on a chart type
    that is not one of the six, on bars and scatters whose [x] and pies
    whose [labels] have no length, on heatmap labels that are true and
    have no length, and on a heatmap whose matrix the annotation loop
    does not get through - a row that is not a list, is shorter than
    the first row, or holds something that is not a number in the
    columns of the first row (an [int] beyond the range of [float] is
    not one to the f-string). *)
Theorem create_chart_not_drawable
    (data chart_type title xlabel ylabel : pyval) (style : pystr)
    (w : World) :
  drawable data chart_type = false ->
  is_Ret (fst (create_chart data chart_type title xlabel ylabel style w))
  = false.
Proof.
  intros Hd. apply create_chart_must_raise. now apply draw_not_drawable.
Qed.

(** X18.  On what is drawable [create_chart] fails only by a refusal of
    the backend: the run only adds plotting calls to the log, and if it
    raises, the backend has refused one of the calls it added.  Under a
    backend that accepts every call it returns. *)
Theorem create_chart_drawable
    (data chart_type title xlabel ylabel : pyval) (style : pystr)
    (w : World) :
  drawable data chart_type = true ->
  fails_only_by_refusal
    (create_chart data chart_type title xlabel ylabel style) w
  /\ (permissive ->
      is_Ret (fst (create_chart data chart_type title xlabel ylabel style w))
      = true).
Proof.
  intros Hd. split.
  - now apply create_chart_refusal.
  - intros Hp. now apply create_chart_returns_drawable.
Qed.

Lemma create_chart_of_refusal (config data chart_type title : pyval)
    (style : pystr) :
  Py.getitem config (u "data") = Ret data ->
  Py.getitem config (u "chart_type") = Ret chart_type ->
  Py.getitem config (u "title") = Ret title ->
  drawable data chart_type = true ->
  fails_by_refusal (create_chart_of config style).
Proof.
  intros Ed Ec Et Hd. unfold create_chart_of.
  apply (refusal_bind_lift _ _ _ Ed).
  apply (refusal_bind_lift _ _ _ Ec).
  apply (refusal_bind_lift _ _ _ Et).
  destruct config; try discriminate.
  do 2 apply (refusal_bind_lift _ _ _ eq_refl).
  now apply create_chart_refusal.
Qed.

Lemma create_chart_of_returns (config data chart_type title : pyval)
    (style : pystr) :
  permissive ->
  Py.getitem config (u "data") = Ret data ->
  Py.getitem config (u "chart_type") = Ret chart_type ->
  Py.getitem config (u "title") = Ret title ->
  drawable data chart_type = true ->
  always_returns (create_chart_of config style).
Proof.
  intros Hp Ed Ec Et Hd. apply (refusal_returns _ Hp).
  now apply (create_chart_of_refusal config data chart_type title).
Qed.

(** X19.  The examples that [chart_examples] hands out for use with the chart
    endpoint are all accepted by [create_chart]: each of the five
    renders under a backend that accepts every call. *)
Theorem chart_examples_render :
  permissive ->
  Forall (fun example =>
            forall style w,
              is_Ret (fst (create_chart_of example style w)) = true)
         (dict_values chart_examples).
Proof.
  intros Hp. unfold dict_values, chart_examples. cbn [map snd].
  repeat constructor; intros style;
    (eapply create_chart_of_returns;
     [ exact Hp
     | vm_compute; reflexivity
     | vm_compute; reflexivity
     | vm_compute; reflexivity
     | vm_compute; reflexivity ]).
Qed.

End DrawableCharts.

(* ================================================================== *)
(** * Batch rendering of drawable specs *)

Section BatchReturns.
Context `{PyLib} `{Env}.

Lemma renderable_inv (config : pyval) :
  renderable config = true ->
  exists data chart_type title,
    Py.getitem config (u "data") = Ret data
    /\ Py.getitem config (u "chart_type") = Ret chart_type
    /\ Py.getitem config (u "title") = Ret title
    /\ drawable data chart_type = true.
Proof.
  unfold renderable. intros Hr.
  destruct (Py.getitem config (u "data")) as [data|]; [|discriminate].
  destruct (Py.getitem config (u "chart_type")) as [chart_type|];
    [|discriminate].
  destruct (Py.getitem config (u "title")) as [title|]; [|discriminate].
  now exists data, chart_type, title.
Qed.

Lemma individual_loop_refusal (chart_configs : list pyval) :
  forallb renderable chart_configs = true ->
  forall results, fails_by_refusal (individual_loop chart_configs results).
Proof.
  induction chart_configs as [|config rest IH];
    intros Hr results; [apply refusal_ret|].
  simpl in Hr. apply andb_true_iff in Hr as [Hc Hrest].
  destruct (renderable_inv config Hc) as (data & ct & title & Ed & Ec & Et & Hd).
  cbn [individual_loop].
  apply refusal_bind;
    [now apply (create_chart_of_refusal config data ct title)|intros buffer].
  apply (refusal_bind_lift _ _ _ Et).
  apply (refusal_bind_lift _ _ _ Ec).
  now apply IH.
Qed.

Lemma zip_loop_title (chart_configs : list pyval) :
  forallb str_title chart_configs = false ->
  forall i members, must_raise (zip_loop i chart_configs members).
Proof.
  induction chart_configs as [|config rest IH]; intros Hs i members;
    [discriminate|].
  simpl in Hs. cbn [zip_loop].
  apply must_raise_bind_r; intros buffer.
  apply must_raise_bind_lift; intros title Et.
  apply must_raise_bind_lift; intros name En.
  apply must_raise_bind_lift; intros written Ew.
  unfold str_title in Hs at 1. rewrite Et in Hs.
  destruct title as [| | | |s| |]; try discriminate.
  now apply IH.
Qed.

(** X20.  The [individual] branch on renderable specs fails only by a
    refusal of the backend: the run only adds plotting calls to the log,
    and if it raises, the backend has refused one of the calls it added;
    under a backend that accepts every call it returns.  The [zip]
    branch builds the member names with [replace] on the title: one spec
    whose title is not a string - a number, say, which the other branch
    takes - fails the whole archive, whatever the backend does. *)
Theorem render_all_charts_returns (chart_configs : list pyval)
    (output_format : pystr) (w : World) :
  (forallb renderable chart_configs = true ->
   Str.eqb output_format (u "zip") = false ->
   fails_only_by_refusal (render_all_charts chart_configs output_format) w
   /\ (permissive ->
       is_Ret (fst (render_all_charts chart_configs output_format w))
       = true))
  /\ (forallb str_title chart_configs = false ->
      is_Ret (fst (render_all_charts chart_configs (u "zip") w)) = false).
Proof.
  split.
  - intros Hr Hf.
    assert (Hg : fails_by_refusal
                   (render_all_charts chart_configs output_format)).
    { unfold render_all_charts. rewrite Hf.
      apply refusal_try_except.
      - apply refusal_bind; [|intros; apply refusal_ret].
        now apply individual_loop_refusal.
      - intros e w0. exists []. simpl. now rewrite app_nil_r. }
    split; [apply Hg|].
    intros Hp. now apply (refusal_returns _ Hp).
  - intros Hs. unfold render_all_charts.
    replace (Str.eqb (u "zip") (u "zip")) with true by reflexivity.
    apply must_raise_try_except.
    + apply must_raise_bind_l. now apply zip_loop_title.
    + intros e. apply must_raise_raise.
Qed.

End BatchReturns.

(* ================================================================== *)
(** * When the pipeline asks for the analysis *)



Section Analysed.
Context `{PyLib} `{Env}.

Import BlankFacts.

(** The image loop only adds to the text, and what it adds for an image
    is not blank. *)
Lemma image_loop_text (image_files : list UploadFile) :
  forall images total_tokens combined_text w images' total' combined' w',
    image_loop image_files images total_tokens combined_text w
    = (Ret (images', total', combined'), w') ->
    exists added,
      combined' = combined_text ++ added
      /\ (image_files <> [] -> blank added = false).
Proof.
  induction image_files as [|img rest IH];
    intros images total combined w images' total' combined' w' E.
  - injection E as _ _ <- _. exists []. now rewrite app_nil_r.
  - cbn [image_loop] in E.
    apply bind_Ret_inv in E as (response & w1 & _ & E).
    apply IH in E as (added & -> & _).
    eexists. rewrite <- app_assoc. split; [reflexivity|].
    intros _. reflexivity.
Qed.

(** X21.  Only the empty submission goes without analysis.  With a PDF, an
    image or a text that is not blank, a run that returns has asked the
    service for the analysis as its last exchange - also for a PDF
    without any text, which [analyze_pdf] refuses. *)
Theorem full_pipeline_analysed (generator : Generator)
    (pdf_file : option UploadFile) (image_files : list UploadFile)
    (text_content : option pystr) (output_format : pystr)
    (create_charts : bool) (w w' : World) (results : pyval) :
  pdf_file <> None \/ image_files <> []
  \/ blank (match text_content with Some t => t | None => [] end) = false ->
  full_pipeline generator pdf_file image_files text_content output_format
    create_charts w = (Ret results, w') ->
  exists earlier combined_text completion,
    chat_log w'
    = earlier ++ [(analysis_request output_format combined_text,
                   Ret completion)]
    /\ field results (u "analysis")
       = Some (VDict [(u "output_format", VStr output_format);
                      (u "result", opt_val (content completion))]).
Proof.
  intros Hin E.
  unfold full_pipeline, try_except in E.
  destruct (full_pipeline_try generator pdf_file image_files text_content
              output_format create_charts w) as [[v|e] w0] eqn:Et;
    [|discriminate].
  injection E as -> ->.
  unfold full_pipeline_try in Et.
  set (combined0 := match text_content with Some t => t | None => [] end)
    in *.
  apply bind_Ret_inv in Et
    as ([[pdf_text input_summary] combined1] & w1 & E1 & Et).
  assert (H1 : exists added,
             combined1 = combined0 ++ added
             /\ (pdf_file <> None -> blank added = false)).
  { destruct pdf_file as [f|].
    - apply bind_Ret_inv in E1 as (t & w1' & _ & Er).
      injection Er as _ _ <- _. eexists. split; [reflexivity|].
      intros _. reflexivity.
    - injection E1 as _ _ <- _. exists []. now rewrite app_nil_r. }
  destruct H1 as (added1 & -> & Hb1). clear E1.
  apply bind_Ret_inv in Et
    as ([[ocr_results tokens2] combined2] & w2 & E2 & Et).
  assert (H2 : exists added,
             combined2 = (combined0 ++ added1) ++ added
             /\ (image_files <> [] -> blank added = false)).
  { destruct image_files as [|img rest].
    - injection E2 as _ _ <- _. exists []. now rewrite app_nil_r.
    - apply bind_Ret_inv in E2 as ([[images t2] c2] & w2' & El & Er).
      injection Er as _ _ <- _.
      now apply image_loop_text in El. }
  destruct H2 as (added2 & -> & Hb2). clear E2.
  apply bind_Ret_inv in Et as (charts & w3 & _ & Et).
  apply bind_Ret_inv in Et as ([analysis tokens4] & w4 & E4 & Et).
  unfold ret in Et. injection Et as <- <-.
  destruct (strip ((combined0 ++ added1) ++ added2)) as [|c r] eqn:Es.
  - exfalso. apply strip_nil_blank in Es.
    rewrite !blank_app in Es.
    apply andb_true_iff in Es as [Es Ha2].
    apply andb_true_iff in Es as [Ha0 Ha1].
    destruct Hin as [Hp | [Hi | Ht]].
    + rewrite (Hb1 Hp) in Ha1. discriminate.
    + rewrite (Hb2 Hi) in Ha2. discriminate.
    + rewrite Ht in Ha0. discriminate.
  - apply bind_Ret_inv in E4 as (response & w4' & Ec & Er).
    injection Er as <- _ <-.
    unfold chat_completions_create in Ec. injection Ec as Eo <-.
    exists (chat_log w3), ((combined0 ++ added1) ++ added2), response.
    cbn [chat_log]. rewrite Eo. split; reflexivity.
Qed.

End Analysed.

(* ================================================================== *)
(** * The further properties on the examples *)

Section MoreInstances.

#[local] Existing Instance Examples.lib.
#[local] Existing Instance Examples.service.

(** Five recommendations and [num_charts = 2]: two specs at most. *)
Lemma generate_multiple_charts_bounded_witness :
  exists v w',
    SmartChartGenerator.generate_multiple_charts
      (Examples.double (Ret (Examples.extraction Examples.five_recommendations)))
      Examples.report 2 empty_world
    = (Ret v, w')
    /\ exists configs,
        v = VList configs /\ List.length configs <= Z.to_nat 2.
Proof.
  eassert (E : SmartChartGenerator.generate_multiple_charts
                 (Examples.double
                    (Ret (Examples.extraction Examples.five_recommendations)))
                 Examples.report 2 empty_world = (Ret _, _))
    by (vm_compute; reflexivity).
  eexists _, _. split; [exact E|].
  refine (generate_multiple_charts_bounded _ _ 2 _ _ _ _ E). lia.
Defined.

(** The specs of the same run carry their metadata. *)
Lemma generate_multiple_charts_metadata_witness :
  exists v w',
    SmartChartGenerator.generate_multiple_charts
      (Examples.double (Ret (Examples.extraction Examples.five_recommendations)))
      Examples.report 2 empty_world
    = (Ret v, w')
    /\ exists configs, v = VList configs /\ Forall carries_metadata configs.
Proof.
  eassert (E : SmartChartGenerator.generate_multiple_charts
                 (Examples.double
                    (Ret (Examples.extraction Examples.five_recommendations)))
                 Examples.report 2 empty_world = (Ret _, _))
    by (vm_compute; reflexivity).
  eexists _, _. split; [exact E|].
  exact (generate_multiple_charts_metadata _ _ _ _ _ _ E).
Defined.

(** A recommendation without a title after one with a title: the call
    ends with [KeyError('title')]. *)
Lemma generate_multiple_charts_missing_title_witness :
  exists w2,
    SmartChartGenerator.generate_multiple_charts
      (Examples.double
         (Ret (Examples.extraction
                 [Examples.recommendation (u "A") 3;
                  MoreExamples.untitled_recommendation])))
      Examples.report 3 empty_world
    = (Raise (KeyError (VStr (u "title"))), w2).
Proof.
  eapply (generate_multiple_charts_missing_title _ _ 3 empty_world _ _ _
            [Examples.recommendation (u "A") 3;
             MoreExamples.untitled_recommendation]
            [Examples.recommendation (u "A") 3] []
            MoreExamples.untitled_recommendation);
    [ vm_compute; reflexivity
    | vm_compute; reflexivity
    | reflexivity
    | reflexivity
    | vm_compute; reflexivity
    | reflexivity
    | reflexivity
    | reflexivity ].
Defined.

(** One recommendation without a type: an empty list, after the one
    exchange of the extraction stage. *)
Lemma generate_multiple_charts_untyped_witness :
  exists w1,
    SmartChartGenerator.generate_multiple_charts
      (Examples.double
         (Ret (Examples.extraction [MoreExamples.untyped_recommendation])))
      Examples.report 3 empty_world
    = (Ret (VList []), w1)
    /\ List.length (chat_log w1) = 1.
Proof.
  eexists. split.
  - eapply (generate_multiple_charts_untyped _ _ 3 empty_world _ _ _
              [MoreExamples.untyped_recommendation]);
      [ vm_compute; reflexivity
      | vm_compute; reflexivity
      | reflexivity
      | reflexivity
      | vm_compute; reflexivity
      | reflexivity ].
  - reflexivity.
Defined.

(** A run on a PDF with five recommendations: three charts at most. *)
Lemma full_pipeline_charts_created_witness :
  exists results w' statistics n,
    full_pipeline
      (Examples.double (Ret (Examples.extraction Examples.five_recommendations)))
      (Some Examples.report_pdf) [] None (u "summary") true empty_world
    = (Ret results, w')
    /\ field results (u "statistics") = Some statistics
    /\ field statistics (u "charts_created") = Some (VInt (Z.of_nat n))
    /\ n <= 3.
Proof.
  eassert (E : full_pipeline
                 (Examples.double
                    (Ret (Examples.extraction Examples.five_recommendations)))
                 (Some Examples.report_pdf) [] None (u "summary") true
                 empty_world = (Ret _, _))
    by (vm_compute; reflexivity).
  destruct (full_pipeline_charts_created _ _ _ _ _ _ _ _ _ E)
    as (charts & statistics & n & _ & Hs & Hn & Hle & _).
  eexists _, _, statistics, n.
  split; [exact E|]. split; [exact Hs|]. split; [exact Hn|exact Hle].
Defined.

(** Two spaces as the only input. *)
Lemma full_pipeline_empty_submission_witness :
  exists results,
    full_pipeline (SmartChartGenerator.new None) None [] (Some (u "  "))
      (u "summary") true empty_world
    = (Ret results, empty_world)
    /\ field results (u "analysis") = Some (VDict []).
Proof.
  assert (Hs : strip (u "  ") = []) by reflexivity.
  destruct (full_pipeline_empty_submission (SmartChartGenerator.new None)
              (Some (u "  ")) (u "summary") true empty_world Hs)
    as (results & statistics & E & Ha & _).
  exists results. split; [exact E|exact Ha].
Defined.

(** One image: one entry, one request. *)
Lemma image_loop_entries_witness :
  exists images' total' combined' w' entries,
    image_loop [MoreExamples.chart_image] [] 0 [] empty_world
    = (Ret (images', total', combined'), w')
    /\ images' = [] ++ entries
    /\ map (fun entry => field entry (u "filename")) entries
       = [Some (VStr (u "chart.jpg"))].
Proof.
  eassert (E : image_loop [MoreExamples.chart_image] [] 0 [] empty_world
               = (Ret (_, _, _), _))
    by (vm_compute; reflexivity).
  destruct (image_loop_entries _ _ _ _ _ _ _ _ _ E)
    as (entries & He & Hn & _).
  eexists _, _, _, _, entries.
  split; [exact E|]. split; [exact He|exact Hn].
Defined.

(** The class as shipped, whose stages raise, on a readable PDF. *)
Lemma full_pipeline_returns_witness :
  exists results w',
    full_pipeline (SmartChartGenerator.new None) (Some Examples.report_pdf)
      [] None (u "summary") true empty_world
    = (Ret results, w').
Proof.
  apply (full_pipeline_returns (SmartChartGenerator.new None)
           (Some Examples.report_pdf) [] None (u "summary") true
           empty_world);
    [intros log rq; reflexivity|reflexivity].
Defined.

(** A PDF whose page is two spaces: status 500 around the 400. *)
Lemma analyze_pdf_requests_witness :
  analyze_pdf MoreExamples.blank_pdf (u "summary") empty_world
  = (Raise (HTTPException 500
              (str_exn (HTTPException 400
                          (u "Không thể trích xuất text từ PDF")))),
     empty_world).
Proof.
  assert (Ep : pdf_page_texts (file_bytes MoreExamples.blank_pdf)
               = Ret [u "  "]) by reflexivity.
  assert (Hb : forallb blank [u "  "] = true) by reflexivity.
  rewrite (proj1 (analyze_pdf_requests MoreExamples.blank_pdf (u "summary")
                    [u "  "] empty_world Ep) Hb).
  reflexivity.
Defined.

(** Two complete reports and one without a content: no exchange. *)
Lemma compare_reports_requests_witness :
  exists e,
    compare_reports
      (MoreExamples.two_reports ++ [MoreExamples.report_without_content])
      empty_world
    = (Raise (HTTPException 500 (str_exn e)), empty_world).
Proof.
  apply (proj1 (compare_reports_requests
                  (MoreExamples.two_reports
                   ++ [MoreExamples.report_without_content])
                  empty_world)).
  reflexivity.
Defined.

(** The analysis type [forecast] is served as [summary]. *)
Lemma unknown_analysis_type_fallback_witness :
  snd (analyze_text Examples.report (u "forecast") empty_world)
  = snd (analyze_text Examples.report (u "summary") empty_world).
Proof.
  apply (proj1 unknown_analysis_type_fallback
           Examples.report (u "forecast") empty_world).
  reflexivity.
Defined.

(** The ragged heatmap is not drawable. *)
Lemma create_chart_not_drawable_witness :
  is_Ret (fst (create_chart MoreExamples.ragged_data (VStr (u "heatmap"))
                 (VStr (u "Doanh thu")) VNone VNone (u "seaborn")
                 empty_world))
  = false.
Proof.
  apply create_chart_not_drawable. reflexivity.
Defined.

(** The pie of the examples is drawable: it is rendered by the backend
    of the examples; and the square heatmap, which is drawable, fails on
    the backend whose [imshow] refuses the matrix. *)
Lemma create_chart_drawable_witness :
  is_Ret (fst (create_chart Examples.pie_data (VStr (u "pie"))
                 (VStr (u "Doanh thu")) VNone VNone (u "seaborn")
                 empty_world))
  = true
  /\ @fails_only_by_refusal Examples.strict_env _
       (@create_chart Examples.lib Examples.strict_env
          (VDict [(u "matrix", Examples.rows [[1; 2]; [3; 4]]%Z)])
          (VStr (u "heatmap")) (VStr (u "Doanh thu")) VNone VNone
          (u "seaborn"))
       empty_world.
Proof.
  split.
  - apply (proj2 (create_chart_drawable Examples.pie_data (VStr (u "pie"))
                    (VStr (u "Doanh thu")) VNone VNone (u "seaborn")
                    empty_world eq_refl)).
    exact service_permissive.
  - apply (proj1 (@create_chart_drawable Examples.lib Examples.strict_env
                    (VDict [(u "matrix", Examples.rows [[1; 2]; [3; 4]]%Z)])
                    (VStr (u "heatmap")) (VStr (u "Doanh thu")) VNone VNone
                    (u "seaborn") empty_world eq_refl)).
Defined.

(** The five examples on the backend of the examples. *)
Lemma chart_examples_render_witness :
  Forall (fun example =>
            forall style w,
              is_Ret (fst (create_chart_of example style w)) = true)
         (dict_values chart_examples).
Proof. exact (chart_examples_render service_permissive). Defined.

(** A bar chart titled with a number: rendered alone, not archived. *)
Lemma render_all_charts_returns_witness :
  is_Ret (fst (render_all_charts [MoreExamples.bar_titled_2024]
                 (u "individual") empty_world)) = true
  /\ is_Ret (fst (render_all_charts [MoreExamples.bar_titled_2024]
                    (u "zip") empty_world)) = false.
Proof.
  destruct (render_all_charts_returns [MoreExamples.bar_titled_2024]
              (u "individual") empty_world) as (Hi & _).
  destruct (render_all_charts_returns [MoreExamples.bar_titled_2024]
              (u "zip") empty_world) as (_ & Hz).
  split.
  - apply (proj2 (Hi eq_refl eq_refl)). exact service_permissive.
  - apply Hz. reflexivity.
Defined.

(** A PDF whose page is blank is analysed all the same. *)
Lemma full_pipeline_analysed_witness :
  exists results w' earlier combined_text completion,
    full_pipeline (SmartChartGenerator.new None)
      (Some MoreExamples.blank_pdf) [] None (u "summary") false empty_world
    = (Ret results, w')
    /\ chat_log w'
       = earlier ++ [(analysis_request (u "summary") combined_text,
                      Ret completion)].
Proof.
  eassert (E : full_pipeline (SmartChartGenerator.new None)
                 (Some MoreExamples.blank_pdf) [] None (u "summary") false
                 empty_world = (Ret _, _))
    by (vm_compute; reflexivity).
  destruct (full_pipeline_analysed _ _ _ _ _ _ _ _ _
              (or_introl (fun E0 => eq_ind
                 (Some MoreExamples.blank_pdf)
                 (fun o => match o with Some _ => True | None => False end)
                 I None E0)) E)
    as (earlier & combined_text & completion & Hl & _).
  eexists _, _, earlier, combined_text, completion.
  split; [exact E|exact Hl].
Defined.

End MoreInstances.
